(** * Healthcare-AI-Agent-CrewAI: the consultation lifecycle

    A shallow embedding of [healthcare_agent_gui.py] (the CustomTkinter
    front end) and [healthcare_agent_interactive.py] (the command-line
    front end), and the properties of the consultation request/response
    lifecycle that the specification states about them.

    Python values are modelled as the code has them: a [str] is a sequence of
    Unicode code points, a [dict] is an insertion-ordered association list,
    widgets are records holding what the code reads back from them, and the
    methods of [HealthcareAssistantGUI] are programs of a state-and-exception
    monad over the object's attributes and its environment (message boxes,
    the console, started threads, the Tk [after] queue, the agent gateway).

    What can raise in the model: [crew.kickoff()] (any object the gateway
    chooses, an [Exception] or not), a subscript with a missing key, and
    every widget call that changes a widget ([TclError], at the points an
    oracle chooses). Reading an attribute, a widget's text or a Tk variable,
    starting a thread and [root.after] always succeed. A background thread
    runs [execute_consultation] as one step of the session.

    The command-line program is also modelled at the terminal: its
    functions are programs over the lines still to be read, the text
    written and the crews given to the gateway; [input()] raises [EOFError]
    at the end of the input, and the loop of [main] is run with a bound on
    its turns. Of [animation_utils.py] the manager of animations and the
    loading indicator are modelled, with Tk's timers as the list of the
    callbacks that are scheduled. *)

From Stdlib Require Import String Ascii NArith QArith List Lia.
From stdpp Require Import base option list.
Import ListNotations.

Set Default Proof Using "Type".
Open Scope N_scope.

(* ================================================================== *)
(** * Python strings *)
(* ================================================================== *)

Module PyStr.

(** A Python [str]: its code points, in order. *)
Definition str := list N.

(** Source literals are written as UTF-8 text and decoded once. *)
Fixpoint utf8 (bs : list N) : str :=
  match bs with
  | [] => []
  | b0 :: r0 =>
    if b0 <? 128 then b0 :: utf8 r0
    else if b0 <? 224 then
      match r0 with
      | b1 :: r1 =>
        N.lor (N.shiftl (N.land b0 31) 6) (N.land b1 63) :: utf8 r1
      | _ => []
      end
    else if b0 <? 240 then
      match r0 with
      | b1 :: b2 :: r2 =>
        N.lor (N.shiftl (N.land b0 15) 12)
          (N.lor (N.shiftl (N.land b1 63) 6) (N.land b2 63)) :: utf8 r2
      | _ => []
      end
    else
      match r0 with
      | b1 :: b2 :: b3 :: r3 =>
        N.lor (N.shiftl (N.land b0 7) 18)
          (N.lor (N.shiftl (N.land b1 63) 12)
             (N.lor (N.shiftl (N.land b2 63) 6) (N.land b3 63))) :: utf8 r3
      | _ => []
      end
  end.

Definition py (s : string) : str :=
  utf8 (map N_of_ascii (list_ascii_of_string s)).

Definition nl : str := [10].

(** [bool(s)]: the empty string is falsy. *)
Definition truthy (s : str) : bool :=
  match s with [] => false | _ :: _ => true end.

(** [str.isspace] on one code point (CPython's white-space table). *)
Definition isspace (c : N) : bool :=
  ((9 <=? c) && (c <=? 13)) || ((28 <=? c) && (c <=? 32))
  || (c =? 133) || (c =? 160) || (c =? 5760)
  || ((8192 <=? c) && (c <=? 8202))
  || (c =? 8232) || (c =? 8233) || (c =? 8239) || (c =? 8287)
  || (c =? 12288).

Fixpoint lstrip (s : str) : str :=
  match s with
  | c :: s' => if isspace c then lstrip s' else s
  | [] => []
  end.

Definition rstrip (s : str) : str := reverse (lstrip (reverse s)).

(** [s.strip()] *)
Definition strip (s : str) : str := rstrip (lstrip s).

(** [s[:n]] for a non-negative [n] *)
Definition slice_to (n : nat) (s : str) : str := take n s.

(** [c * n] for a one-character string [c] *)
Definition repeat_char (c : N) (n : nat) : str := replicate n c.

(** The format spec [{s:<w}]: pad on the right with spaces up to width [w]. *)
Definition ljust (w : nat) (s : str) : str :=
  s ++ replicate (w - length s) 32.

Fixpoint startswith (s p : str) {struct p} : bool :=
  match p, s with
  | [], _ => true
  | _ :: _, [] => false
  | a :: p', b :: s' => (a =? b) && startswith s' p'
  end.

(** [t in s] *)
Fixpoint contains (s t : str) : bool :=
  startswith s t ||
  match s with
  | [] => false
  | _ :: s' => contains s' t
  end.

(** [t] occurs in [s], as a proposition. *)
Definition occurs_in (t s : str) : Prop :=
  exists a b, s = a ++ t ++ b.

(** [s.split("\n")] *)
Fixpoint split_lines (s : str) : list str :=
  match s with
  | [] => [[]]
  | c :: s' =>
    if c =? 10 then [] :: split_lines s'
    else match split_lines s' with
         | l :: ls => (c :: l) :: ls
         | [] => [[c]]
         end
  end.

(** The lines of a text that are numbered items ("1. ...", "2. ..."),
    without their indentation. *)
Definition is_numbered (line : str) : bool :=
  match line with
  | d :: 46 :: 32 :: _ => (48 <=? d) && (d <=? 57)
  | _ => false
  end.

Definition numbered_lines (s : str) : list str :=
  filter (fun l => is_numbered l = true) (map strip (split_lines s)).

(** [str.upper] restricted to ASCII letters; other code points are kept. *)
Definition ascii_upper (s : str) : str :=
  map (fun c => if (97 <=? c) && (c <=? 122) then c - 32 else c) s.

End PyStr.
Export PyStr.

(** What the Python runtime supplies and the program only calls:
    [str.upper], the full Unicode upper-casing. *)
Class PyRuntime := { upper : str -> str }.

(** A raised object: whether its class derives from [Exception] (what an
    [except Exception] clause catches), and its [str()] and [repr()]. *)
Record PyExc := mkExc {
  exc_is_Exception : bool;
  exc_str : str;
  exc_repr : str
}.

(** The outcome of running Python code: a value, or a raised exception. *)
Inductive Result (A : Type) : Type :=
| Ok (a : A)
| Raise (e : PyExc).
Arguments Ok {A} a.
Arguments Raise {A} e.

#[export] Instance Result_ret : MRet Result := fun A a => Ok a.

#[export] Instance Result_bind : MBind Result := fun A B k r =>
  match r with
  | Ok a => k a
  | Raise e => Raise e
  end.

(** The exception of a failed subscript [d[key]]; its [str()] is the
    [repr()] of the key, which for the keys of this program (no quotes, no
    escapes) is the key between single quotes. *)
Definition KeyError (key : str) : PyExc :=
  {| exc_is_Exception := true;
     exc_str := [39] ++ key ++ [39];
     exc_repr := py "KeyError('" ++ key ++ py "')" |}.

(* ================================================================== *)
(** * Python dictionaries *)
(* ================================================================== *)

Module PyDict.

(** A [dict] literal with string keys: its items in insertion order. *)
Definition dict (V : Type) := list (str * V).

Fixpoint lookup {V} (d : dict V) (k : str) : option V :=
  match d with
  | [] => None
  | (k', v) :: d' => if bool_decide (k' = k) then Some v else lookup d' k
  end.

Definition keys {V} (d : dict V) : list str := map fst d.

(** [k in d] *)
Definition mem {V} (d : dict V) (k : str) : bool :=
  bool_decide (k ∈ keys d).

(** [d[k]], raising [KeyError] for a missing key *)
Definition getitem {V} (d : dict V) (k : str) : Result V :=
  match lookup d k with
  | Some v => Ok v
  | None => Raise (KeyError k)
  end.

(** [d.get(k, default)] *)
Definition get {V} (d : dict V) (k : str) (default : V) : V :=
  match lookup d k with
  | Some v => v
  | None => default
  end.

End PyDict.

(* ================================================================== *)
(** * The agent gateway (CrewAI), as the program sees it *)
(* ================================================================== *)

Module CrewAI.

Record LLM := mkLLM {
  model : str;
  temperature : Q;
  llm_api_key : option str
}.

Record Agent := mkAgent {
  role : str;
  goal : str;
  backstory : str;
  verbose : bool;
  llm : LLM
}.

Record Task := mkTask {
  description : str;
  agent : Agent;
  expected_output : str
}.

Record Crew := mkCrew {
  agents : list Agent;
  tasks : list Task;
  crew_verbose : bool
}.

(** What [crew.kickoff()] does: it returns a result (kept as its [str()])
    or raises. *)
Inductive Kickoff :=
| Returned (result : str)
| Raised (e : PyExc).

End CrewAI.

(* ================================================================== *)
(** * Tk widgets *)
(* ================================================================== *)

Module Tk.

(** A text box: its text, and whether its state is "normal" (a disabled
    text box ignores [insert] and [delete]). *)
Record Textbox := mkTextbox {
  content : str;
  normal : bool
}.

(** [configure(state=...)] *)
Definition configure_state (st : bool) (t : Textbox) : Textbox :=
  {| content := content t; normal := st |}.

(** [delete("1.0", "end")] *)
Definition delete_all (t : Textbox) : Textbox :=
  if normal t then {| content := []; normal := true |} else t.

(** [insert("1.0", s)] *)
Definition insert_start (s : str) (t : Textbox) : Textbox :=
  if normal t then {| content := s ++ content t; normal := true |} else t.

(** [insert("end", s)] *)
Definition insert_end (s : str) (t : Textbox) : Textbox :=
  if normal t then {| content := content t ++ s; normal := true |} else t.

(** [get("1.0", "end-1c")] *)
Definition get_all (t : Textbox) : str := content t.

(** A label: [configure(text=..., text_color=...)] replaces both. *)
Record Label := mkLabel {
  text : str;
  text_color : str
}.

(** A call of [tkinter.messagebox]. *)
Inductive Dialog :=
| showwarning (title message : str)
| showinfo (title message : str)
| showerror (title message : str).

(** The exception a failing widget call raises, with its [str()] and
    [repr()]. *)
Definition TclError (s r : str) : PyExc :=
  {| exc_is_Exception := true; exc_str := s; exc_repr := r |}.

End Tk.

(* ================================================================== *)
(** * healthcare_agent_gui.py *)
(* ================================================================== *)

Module Gui.
Import PyDict CrewAI Tk.

Definition COLORS : dict str := Eval vm_compute in
  [ (py "primary", py "#0D7377");
    (py "accent", py "#14B8A6");
    (py "secondary", py "#2E7D87");
    (py "success", py "#10B981");
    (py "warning", py "#F59E0B");
    (py "danger", py "#EF4444");
    (py "bg_light", py "#F8FAFC");
    (py "bg_dark", py "#0F172A");
    (py "text_primary", py "#0F172A");
    (py "text_secondary", py "#64748B");
    (py "border", py "#E2E8F0");
    (py "hover", py "#0A5F6F") ].

(** The values of the read-only specialist combobox
    ([setup_consultation_tab]). *)
Definition specialists : list str := Eval vm_compute in
  [ py "Medical Advisor";
    py "Symptom Analyzer";
    py "Treatment Recommender";
    py "Nutrition Specialist";
    py "Mental Health Counselor";
    py "Fitness Coach";
    py "Disease Educator";
    py "Preventive Medicine Expert";
    py "Emergency Response Advisor" ].

(** An entry of [agent_configs]: a dict with the keys "role", "goal" and
    "backstory". *)
Record Config := mkConfig {
  cfg_role : str;
  cfg_goal : str;
  cfg_backstory : str
}.

Definition agent_configs : dict Config := Eval vm_compute in
  [ (py "Medical Advisor",
     {| cfg_role := py "Medical Advisor";
        cfg_goal := py "Provide accurate medical information and comprehensive guidance";
        cfg_backstory :=
          py "You are an experienced medical advisor with extensive knowledge 
                    of various medical conditions, symptoms, and treatments. You provide clear, 
                    evidence-based medical information while emphasizing the importance of consulting 
                    healthcare professionals for diagnosis and treatment." |});
    (py "Symptom Analyzer",
     {| cfg_role := py "Symptom Analyzer";
        cfg_goal := py "Analyze symptoms and suggest possible conditions";
        cfg_backstory :=
          py "You are a symptom analysis expert trained to identify patterns 
                    in patient-reported symptoms. You provide possible explanations for symptoms, 
                    assess severity, and recommend when immediate medical attention is needed." |});
    (py "Treatment Recommender",
     {| cfg_role := py "Treatment Recommender";
        cfg_goal := py "Suggest evidence-based treatment options";
        cfg_backstory :=
          py "You are a treatment specialist knowledgeable about various 
                    medical treatments, medications, and therapies. You provide comprehensive 
                    treatment information while emphasizing proper medical supervision." |});
    (py "Nutrition Specialist",
     {| cfg_role := py "Nutrition Specialist";
        cfg_goal := py "Provide dietary guidance and nutritional advice";
        cfg_backstory :=
          py "You are a certified nutritionist with expertise in therapeutic 
                    nutrition and dietary management of diseases. You provide personalized 
                    nutritional guidance based on health conditions." |});
    (py "Mental Health Counselor",
     {| cfg_role := py "Mental Health Counselor";
        cfg_goal := py "Provide mental health support and coping strategies";
        cfg_backstory :=
          py "You are a compassionate mental health counselor trained in 
                    psychology and therapeutic techniques. You provide emotional support, coping 
                    strategies, and guidance for mental health concerns." |});
    (py "Fitness Coach",
     {| cfg_role := py "Fitness Coach";
        cfg_goal := py "Provide exercise guidance and fitness recommendations";
        cfg_backstory :=
          py "You are a certified fitness coach with expertise in exercise 
                    physiology and rehabilitation. You create safe, effective exercise recommendations 
                    tailored to individual health conditions." |});
    (py "Disease Educator",
     {| cfg_role := py "Disease Educator";
        cfg_goal := py "Educate about diseases, prevention, and management";
        cfg_backstory :=
          py "You are a health educator specializing in disease information 
                    and prevention strategies. You explain complex medical concepts in clear language." |});
    (py "Preventive Medicine Expert",
     {| cfg_role := py "Preventive Medicine Expert";
        cfg_goal := py "Provide prevention strategies and wellness recommendations";
        cfg_backstory :=
          py "You are a preventive medicine expert focused on disease prevention 
                    and health promotion. You provide actionable recommendations for maintaining health." |});
    (py "Emergency Response Advisor",
     {| cfg_role := py "Emergency Response Advisor";
        cfg_goal := py "Provide emergency guidance and critical response information";
        cfg_backstory :=
          py "You are an emergency medicine advisor trained in crisis management. 
                    You provide immediate guidance for emergencies and identify when to call emergency services." |}) ].

Definition placeholder : str := Eval vm_compute in
  py "Describe your symptoms or health question in detail...".

Definition welcome_text : str := Eval vm_compute in
  py "🏥 Enter your health query and click 'Get Guidance' to receive AI-powered medical advice from our specialists.

This is informational only. Always consult qualified healthcare professionals for medical diagnosis and treatment.".

Definition analyzing_text : str := Eval vm_compute in
  py "🔄 AI specialist is analyzing your query...".

Definition msg_no_api_key : str := Eval vm_compute in
  py "GOOGLE_API_KEY not found in .env file — running in demo mode (consultation disabled).".

Definition msg_processing : str := Eval vm_compute in
  py "AI is already analyzing your query!".

Definition msg_demo_mode : str := Eval vm_compute in
  py "Consultation is disabled in demo mode. Set GOOGLE_API_KEY in your .env to enable full functionality.".

Definition msg_input_required : str := Eval vm_compute in
  py "Please describe your health query!".

Definition msg_failed : str := Eval vm_compute in
  py "Consultation failed. Check output for details.".

Definition status_ready : str := Eval vm_compute in
  py "● Ready".

Definition status_analyzing : str := Eval vm_compute in
  py "● Analyzing".

Definition status_complete : str := Eval vm_compute in
  py "● Complete".

Definition status_error : str := Eval vm_compute in
  py "● Error".

Definition history_title : str := Eval vm_compute in
  py "📋 YOUR CONSULTATION HISTORY
".

Definition no_consultations_text : str := Eval vm_compute in
  py "No consultations yet.

Use the Consultation tab to start your first medical consultation.".

Definition llm_model : str := Eval vm_compute in
  py "gemini/gemini-2.5-flash".

Definition task_expected_output : str := Eval vm_compute in
  py "Comprehensive healthcare guidance".

(** The pieces of the task description f-string (lines 667-681). *)
Definition task_head : str := Eval vm_compute in
  py "
                As a ".

Definition task_analyze : str := Eval vm_compute in
  py ", analyze the following health query and provide helpful guidance:
                
                QUERY: ".

Definition task_instructions : str := Eval vm_compute in
  py "
                
                INSTRUCTIONS:
                1. Provide clear, accurate information
                2. If symptoms are mentioned, explain possible conditions (not diagnoses)
                3. Suggest when to seek medical attention
                4. Provide practical recommendations
                5. Always remind this is informational, not medical advice
                6. Be compassionate and supportive
                
                Provide a comprehensive, well-structured response.
                ".

(** The pieces of the two display templates (lines 696-711, 725-747). *)
Definition box_top : str := Eval vm_compute in
  py "
┌─────────────────────────────────────────────────────────┐
│ 🏥 ".

Definition box_bottom : str := Eval vm_compute in
  py "
└─────────────────────────────────────────────────────────┘
📅 Consultation Date: ".

Definition disclaimer_footer : str := Eval vm_compute in
  py "

─────────────────────────────────────────────────────────

⚠️  MEDICAL DISCLAIMER
This guidance is informational only and not a substitute for 
professional medical advice. Always consult qualified healthcare 
professionals for diagnosis, treatment, and emergency situations.

─────────────────────────────────────────────────────────".

Definition demo_box_bottom : str := Eval vm_compute in
  py " (Demo Response)
└─────────────────────────────────────────────────────────┘
📅 Consultation Date: ".

Definition sample_guidance : str := Eval vm_compute in
  py "

It appears the live AI consultation failed to complete (network or API error).
Below is a simulated guidance response so you can continue testing the application layout and flow.

-- SAMPLE GUIDANCE START --

Thank you for describing your concern. Based on the symptoms you've provided, here are some possibilities and suggestions:

- Common causes may include muscle strain, overuse, or minor nerve irritation.
- If you have sudden severe pain, numbness, weakness, or loss of function, seek immediate medical attention.
- For mild to moderate pain: rest, ice, compression, elevation (RICE) and use over-the-counter analgesics as appropriate.
- Monitor for worsening symptoms and consult a healthcare professional if symptoms persist beyond a few days.

-- SAMPLE GUIDANCE END --

⚠️ Note: This is a simulated message. The real AI consultation failed with error: ".

Definition title_warning : str := Eval vm_compute in py "Warning".
Definition title_processing : str := Eval vm_compute in py "Processing".
Definition title_demo_mode : str := Eval vm_compute in py "Demo Mode".
Definition title_input_required : str := Eval vm_compute in py "Input Required".
Definition title_error : str := Eval vm_compute in py "Error".

(** ** The object, and the environment it runs in *)

(** The attributes of a [HealthcareAssistantGUI] that the consultation
    lifecycle reads or writes. *)
Record HealthcareAssistantGUI := mkGUI {
  api_key : option str;
  demo_mode : bool;
  is_processing : bool;
  consultation_history : list str;
  specialist_var : str;
  query_input : Textbox;
  output_text : Textbox;
  status_indicator : Label;
  history_text : option Textbox
}.

(** The object together with what its methods act on outside it:
    - [dialogs]: the message boxes shown so far, oldest first;
    - [console]: the lines printed so far;
    - [threads]: the background threads started and not yet run, each the
      argument of its [execute_consultation];
    - [after_queue]: the pending [root.after(0, self.display_result, x)]
      calls, each its [x], oldest first;
    - [gateway_log]: the crews whose [kickoff()] has been called;
    - [tk_faults]: for the coming widget calls that change a widget, in
      order, whether the call raises [TclError] (with its [str()] and
      [repr()]); past the end of the list every call succeeds. *)
Record World := mkWorld {
  self : HealthcareAssistantGUI;
  dialogs : list Dialog;
  console : list str;
  threads : list str;
  after_queue : list str;
  gateway_log : list Crew;
  tk_faults : list (option (str * str))
}.

Definition set_is_processing (b : bool) (g : HealthcareAssistantGUI) :=
  {| api_key := api_key g; demo_mode := demo_mode g; is_processing := b;
     consultation_history := consultation_history g;
     specialist_var := specialist_var g; query_input := query_input g;
     output_text := output_text g; status_indicator := status_indicator g;
     history_text := history_text g |}.

Definition set_consultation_history (h : list str) (g : HealthcareAssistantGUI) :=
  {| api_key := api_key g; demo_mode := demo_mode g;
     is_processing := is_processing g; consultation_history := h;
     specialist_var := specialist_var g; query_input := query_input g;
     output_text := output_text g; status_indicator := status_indicator g;
     history_text := history_text g |}.

Definition set_specialist_var (s : str) (g : HealthcareAssistantGUI) :=
  {| api_key := api_key g; demo_mode := demo_mode g;
     is_processing := is_processing g;
     consultation_history := consultation_history g;
     specialist_var := s; query_input := query_input g;
     output_text := output_text g; status_indicator := status_indicator g;
     history_text := history_text g |}.

Definition set_query_input (t : Textbox) (g : HealthcareAssistantGUI) :=
  {| api_key := api_key g; demo_mode := demo_mode g;
     is_processing := is_processing g;
     consultation_history := consultation_history g;
     specialist_var := specialist_var g; query_input := t;
     output_text := output_text g; status_indicator := status_indicator g;
     history_text := history_text g |}.

Definition set_output_text (t : Textbox) (g : HealthcareAssistantGUI) :=
  {| api_key := api_key g; demo_mode := demo_mode g;
     is_processing := is_processing g;
     consultation_history := consultation_history g;
     specialist_var := specialist_var g; query_input := query_input g;
     output_text := t; status_indicator := status_indicator g;
     history_text := history_text g |}.

Definition set_status_indicator (l : Label) (g : HealthcareAssistantGUI) :=
  {| api_key := api_key g; demo_mode := demo_mode g;
     is_processing := is_processing g;
     consultation_history := consultation_history g;
     specialist_var := specialist_var g; query_input := query_input g;
     output_text := output_text g; status_indicator := l;
     history_text := history_text g |}.

Definition set_history_text (t : option Textbox) (g : HealthcareAssistantGUI) :=
  {| api_key := api_key g; demo_mode := demo_mode g;
     is_processing := is_processing g;
     consultation_history := consultation_history g;
     specialist_var := specialist_var g; query_input := query_input g;
     output_text := output_text g; status_indicator := status_indicator g;
     history_text := t |}.

Definition set_self (g : HealthcareAssistantGUI) (w : World) :=
  {| self := g; dialogs := dialogs w; console := console w;
     threads := threads w; after_queue := after_queue w;
     gateway_log := gateway_log w; tk_faults := tk_faults w |}.

Definition set_dialogs (d : list Dialog) (w : World) :=
  {| self := self w; dialogs := d; console := console w;
     threads := threads w; after_queue := after_queue w;
     gateway_log := gateway_log w; tk_faults := tk_faults w |}.

Definition set_console (c : list str) (w : World) :=
  {| self := self w; dialogs := dialogs w; console := c;
     threads := threads w; after_queue := after_queue w;
     gateway_log := gateway_log w; tk_faults := tk_faults w |}.

Definition set_threads (t : list str) (w : World) :=
  {| self := self w; dialogs := dialogs w; console := console w;
     threads := t; after_queue := after_queue w;
     gateway_log := gateway_log w; tk_faults := tk_faults w |}.

Definition set_after_queue (q : list str) (w : World) :=
  {| self := self w; dialogs := dialogs w; console := console w;
     threads := threads w; after_queue := q;
     gateway_log := gateway_log w; tk_faults := tk_faults w |}.

Definition set_gateway_log (l : list Crew) (w : World) :=
  {| self := self w; dialogs := dialogs w; console := console w;
     threads := threads w; after_queue := after_queue w;
     gateway_log := l; tk_faults := tk_faults w |}.

Definition set_tk_faults (f : list (option (str * str))) (w : World) :=
  {| self := self w; dialogs := dialogs w; console := console w;
     threads := threads w; after_queue := after_queue w;
     gateway_log := gateway_log w; tk_faults := f |}.

(** ** Methods as programs: state and exceptions *)

Definition M (A : Type) : Type := World -> Result A * World.

#[export] Instance M_ret : MRet M := fun A a w => (Ok a, w).

#[export] Instance M_bind : MBind M := fun A B k m w =>
  match m w with
  | (Ok a, w') => k a w'
  | (Raise e, w') => (Raise e, w')
  end.

(** [try: body / except Exception as e: handler e] *)
Definition try_except {A} (body : M A) (handler : PyExc -> M A) : M A :=
  fun w =>
    match body w with
    | (Ok a, w') => (Ok a, w')
    | (Raise e, w') =>
      if exc_is_Exception e then handler e w' else (Raise e, w')
    end.

(** [for x in l: body x] *)
Fixpoint for_each {A} (l : list A) (body : A -> M unit) : M unit :=
  match l with
  | [] => mret tt
  | x :: l' => body x ;; for_each l' body
  end.

(** Reading an attribute, a widget's text or a Tk variable. *)
Definition attr {A} (f : HealthcareAssistantGUI -> A) : M A :=
  fun w => (Ok (f (self w)), w).

(** [self.x = v] *)
Definition assign (f : HealthcareAssistantGUI -> HealthcareAssistantGUI)
  : M unit :=
  fun w => (Ok tt, set_self (f (self w)) w).

(** An expression that may raise, such as a subscript. *)
Definition lift {A} (r : Result A) : M A := fun w => (r, w).

(** A widget call that changes the widget: it raises when the
    environment says so, and otherwise has its effect. *)
Definition widget_call
    (f : HealthcareAssistantGUI -> HealthcareAssistantGUI) : M unit :=
  fun w =>
    match tk_faults w with
    | Some (s, r) :: rest => (Raise (TclError s r), set_tk_faults rest w)
    | None :: rest => (Ok tt, set_tk_faults rest (set_self (f (self w)) w))
    | [] => (Ok tt, set_self (f (self w)) w)
    end.

Definition on_query_input (op : Textbox -> Textbox) : M unit :=
  widget_call (fun g => set_query_input (op (query_input g)) g).

Definition on_output_text (op : Textbox -> Textbox) : M unit :=
  widget_call (fun g => set_output_text (op (output_text g)) g).

Definition on_history_text (op : Textbox -> Textbox) : M unit :=
  widget_call (fun g => set_history_text (op <$> history_text g) g).

(** [self.status_indicator.configure(text=t, text_color=c)] *)
Definition status_configure (t c : str) : M unit :=
  widget_call (set_status_indicator {| text := t; text_color := c |}).

Definition messagebox (d : Dialog) : M unit :=
  fun w => (Ok tt, set_dialogs (dialogs w ++ [d]) w).

Definition print (line : str) : M unit :=
  fun w => (Ok tt, set_console (console w ++ [line]) w).

(** [threading.Thread(target=self.execute_consultation, args=(query,))],
    made a daemon and started. *)
Definition thread_start (query : str) : M unit :=
  fun w => (Ok tt, set_threads (threads w ++ [query]) w).

(** [self.root.after(0, self.display_result, result)] *)
Definition root_after (result : str) : M unit :=
  fun w => (Ok tt, set_after_queue (after_queue w ++ [result]) w).

(** [crew.kickoff()]: the gateway receives the crew and answers. *)
Definition kickoff (gateway : Crew -> Kickoff) (crew : Crew) : M str :=
  fun w =>
    let w' := set_gateway_log (gateway_log w ++ [crew]) w in
    match gateway crew with
    | Returned result => (Ok result, w')
    | Raised e => (Raise e, w')
    end.

(** ** The methods *)

Definition update_history_display : M unit :=
  h ← attr history_text;
  if is_Some_dec h then                      (* hasattr(self, 'history_text') *)
    on_history_text (configure_state true) ;;
    on_history_text delete_all ;;
    history ← attr consultation_history;
    match history with
    | _ :: _ =>
      let header := history_title ++ repeat_char 61 50 ++ nl ++ nl in
      on_history_text (insert_start header) ;;
      for_each (reverse history)
        (fun entry => on_history_text (insert_end entry))
    | [] => on_history_text (insert_start no_consultations_text)
    end ;;
    on_history_text (configure_state false)
  else mret tt.

(** [_clear_placeholder], bound to <FocusIn> of the query box *)
Definition _clear_placeholder : M unit :=
  text ← attr (fun g => get_all (query_input g));
  if bool_decide (text = placeholder) then on_query_input delete_all
  else mret tt.

(** [_add_placeholder], bound to <FocusOut> of the query box *)
Definition _add_placeholder : M unit :=
  text ← attr (fun g => get_all (query_input g));
  if negb (truthy (strip text)) then
    on_query_input (insert_start placeholder)
  else mret tt.

Definition clear_all : M unit :=
  on_query_input delete_all ;;
  on_query_input (insert_start placeholder) ;;
  on_output_text (configure_state true) ;;
  on_output_text delete_all ;;
  on_output_text (configure_state false) ;;
  success ← lift (getitem COLORS (py "success"));
  status_configure status_ready success.

Definition run_consultation : M unit :=
  busy ← attr is_processing;
  if busy : bool then
    messagebox (showwarning title_processing msg_processing)
  else
    demo ← attr demo_mode;
    if demo : bool then
      messagebox (showinfo title_demo_mode msg_demo_mode)
    else
      text ← attr (fun g => get_all (query_input g));
      let query := strip text in
      if negb (truthy query) || bool_decide (query = placeholder) then
        messagebox (showwarning title_input_required msg_input_required)
      else
        on_output_text (configure_state true) ;;
        on_output_text delete_all ;;
        on_output_text (insert_start analyzing_text) ;;
        on_output_text (configure_state false) ;;
        assign (set_is_processing true) ;;
        warning ← lift (getitem COLORS (py "warning"));
        status_configure status_analyzing warning ;;
        thread_start query.

(** The f-strings of [execute_consultation]. *)
Definition task_description (specialist query : str) : str :=
  task_head ++ specialist ++ task_analyze ++ query ++ task_instructions.

Definition history_entry (timestamp specialist query : str) : str :=
  nl ++ py "[" ++ timestamp ++ py "] " ++ specialist ++ py ": "
     ++ slice_to 100 query ++ py "..." ++ nl.

Definition history_entry_fallback (timestamp specialist query : str) : str :=
  nl ++ py "[" ++ timestamp ++ py "] " ++ specialist
     ++ py " (demo fallback): " ++ slice_to 100 query ++ py "..." ++ nl.

(** [config = agent_configs.get(specialist, agent_configs["Medical Advisor"])] *)
Definition config (specialist : str) : Result Config :=
  default ← getitem agent_configs (py "Medical Advisor");
  mret (get agent_configs specialist default).

(** The agent, task and crew that [execute_consultation] builds from the
    resolved configuration (lines 649-691). *)
Definition build_crew (config : Config) (specialist query : str)
    (key : option str) : Crew :=
  let llm := {| model := llm_model; temperature := 7 # 10;
                llm_api_key := key |} in
  let agent := {| role := cfg_role config; goal := cfg_goal config;
                  backstory := cfg_backstory config; verbose := false;
                  llm := llm |} in
  let task := {| description := task_description specialist query;
                 agent := agent;
                 expected_output := task_expected_output |} in
  {| agents := [agent]; tasks := [task]; crew_verbose := false |}.

Section Consultation.
Context {rt : PyRuntime}.

Definition formatted_result (specialist timestamp result : str) : str :=
  box_top ++ upper specialist ++ box_bottom ++ timestamp ++ nl ++ nl
    ++ result ++ disclaimer_footer.

Definition simulated_result (specialist timestamp : str) (e : PyExc) : str :=
  box_top ++ upper specialist ++ demo_box_bottom ++ timestamp
    ++ sample_guidance ++ exc_str e ++ nl ++ nl.

(** Run in the background thread; [now] is what [time.strftime] returns
    and [gateway] is the agent service behind [crew.kickoff()]. The locals
    [specialist] and [timestamp] are bound at the top of the [try] block
    and read again in the handler. *)
Definition execute_consultation (now : str) (gateway : Crew -> Kickoff)
    (query : str) : M unit :=
  specialist ← attr specialist_var;
  let timestamp := now in
  try_except
    (config ← lift (config specialist);
     key ← attr api_key;
     result ← kickoff gateway (build_crew config specialist query key);
     history ← attr consultation_history;
     assign (set_consultation_history
               (history ++ [history_entry timestamp specialist query])) ;;
     root_after (formatted_result specialist timestamp result))
    (fun e =>
     print (py "Consultation error: " ++ exc_repr e) ;;
     history ← attr consultation_history;
     assign (set_consultation_history
               (history ++ [history_entry_fallback timestamp specialist query])) ;;
     root_after (simulated_result specialist timestamp e)).

End Consultation.

Definition display_result (result : str) : M unit :=
  try_except
    (on_output_text (configure_state true) ;;
     on_output_text delete_all ;;
     on_output_text (insert_start result) ;;
     on_output_text id ;;                        (* see("1.0") *)
     on_output_text (configure_state false) ;;
     assign (set_is_processing false) ;;
     success ← lift (getitem COLORS (py "success"));
     status_configure status_complete success ;;
     update_history_display)
    (fun e =>
     print (py "Error displaying result: " ++ exc_str e) ;;
     assign (set_is_processing false) ;;
     danger ← lift (getitem COLORS (py "danger"));
     status_configure status_error danger).

(** Defined by the class; nothing in the program calls it. *)
Definition display_error (error_msg : str) : M unit :=
  on_output_text (configure_state true) ;;
  on_output_text delete_all ;;
  on_output_text (insert_start error_msg) ;;
  on_output_text (configure_state false) ;;
  assign (set_is_processing false) ;;
  danger ← lift (getitem COLORS (py "danger"));
  status_configure status_error danger ;;
  messagebox (showerror title_error msg_failed).

(** ** Construction *)

(** The widgets of [setup_ui] that the lifecycle uses, in creation order:
    the status label, the query box with its placeholder, the output box
    with its welcome text, the history box. *)
Definition setup_ui : M unit :=
  success ← lift (getitem COLORS (py "success"));
  status_configure status_ready success ;;
  assign (set_specialist_var (py "Medical Advisor")) ;;
  on_query_input (insert_start placeholder) ;;
  on_output_text (configure_state false) ;;
  on_output_text (configure_state true) ;;
  on_output_text (insert_start welcome_text) ;;
  on_output_text (configure_state false) ;;
  assign (set_history_text (Some {| content := []; normal := true |})) ;;
  on_history_text (configure_state false) ;;
  update_history_display.

(** [HealthcareAssistantGUI()], given [os.getenv("GOOGLE_API_KEY")]. *)
Definition __init__ (GOOGLE_API_KEY : option str) : World :=
  let demo := negb (from_option truthy false GOOGLE_API_KEY) in
  let fresh := {| content := []; normal := true |} in
  snd (setup_ui
    {| self := {| api_key := GOOGLE_API_KEY; demo_mode := demo;
                  is_processing := false; consultation_history := [];
                  specialist_var := []; query_input := fresh;
                  output_text := fresh;
                  status_indicator := {| text := []; text_color := [] |};
                  history_text := None |};
       dialogs := if demo then [showwarning title_warning msg_no_api_key]
                  else [];
       console := []; threads := []; after_queue := [];
       gateway_log := []; tk_faults := [] |}).

(** ** A session *)

(** What can happen after construction: the user acts on the window, a
    started thread runs, or Tk runs the oldest pending [after] callback. *)
Inductive Event :=
| ClickGetGuidance                 (* consult_btn, command=self.run_consultation *)
| ClickClear                       (* clear_btn, command=self.clear_all *)
| FocusIn                          (* query box gets the focus *)
| FocusOut                         (* query box loses the focus *)
| EditQuery (text : str)           (* the user edits the query box *)
| SelectSpecialist (name : str)    (* the user picks a combobox value *)
| ThreadRuns (i : nat) (now : str) (gateway : Crew -> Kickoff)
| TkIdle.

(** A callback runs to its end or to an uncaught exception, which Tk (or
    the thread) reports and drops; the state it leaves is kept. *)
Definition callback (m : M unit) (faults : list (option (str * str)))
    (w : World) : World :=
  snd (m (set_tk_faults faults w)).

Section Session.
Context {rt : PyRuntime}.

Definition fire (step : list (option (str * str)) * Event) (w : World)
  : World :=
  let (faults, ev) := step in
  match ev with
  | ClickGetGuidance => callback run_consultation faults w
  | ClickClear => callback clear_all faults w
  | FocusIn => callback _clear_placeholder faults w
  | FocusOut => callback _add_placeholder faults w
  | EditQuery text =>
    set_self (set_query_input
                {| content := text;
                   normal := normal (query_input (self w)) |} (self w)) w
  | SelectSpecialist name =>
    if bool_decide (name ∈ specialists)
    then set_self (set_specialist_var name (self w)) w
    else w
  | ThreadRuns i now gateway =>
    match threads w !! i with
    | Some query =>
      callback (execute_consultation now gateway query) faults
        (set_threads (delete i (threads w)) w)
    | None => w
    end
  | TkIdle =>
    match after_queue w with
    | result :: rest =>
      callback (display_result result) faults (set_after_queue rest w)
    | [] => w
    end
  end.

Definition session (steps : list (list (option (str * str)) * Event))
    (w : World) : World :=
  fold_left (fun w step => fire step w) steps w.

End Session.

End Gui.

(* ================================================================== *)
(** * healthcare_agent_interactive.py *)
(* ================================================================== *)

Module Cli.
Import PyDict CrewAI.

(** The numbered menu of [get_healthcare_specialist]: key, then role and
    description. *)
Definition specialists : dict (str * str) := Eval vm_compute in
  [ (py "1", (py "Medical Advisor", py "General medical information and guidance"));
    (py "2", (py "Symptom Analyzer", py "Analyze symptoms and suggest possible conditions"));
    (py "3", (py "Treatment Recommender", py "Evidence-based treatment options and lifestyle changes"));
    (py "4", (py "Nutrition Specialist", py "Dietary guidance and nutritional advice"));
    (py "5", (py "Mental Health Counselor", py "Mental health support and coping strategies"));
    (py "6", (py "Fitness Coach", py "Exercise guidance and fitness recommendations"));
    (py "7", (py "Disease Educator", py "Disease information, prevention, and management")) ].

(** An entry of [agent_configs]: a dict with the keys "goal" and
    "backstory". *)
Record Config := mkConfig {
  cfg_goal : str;
  cfg_backstory : str
}.

Definition agent_configs : dict Config := Eval vm_compute in
  [ (py "Medical Advisor",
     {| cfg_goal := py "Provide accurate medical information and guidance";
        cfg_backstory :=
          py "You are an experienced medical advisor with extensive knowledge 
                of various medical conditions, symptoms, and treatments. You provide clear, 
                evidence-based medical information while always emphasizing the importance 
                of consulting healthcare professionals for diagnosis and treatment." |});
    (py "Symptom Analyzer",
     {| cfg_goal := py "Analyze symptoms and suggest possible conditions";
        cfg_backstory :=
          py "You are a symptom analysis expert trained to identify patterns 
                in patient-reported symptoms. You provide possible explanations for symptoms, 
                assess severity, and recommend when immediate medical attention is needed. 
                You never provide definitive diagnoses." |});
    (py "Treatment Recommender",
     {| cfg_goal := py "Suggest evidence-based treatment options and lifestyle changes";
        cfg_backstory :=
          py "You are a treatment specialist knowledgeable about various 
                medical treatments, medications, therapies, and lifestyle modifications. 
                You provide comprehensive treatment information while emphasizing proper 
                medical supervision." |});
    (py "Nutrition Specialist",
     {| cfg_goal := py "Provide dietary guidance and nutritional advice";
        cfg_backstory :=
          py "You are a certified nutritionist with expertise in therapeutic 
                nutrition, dietary management of diseases, and healthy eating. You provide 
                personalized nutritional guidance based on health conditions and goals." |});
    (py "Mental Health Counselor",
     {| cfg_goal := py "Provide mental health support and coping strategies";
        cfg_backstory :=
          py "You are a compassionate mental health counselor trained in 
                psychology and therapeutic techniques. You provide emotional support, coping 
                strategies, and guidance for mental health concerns while recognizing when 
                professional help is needed." |});
    (py "Fitness Coach",
     {| cfg_goal := py "Provide exercise guidance and fitness recommendations";
        cfg_backstory :=
          py "You are a certified fitness coach with expertise in exercise 
                physiology, rehabilitation, and physical wellness. You create safe, effective 
                exercise recommendations tailored to individual health conditions and fitness levels." |});
    (py "Disease Educator",
     {| cfg_goal := py "Educate about diseases, prevention, and management";
        cfg_backstory :=
          py "You are a health educator specializing in disease information, 
                prevention strategies, and self-management techniques. You explain complex 
                medical concepts in clear, understandable language." |}) ].

Definition select_title : str := Eval vm_compute in
  py "👨‍⚕️ SELECT HEALTHCARE SPECIALIST:".

Definition choice_prompt : str := Eval vm_compute in
  py "Enter your choice (1-7): ".

Definition invalid_choice : str := Eval vm_compute in
  py "⚠️  Invalid choice. Using default 'Medical Advisor'".

Definition llm_model : str := Eval vm_compute in
  py "gemini/gemini-2.5-flash".

Definition task_expected_output : str := Eval vm_compute in
  py "Comprehensive healthcare guidance with clear explanations".

(** The pieces of the task description f-string (lines 156-171). *)
Definition task_head : str := Eval vm_compute in
  py "
            As a ".

Definition task_analyze : str := Eval vm_compute in
  py ", analyze the following health query and provide helpful guidance:
            
            QUERY: ".

Definition task_instructions : str := Eval vm_compute in
  py "
            
            INSTRUCTIONS:
            1. Provide clear, accurate information
            2. If symptoms are mentioned, explain possible conditions (not diagnoses)
            3. Suggest when to seek immediate medical attention
            4. Provide practical recommendations
            5. Include relevant health tips
            6. Always remind that this is informational, not medical advice
            7. Be compassionate and supportive in tone
            
            Provide a comprehensive, well-structured response.
            ".

Definition analyzing_head : str := Eval vm_compute in
  py "🔍 ".

Definition analyzing_tail : str := Eval vm_compute in
  py " IS ANALYZING YOUR QUERY...".

Definition error_head : str := Eval vm_compute in
  py "Error: ".

Definition error_tail : str := Eval vm_compute in
  py "
Please check your internet connection and API key.".

(** [print(s)] writes [s] and a newline to the terminal. *)
Definition println (s : str) : str := s ++ nl.

(** One line of the menu: [f"  {key}. {role:<25} - {desc}"] *)
Definition menu_line (key : str) (item : str * str) : str :=
  py "  " ++ key ++ py ". " ++ ljust 25 (fst item) ++ py " - " ++ snd item.

(** [get_healthcare_specialist()], given the line that [input()] returns:
    what it writes to the terminal, and what it returns. *)
Definition get_healthcare_specialist (line : str)
  : str * Result (str * str) :=
  let menu :=
    println select_title ++ println []
      ++ concat (map (fun '(key, item) => println (menu_line key item))
                     specialists)
      ++ println [] ++ choice_prompt in
  let choice := strip line in
  if mem specialists choice then
    (menu, getitem specialists choice)
  else
    (menu ++ println invalid_choice, getitem specialists (py "1")).

Definition task_description (specialist query : str) : str :=
  task_head ++ specialist ++ task_analyze ++ query ++ task_instructions.

(** [config = agent_configs.get(specialist, agent_configs["Medical Advisor"])] *)
Definition config (specialist : str) : Result Config :=
  default ← getitem agent_configs (py "Medical Advisor");
  mret (get agent_configs specialist default).

(** The crew that [consult_healthcare_agent] builds from a resolved
    configuration. *)
Definition build_crew (config : Config) (specialist query api_key : str)
  : Crew :=
  let llm := {| model := llm_model; temperature := 7 # 10;
                llm_api_key := Some api_key |} in
  let agent := {| role := specialist; goal := cfg_goal config;
                  backstory := cfg_backstory config; verbose := false;
                  llm := llm |} in
  let task := {| description := task_description specialist query;
                 agent := agent;
                 expected_output := task_expected_output |} in
  {| agents := [agent]; tasks := [task]; crew_verbose := false |}.

(** [try: ... except Exception as e: handler e] on plain results *)
Definition try_except {A} (body : Result A) (handler : PyExc -> Result A)
  : Result A :=
  match body with
  | Ok a => Ok a
  | Raise e => if exc_is_Exception e then handler e else Raise e
  end.

Section WithRuntime.
Context {rt : PyRuntime}.

(** [consult_healthcare_agent(specialist, description, query, api_key)]:
    what it writes to the terminal, and what it returns; [gateway] is the
    agent service behind [crew.kickoff()]. *)
Definition consult_healthcare_agent (gateway : Crew -> Kickoff)
    (specialist description query api_key : str)
  : str * Result (bool * str) :=
  (println (nl ++ repeat_char 61 80)
     ++ println (analyzing_head ++ upper specialist ++ analyzing_tail)
     ++ println (repeat_char 61 80) ++ println [],
   try_except
     (config ← config specialist;
      match gateway (build_crew config specialist query api_key) with
      | Returned result => Ok (true, result)
      | Raised e => Raise e
      end)
     (fun e => Ok (false, error_head ++ exc_str e ++ error_tail))).

End WithRuntime.

End Cli.


(* ================================================================== *)
(** * The specification's vocabulary *)
(* ================================================================== *)

Import PyDict CrewAI Tk Gui.

(** The two kinds of rejection of the specification's error taxonomy. *)
Inductive Rejection := ValidationError | ConfigurationError.

(** How [run_consultation] signals them: the "Processing" and "Input
    Required" warnings are validation errors, the "Demo Mode" notice is the
    configuration error. *)
Definition signal (d : Dialog) : option Rejection :=
  match d with
  | showwarning t _ =>
    if bool_decide (t = title_processing)
       || bool_decide (t = title_input_required)
    then Some ValidationError else None
  | showinfo t _ =>
    if bool_decide (t = title_demo_mode) then Some ConfigurationError
    else None
  | showerror _ _ => None
  end.

(** A call that only shows the message box [d]: the object (processing
    flag, status label, history, widgets) is as before, no thread is
    started, nothing is scheduled, the gateway is not called. *)
Definition rejected_with (d : Dialog) (w w' : World) : Prop :=
  dialogs w' = dialogs w ++ [d] /\ self w' = self w
  /\ threads w' = threads w /\ after_queue w' = after_queue w
  /\ gateway_log w' = gateway_log w /\ console w' = console w.

(** The entry of each [agent_configs] under "Medical Advisor". *)
Definition gui_default_config : Gui.Config := Eval vm_compute in
  get Gui.agent_configs (py "Medical Advisor") (Gui.mkConfig [] [] []).

Definition cli_default_config : Cli.Config := Eval vm_compute in
  get Cli.agent_configs (py "Medical Advisor") (Cli.mkConfig [] []).

(** The roles of the command-line menu, in menu order. *)
Definition cli_roles : list str :=
  map (fun item => fst (snd item)) Cli.specialists.

(** The crew that [execute_consultation] hands to the gateway for [query]. *)
Definition crew_for (w : World) (query : str) : Crew :=
  let specialist := specialist_var (self w) in
  build_crew (get Gui.agent_configs specialist gui_default_config)
    specialist query (api_key (self w)).

(** The ASCII-only runtime, for running the model on ASCII text. *)
Definition ascii_runtime : PyRuntime := {| upper := ascii_upper |}.

(** What one run of [execute_consultation] leaves behind when it hands
    [text] to [display_result] and logs [entry]: one more history entry, one
    more scheduled callback, one more gateway call, and nothing else. *)
Definition completes_with (text entry : str) (query : str) (w w' : World)
  : Prop :=
  consultation_history (self w') = consultation_history (self w) ++ [entry]
  /\ after_queue w' = after_queue w ++ [text]
  /\ gateway_log w' = gateway_log w ++ [crew_for w query]
  /\ dialogs w' = dialogs w
  /\ threads w' = threads w
  /\ is_processing (self w') = is_processing (self w)
  /\ status_indicator (self w') = status_indicator (self w).

(** A run of [execute_consultation] completes with an outcome when the
    gateway returns, or raises an [Exception]. *)
Definition completes (gateway : Crew -> Kickoff) (w : World) (query : str)
  : Prop :=
  match gateway (crew_for w query) with
  | Returned _ => True
  | Raised e => exc_is_Exception e = true
  end.

(** The numbered directives of the two task descriptions, as the source
    files spell them. *)
Definition gui_directives : list str := Eval vm_compute in
  [ py "1. Provide clear, accurate information";
    py "2. If symptoms are mentioned, explain possible conditions (not diagnoses)";
    py "3. Suggest when to seek medical attention";
    py "4. Provide practical recommendations";
    py "5. Always remind this is informational, not medical advice";
    py "6. Be compassionate and supportive" ].

Definition cli_directives : list str := Eval vm_compute in
  [ py "1. Provide clear, accurate information";
    py "2. If symptoms are mentioned, explain possible conditions (not diagnoses)";
    py "3. Suggest when to seek immediate medical attention";
    py "4. Provide practical recommendations";
    py "5. Include relevant health tips";
    py "6. Always remind that this is informational, not medical advice";
    py "7. Be compassionate and supportive in tone" ].

(* ================================================================== *)
(** * A program logic for the methods *)
(* ================================================================== *)

(** [hoare P m Q E]: run from a world satisfying [P], the program [m] either
    returns [a] in a world satisfying [Q a], or raises [e] in a world
    satisfying [E e]. *)
Definition hoare {A} (P : World -> Prop) (m : M A)
    (Q : A -> World -> Prop) (E : PyExc -> World -> Prop) : Prop :=
  forall w, P w ->
    match m w with
    | (Ok a, w') => Q a w'
    | (Raise e, w') => E e w'
    end.

(** [m] keeps [I], and raises nothing but [Exception]s. *)
Definition stable {A} (I : World -> Prop) (m : M A) : Prop :=
  hoare I m (fun _ => I) (fun e w => I w /\ exc_is_Exception e = true).

(** [I] does not depend on the fault oracle, the message boxes shown or the
    console. *)
Definition env_independent (I : World -> Prop) : Prop :=
  forall w, I w ->
    (forall x, I (set_tk_faults x w)) /\ (forall x, I (set_dialogs x w))
    /\ (forall x, I (set_console x w)).

(** The history list is [h]. *)
Definition history_is (h : list str) (w : World) : Prop :=
  consultation_history (self w) = h.

(** In demo mode nothing is in flight. *)
Definition demo_idle (w : World) : Prop :=
  demo_mode (self w) = true /\ is_processing (self w) = false
  /\ text (status_indicator (self w)) = status_ready
  /\ threads w = [] /\ after_queue w = [] /\ gateway_log w = [].

(** The processing flag is clear. *)
Definition not_processing (w : World) : Prop :=
  is_processing (self w) = false.

(** The world after the history box has been given a new state. *)
Definition with_history_text (t : Textbox) (w : World) : World :=
  set_self (set_history_text (Some t) (self w)) w.

(* ================================================================== *)
(** * A sample session *)
(* ================================================================== *)

Definition sample_query : str := Eval vm_compute in
  py "What should I eat for diabetes?".

Definition sample_now : str := Eval vm_compute in py "2025-01-15 09:30:00".

(** A window constructed with the credential present. *)
Definition ready_world : World := __init__ (Some (py "key")).

(** The user picks the nutrition specialist, types the query and submits. *)
Definition sample_steps : list (list (option (str * str)) * Event) :=
  [ ([], SelectSpecialist (py "Nutrition Specialist"));
    ([], FocusIn);
    ([], EditQuery sample_query);
    ([], ClickGetGuidance) ].

Definition in_flight_world : World :=
  session (rt := ascii_runtime) sample_steps ready_world.

(** A gateway that answers, and one whose connection times out. *)
Definition answering : Crew -> Kickoff :=
  fun _ => Returned (py "Eat low-glycemic foods.").

Definition connection_error : PyExc :=
  {| exc_is_Exception := true;
     exc_str := py "timeout";
     exc_repr := py "ConnectionError('timeout')" |}.

Definition timing_out : Crew -> Kickoff := fun _ => Raised connection_error.

(** The thread of the sample session has run against the answering gateway. *)
Definition answered_world : World :=
  fire (rt := ascii_runtime) ([], ThreadRuns 0 sample_now answering)
    in_flight_world.

(** The first widget call of a callback fails. *)
Definition first_call_fails : list (option (str * str)) :=
  [ Some (py "invalid command name", py "TclError('invalid command name')") ].

(** A session without the credential. *)
Definition demo_steps : list (list (option (str * str)) * Event) :=
  [ ([], FocusIn); ([], EditQuery sample_query); ([], ClickGetGuidance);
    (first_call_fails, ClickClear); ([], ClickGetGuidance) ].

(* ================================================================== *)
(** * healthcare_agent_interactive.py: the program at the terminal *)
(* ================================================================== *)

(** [Cli] gives [get_healthcare_specialist] and [consult_healthcare_agent]
    as functions of the line read and of the gateway's answer. Here the
    whole program runs at the terminal: its functions print, read lines and
    call the gateway. The user types lines and may end the input; an
    interrupt from the keyboard is not part of the model, only one that the
    gateway raises. *)

(** What the terminal program takes from the Python runtime besides
    [str.upper]: [str.lower], and whether an exception object is a
    [KeyboardInterrupt]. *)
Class PyTerminal := {
  lower : str -> str;
  is_KeyboardInterrupt : PyExc -> bool
}.

Module Interactive.

(** The terminal and the agent service: the lines still to be read, all
    that was written, and the crews given to the gateway. *)
Record Term := mkTerm {
  stdin : list str;
  stdout : str;
  calls : list Crew
}.

Definition write (s : str) (t : Term) : Term :=
  {| stdin := stdin t; stdout := stdout t ++ s; calls := calls t |}.

(** Functions that print, read or call the gateway. *)
Definition IO (A : Type) : Type := Term -> Result A * Term.

#[global] Instance IO_ret : MRet IO := fun A a t => (Ok a, t).

#[global] Instance IO_bind : MBind IO := fun A B k m t =>
  match m t with
  | (Ok a, t') => k a t'
  | (Raise e, t') => (Raise e, t')
  end.

(** [try: body except Exception as e: handler e] *)
Definition try_except {A} (body : IO A) (handler : PyExc -> IO A) : IO A :=
  fun t =>
    match body t with
    | (Ok a, t') => (Ok a, t')
    | (Raise e, t') =>
      if exc_is_Exception e then handler e t' else (Raise e, t')
    end.

(** [for x in l: body x] *)
Fixpoint for_each {A} (l : list A) (body : A -> IO unit) : IO unit :=
  match l with
  | [] => mret tt
  | x :: l' => body x ;; for_each l' body
  end.

(** An expression that may raise, such as a subscript. *)
Definition lift {A} (r : Result A) : IO A := fun t => (r, t).

(** [print(s)] *)
Definition print (s : str) : IO unit :=
  fun t => (Ok tt, write (Cli.println s) t).

Definition EOFError : PyExc := Eval vm_compute in
  {| exc_is_Exception := true;
     exc_str := py "EOF when reading a line";
     exc_repr := py "EOFError('EOF when reading a line')" |}.

(** [input(prompt)]: the prompt is written, then the next line is read,
    without its newline; at the end of the input it raises [EOFError]. *)
Definition input (prompt : str) : IO str :=
  fun t =>
    match stdin t with
    | line :: rest =>
      (Ok line,
       {| stdin := rest; stdout := stdout t ++ prompt; calls := calls t |})
    | [] => (Raise EOFError, write prompt t)
    end.

(** [crew.kickoff()]: the gateway receives the crew and answers; it may
    answer each call differently. *)
Definition kickoff (gateway : nat -> Crew -> Kickoff) (crew : Crew) : IO str :=
  fun t =>
    let t' := {| stdin := stdin t; stdout := stdout t;
                 calls := calls t ++ [crew] |} in
    match gateway (length (calls t)) crew with
    | Returned result => (Ok result, t')
    | Raised e => (Raise e, t')
    end.

(** The texts of [print_header] (lines 15-22). *)
Definition header_title : str := Eval vm_compute in
  py "🏥 AI HEALTHCARE ASSISTANT".

Definition header_subtitle : str := Eval vm_compute in
  py "Medical Guidance | Health Information | Wellness Support".

Definition header_disclaimer : str := Eval vm_compute in
  py "⚠️  DISCLAIMER: For informational purposes only".

Definition header_consult : str := Eval vm_compute in
  py "Always consult qualified healthcare professionals for medical advice".

(** The texts of [get_health_query] (lines 54-65). *)
Definition query_title : str := Eval vm_compute in
  py "📝 DESCRIBE YOUR HEALTH QUERY".

Definition examples_title : str := Eval vm_compute in
  py "Examples:".

Definition example_1 : str := Eval vm_compute in
  py "  • I have a persistent headache and sensitivity to light".

Definition example_2 : str := Eval vm_compute in
  py "  • What are healthy meal options for managing diabetes?".

Definition example_3 : str := Eval vm_compute in
  py "  • I feel anxious and stressed lately, what can I do?".

Definition example_4 : str := Eval vm_compute in
  py "  • Best exercises for lower back pain".

Definition query_prompt : str := Eval vm_compute in
  py "Your query (press Enter twice when done):".

(** The texts of [display_consultation_result] (lines 192-205). *)
Definition response_head : str := Eval vm_compute in
  py "💡 ".

Definition response_tail : str := Eval vm_compute in
  py " RESPONSE:".

Definition error_title : str := Eval vm_compute in
  py "❌ ERROR:".

Definition result_disclaimer : str := Eval vm_compute in
  py "⚠️  DISCLAIMER: This information is for educational purposes only.".

Definition result_consult : str := Eval vm_compute in
  py "Always consult qualified healthcare professionals for medical advice.".

(** The texts of [main] (lines 213-249). *)
Definition no_api_key_error : str := Eval vm_compute in
  py "
❌ ERROR: GOOGLE_API_KEY not found!".

Definition no_api_key_hint : str := Eval vm_compute in
  py "
Please ensure .env file exists with your API key.".

Definition no_api_key_format : str := Eval vm_compute in
  py "Format: GOOGLE_API_KEY=your-key-here".

Definition selected_head : str := Eval vm_compute in
  py "
✅ Selected: ".

Definition description_indent : str := Eval vm_compute in
  py "   ".

Definition no_query_entered : str := Eval vm_compute in
  py "
⚠️  No query entered. Please try again.".

Definition continue_prompt : str := Eval vm_compute in
  py "Would you like another consultation? (yes/no): ".

Definition thanks : str := Eval vm_compute in
  py "
👋 Thank you for using AI Healthcare Assistant!".

Definition stay_healthy : str := Eval vm_compute in
  py "Stay healthy and take care!".

Definition blank_lines : str := Eval vm_compute in
  py "

".

(** The texts of the handlers around [main()] (lines 255, 257). *)
Definition interrupted : str := Eval vm_compute in
  py "

👋 Session interrupted. Take care!".

Definition unexpected_head : str := Eval vm_compute in
  py "
❌ Unexpected error: ".

(** [sep.join(l)] *)
Fixpoint join (sep : str) (l : list str) : str :=
  match l with
  | [] => []
  | x :: l' =>
    match l' with
    | [] => x
    | _ :: _ => x ++ sep ++ join sep l'
    end
  end.

(** [print_header()] *)
Definition print_header : IO unit :=
  print (nl ++ repeat_char 61 80) ;;
  print header_title ;;
  print header_subtitle ;;
  print (repeat_char 61 80) ;;
  print header_disclaimer ;;
  print header_consult ;;
  print (repeat_char 61 80) ;;
  print [].

(** [get_healthcare_specialist()] *)
Definition get_healthcare_specialist : IO (str * str) :=
  print Cli.select_title ;;
  print [] ;;
  for_each Cli.specialists
    (fun entry => print (Cli.menu_line (fst entry) (snd entry))) ;;
  print [] ;;
  line ← input Cli.choice_prompt;
  let choice := strip line in
  if mem Cli.specialists choice then lift (getitem Cli.specialists choice)
  else
    print Cli.invalid_choice ;;
    lift (getitem Cli.specialists (py "1")).

(** The loop of [get_health_query] (lines 67-74), run on the lines still to
    be read: what it leaves in [lines], or the [EOFError] of [input()], and
    the lines left unread. *)
Fixpoint read_lines (lines : list str) (unread : list str)
  : Result (list str) * list str :=
  match unread with
  | [] => (Raise EOFError, [])
  | line :: rest =>
    if truthy line then read_lines (lines ++ [line]) rest
    else
      match lines with
      | _ :: _ => (Ok lines, rest)
      | [] => read_lines lines rest
      end
  end.

(** The loop, at the terminal. *)
Definition input_lines : IO (list str) :=
  fun t =>
    let (r, rest) := read_lines [] (stdin t) in
    (r, {| stdin := rest; stdout := stdout t; calls := calls t |}).

(** [get_health_query()] *)
Definition get_health_query : IO str :=
  print (nl ++ repeat_char 45 80) ;;
  print query_title ;;
  print (repeat_char 45 80) ;;
  print [] ;;
  print examples_title ;;
  print example_1 ;;
  print example_2 ;;
  print example_3 ;;
  print example_4 ;;
  print [] ;;
  print query_prompt ;;
  print [] ;;
  lines ← input_lines;
  mret (join (py " ") lines).

Section WithRuntime.
Context {rt : PyRuntime} {term : PyTerminal}.

(** [consult_healthcare_agent(specialist, description, query, api_key)] *)
Definition consult_healthcare_agent (gateway : nat -> Crew -> Kickoff)
    (specialist description query api_key : str) : IO (bool * str) :=
  print (nl ++ repeat_char 61 80) ;;
  print (Cli.analyzing_head ++ upper specialist ++ Cli.analyzing_tail) ;;
  print (repeat_char 61 80) ;;
  print [] ;;
  try_except
    (config ← lift (Cli.config specialist);
     result ← kickoff gateway
                (Cli.build_crew config specialist query api_key);
     mret (true, result))
    (fun e => mret (false, Cli.error_head ++ exc_str e ++ Cli.error_tail)).

(** [display_consultation_result(success, result, specialist)] *)
Definition display_consultation_result (success : bool)
    (result specialist : str) : IO unit :=
  print (nl ++ repeat_char 61 80) ;;
  (if success then print (response_head ++ upper specialist ++ response_tail)
   else print error_title) ;;
  print (repeat_char 61 80) ;;
  print [] ;;
  print result ;;
  print [] ;;
  print (repeat_char 61 80) ;;
  if success then
    print result_disclaimer ;;
    print result_consult ;;
    print (repeat_char 61 80)
  else mret tt.

(** One turn of the loop of [main] (lines 221-249); it returns whether the
    loop goes on ([continue], or the end of the body) or stops ([break]). *)
Definition main_turn (gateway : nat -> Crew -> Kickoff) (api_key : str)
  : IO bool :=
  selected ← get_healthcare_specialist;
  let specialist := fst selected in
  let description := snd selected in
  print (selected_head ++ specialist) ;;
  print (description_indent ++ description) ;;
  query ← get_health_query;
  if negb (truthy (strip query)) then
    print no_query_entered ;;
    mret true
  else
    outcome ← consult_healthcare_agent gateway specialist description query
                api_key;
    display_consultation_result (fst outcome) (snd outcome) specialist ;;
    print (nl ++ repeat_char 45 80) ;;
    answer ← input continue_prompt;
    let continue_choice := lower (strip answer) in
    if bool_decide (continue_choice ∉ [py "yes"; py "y"]) then
      print thanks ;;
      print stay_healthy ;;
      print (repeat_char 61 80) ;;
      mret false
    else
      print blank_lines ;;
      mret true.

(** [while True:] with at most [fuel] turns; [None] when they are used up. *)
Fixpoint main_loop (fuel : nat) (gateway : nat -> Crew -> Kickoff)
    (api_key : str) (t : Term) : option (Result unit * Term) :=
  match fuel with
  | O => None
  | S fuel' =>
    match main_turn gateway api_key t with
    | (Ok true, t') => main_loop fuel' gateway api_key t'
    | (Ok false, t') => Some (Ok tt, t')
    | (Raise e, t') => Some (Raise e, t')
    end
  end.

(** [main()], given [os.getenv("GOOGLE_API_KEY")]. *)
Definition main (fuel : nat) (gateway : nat -> Crew -> Kickoff)
    (GOOGLE_API_KEY : option str) (t : Term)
  : option (Result unit * Term) :=
  let api_key := default [] GOOGLE_API_KEY in
  if negb (truthy api_key) then
    Some ((print no_api_key_error ;;
           print no_api_key_hint ;;
           print no_api_key_format) t)
  else
    match print_header t with
    | (Ok _, t') => main_loop fuel gateway api_key t'
    | (Raise e, t') => Some (Raise e, t')
    end.

(** The module run as a script (lines 251-257). *)
Definition __main__ (fuel : nat) (gateway : nat -> Crew -> Kickoff)
    (GOOGLE_API_KEY : option str) (t : Term)
  : option (Result unit * Term) :=
  match main fuel gateway GOOGLE_API_KEY t with
  | None => None
  | Some (Ok a, t') => Some (Ok a, t')
  | Some (Raise e, t') =>
    if is_KeyboardInterrupt e then Some (print interrupted t')
    else if exc_is_Exception e then
      Some (print (unexpected_head ++ exc_str e) t')
    else Some (Raise e, t')
  end.

End WithRuntime.

End Interactive.

(* ================================================================== *)
(** * animation_utils.py *)
(* ================================================================== *)

(** The timers of Tk's [after] are modelled as the list of the callbacks
    that are scheduled and have not run yet; any of them may be the next to
    run. *)

Module AnimationManager.

(** The manager's counter, the [current_step] cell of every [animate]
    closure made so far (in creation order), and the timers of
    [self.root.after]: the delay in milliseconds and the closure to call.
    [self.animations] is never written. The opacity and the position that
    [animate] computes are local values that nothing reads. *)
Record State := mkState {
  animation_id : nat;
  current_step : list nat;
  timers : list (Z * nat)
}.

(** [AnimationManager(root)] *)
Definition __init__ : State :=
  {| animation_id := 0; current_step := []; timers := [] |}.

Definition steps : nat := 20.

(** The closure [animate] number [c], made with [step_duration]. *)
Definition animate (c : nat) (step_duration : Z) (m : State) : State :=
  match current_step m !! c with
  | Some n =>
    if (n <? steps)%nat then
      {| animation_id := animation_id m;
         current_step := <[c := S n]> (current_step m);
         timers := timers m ++ [(step_duration, c)] |}
    else m
  | None => m
  end.

(** [fade_in(widget, duration)]: the id it returns, and the manager. *)
Definition fade_in (duration : Z) (m : State) : nat * State :=
  let step_duration := (duration `div` Z.of_nat steps)%Z in
  (animation_id m,
   {| animation_id := S (animation_id m);
      current_step := current_step m ++ [0%nat];
      timers := timers m ++ [(step_duration, length (current_step m))] |}).

(** [slide_in(widget, from_x, from_y, to_x, to_y, duration)] *)
Definition slide_in (duration : Z) (m : State) : nat * State :=
  let step_duration := (duration `div` Z.of_nat steps)%Z in
  (animation_id m,
   {| animation_id := S (animation_id m);
      current_step := current_step m ++ [0%nat];
      timers := timers m ++ [(step_duration, length (current_step m))] |}).

(** What can happen to a manager: a call of one of its methods, or Tk runs
    one of the scheduled callbacks. *)
Inductive Event :=
| FadeIn (duration : Z)
| SlideIn (duration : Z)
| Timer (i : nat).

(** What a session has seen so far: the ids returned to the callers, the
    number of callbacks that have run, and the manager. *)
Record Trace := mkTrace {
  returned : list nat;
  callbacks : nat;
  manager : State
}.

Definition fire (ev : Event) (tr : Trace) : Trace :=
  match ev with
  | FadeIn duration =>
    let (id, m) := fade_in duration (manager tr) in
    {| returned := returned tr ++ [id]; callbacks := callbacks tr;
       manager := m |}
  | SlideIn duration =>
    let (id, m) := slide_in duration (manager tr) in
    {| returned := returned tr ++ [id]; callbacks := callbacks tr;
       manager := m |}
  | Timer i =>
    match timers (manager tr) !! i with
    | Some (step_duration, c) =>
      let m := {| animation_id := animation_id (manager tr);
                  current_step := current_step (manager tr);
                  timers := delete i (timers (manager tr)) |} in
      {| returned := returned tr; callbacks := S (callbacks tr);
         manager := animate c step_duration m |}
    | None => tr
    end
  end.

Definition session (evs : list Event) : Trace :=
  fold_left (fun tr ev => fire ev tr) evs
    {| returned := []; callbacks := 0; manager := __init__ |}.

End AnimationManager.

Module LoadingAnimation.

(** The indicator: its attributes, the number of items on its canvas, and
    the number of scheduled calls of [self.animate]. The circle is drawn
    with the same coordinates in every frame. *)
Record State := mkState {
  rotation : Z;
  animation_running : bool;
  canvas_items : nat;
  pending : nat
}.

(** [LoadingAnimation(parent)] *)
Definition __init__ : State :=
  {| rotation := 0; animation_running := false; canvas_items := 0;
     pending := 0 |}.

(** [animate()] *)
Definition animate (l : State) : State :=
  if negb (animation_running l) then l
  else
    {| rotation := ((rotation l + 10) `mod` 360)%Z;
       animation_running := animation_running l;
       canvas_items := S 0;                (* delete("all"); create_oval *)
       pending := S (pending l) |}.         (* canvas.after(50, self.animate) *)

(** [start()] *)
Definition start (l : State) : State :=
  animate {| rotation := rotation l; animation_running := true;
             canvas_items := canvas_items l; pending := pending l |}.

(** [stop()] *)
Definition stop (l : State) : State :=
  {| rotation := rotation l; animation_running := false;
     canvas_items := 0; pending := pending l |}.

Inductive Event := Start | Stop | Timer.

Definition fire (ev : Event) (l : State) : State :=
  match ev with
  | Start => start l
  | Stop => stop l
  | Timer =>
    match pending l with
    | S p =>
      animate {| rotation := rotation l;
                 animation_running := animation_running l;
                 canvas_items := canvas_items l; pending := p |}
    | O => l
    end
  end.

Definition session (evs : list Event) : State :=
  fold_left (fun l ev => fire ev l) evs __init__.

End LoadingAnimation.

(** The work an [AnimationManager] still has to do: the steps its
    animations have not made and the callbacks that are scheduled. *)
Definition work (m : AnimationManager.State) : nat :=
  list_sum (map (fun n => AnimationManager.steps - n)%nat
              (AnimationManager.current_step m))
  + length (AnimationManager.timers m).

(** Every animation has made at most its twenty steps, and one that has not
    made them all has a callback scheduled. *)
Definition animations_alive (m : AnimationManager.State) : Prop :=
  forall c n,
    AnimationManager.current_step m !! c = Some n ->
    (n <= AnimationManager.steps)%nat
    /\ ((n < AnimationManager.steps)%nat ->
        c ∈ map snd (AnimationManager.timers m)).

(* ================================================================== *)
(** * More of the window's behaviour: vocabulary *)
(* ================================================================== *)

(** At most one request is under way: one started thread or one pending
    [display_result], never both, and the processing flag is set while
    there is one. *)
Definition one_in_flight (w : World) : Prop :=
  (length (threads w) + length (after_queue w) <= 1)%nat
  /\ (threads w <> [] \/ after_queue w <> [] -> is_processing (self w) = true).

(** The processing flag is set although nothing is under way that could
    clear it. *)
Definition stuck (w : World) : Prop :=
  is_processing (self w) = true /\ threads w = [] /\ after_queue w = [].

(** Nothing is under way. *)
Definition idle_queues (w : World) : Prop :=
  threads w = [] /\ after_queue w = [].

(** What the callbacks of the input side leave alone. *)
Definition lifecycle_is (p : bool) (h ts q : list str) (g : list Crew)
    (w : World) : Prop :=
  is_processing (self w) = p /\ consultation_history (self w) = h
  /\ threads w = ts /\ after_queue w = q /\ gateway_log w = g.

(** What [display_result] leaves alone. *)
Definition pending_is (ts q : list str) (g : list Crew) (w : World) : Prop :=
  threads w = ts /\ after_queue w = q /\ gateway_log w = g.

(** The text of the History tab for a history list. *)
Definition history_view (h : list str) : str :=
  match h with
  | [] => no_consultations_text
  | _ :: _ =>
    history_title ++ repeat_char 61 50 ++ nl ++ nl ++ concat (reverse h)
  end.

(** A query that [run_consultation] lets through: trimmed, not empty and not
    the placeholder. *)
Definition usable_query (q : str) : Prop :=
  q <> [] /\ q <> placeholder /\ strip q = q.

(** The widget calls succeed but for call number [k] (from 0), which raises. *)
Definition fault_at (k : nat) (f : str * str) : list (option (str * str)) :=
  replicate k None ++ [Some f].

(** An object that is no [Exception], as [sys.exit] raises. *)
Definition system_exit : PyExc :=
  {| exc_is_Exception := false;
     exc_str := py "1";
     exc_repr := py "SystemExit(1)" |}.

Definition exiting : Crew -> Kickoff := fun _ => Raised system_exit.

(** The sample session, with the gateway exiting. *)
Definition abandoned_world : World :=
  fire (rt := ascii_runtime) ([], ThreadRuns 0 sample_now exiting)
    in_flight_world.

(** The world after a run of [execute_consultation] that logged [entry] and
    scheduled [text]. *)
Definition after_outcome (text entry : str) (crew : Crew) (w : World)
  : World :=
  set_after_queue (after_queue w ++ [text])
    (set_self
       (set_consultation_history (consultation_history (self w) ++ [entry])
          (self w))
       (set_gateway_log (gateway_log w ++ [crew]) w)).

(** The window after [display_result] has shown [result] with working
    widgets. *)
Definition shown (result : str) (g : HealthcareAssistantGUI)
  : HealthcareAssistantGUI :=
  set_history_text
    (Some {| content := history_view (consultation_history g);
             normal := false |})
    (set_status_indicator
       {| text := status_complete;
          text_color := get COLORS (py "success") [] |}
       (set_is_processing false
          (set_output_text {| content := result; normal := false |} g))).

(** No widget call fails in these steps. *)
Definition fault_free (steps : list (list (option (str * str)) * Event))
  : Prop :=
  Forall (fun step => fst step = []) steps.

(** The History tab shows the history but for the entries whose outcome is
    still waiting to be displayed. *)
Definition view_lags (w : World) : Prop :=
  exists seen waiting,
    consultation_history (self w) = seen ++ waiting
    /\ length waiting = length (after_queue w)
    /\ history_text (self w)
       = Some {| content := history_view seen; normal := false |}.

(** The window after [run_consultation] has accepted a query, with working
    widgets. *)
Definition submitted (g : HealthcareAssistantGUI) : HealthcareAssistantGUI :=
  set_status_indicator
    {| text := status_analyzing;
       text_color := get COLORS (py "warning") [] |}
    (set_is_processing true
       (set_output_text {| content := analyzing_text; normal := false |} g)).

(** A crew built around a usable query. *)
Definition usable_crew (crew : Crew) : Prop :=
  exists config specialist query key,
    usable_query query /\ crew = build_crew config specialist query key.

(** Every query waiting in a thread, and every query the gateway has been
    given, is usable. *)
Definition dispatches_usable (w : World) : Prop :=
  Forall usable_query (threads w) /\ Forall usable_crew (gateway_log w).

(** What the History tab depends on. *)
Definition view_is (h q : list str) (t : option Textbox) (w : World) : Prop :=
  consultation_history (self w) = h /\ after_queue w = q
  /\ history_text (self w) = t.

(** The selected specialist, the credential and the crews made so far. *)
Definition selection_is (s : str) (k : option str) (g : list Crew)
    (w : World) : Prop :=
  specialist_var (self w) = s /\ api_key (self w) = k /\ gateway_log w = g.

(** A crew whose agent is configured by the table entry of one of the
    specialists of the combobox. *)
Definition own_crew (key : option str) (crew : Crew) : Prop :=
  exists specialist c query,
    specialist ∈ specialists
    /\ lookup Gui.agent_configs specialist = Some c
    /\ cfg_role c = specialist
    /\ crew = build_crew c specialist query key.

Definition selection_ok (key : option str) (w : World) : Prop :=
  specialist_var (self w) ∈ specialists /\ api_key (self w) = key
  /\ Forall (own_crew key) (gateway_log w).

(** [width], [height] of [__init__] (lines 44-48), given what
    [winfo_screenwidth()] and [winfo_screenheight()] return. *)
Definition window_size (screen_w screen_h : Z) : Z * Z :=
  (Z.min 1200 (Z.max 1000 (screen_w - 150)),
   Z.min 800 (Z.max 640 (screen_h - 120)))%Z.

(** [self.root.minsize(900, 600)] *)
Definition minsize : Z * Z := (900, 600)%Z.

(** Among the next [n] calls on a widget exactly one fails, with [f]; so far
    the console holds [c], the output box satisfies [O] and the History tab
    exists. *)
Definition fault_within (n : nat) (f : str * str) (c : list str)
    (O : Textbox -> Prop) (w : World) : Prop :=
  (exists j, (j < n)%nat /\ tk_faults w = fault_at j f)
  /\ console w = c /\ O (output_text (self w))
  /\ is_Some (history_text (self w)).

(** The failing call has just raised. *)
Definition fault_struck (f : str * str) (c : list str) (O : Textbox -> Prop)
    (e : PyExc) (w : World) : Prop :=
  e = TclError (fst f) (snd f) /\ tk_faults w = [] /\ console w = c
  /\ O (output_text (self w)).

(** What the handler of [display_result] leaves. *)
Definition error_reported (f : str * str) (c : list str)
    (O : Textbox -> Prop) (w : World) : Prop :=
  is_processing (self w) = false
  /\ status_indicator (self w)
     = {| text := status_error; text_color := get COLORS (py "danger") [] |}
  /\ console w = c ++ [py "Error displaying result: " ++ fst f]
  /\ tk_faults w = [] /\ O (output_text (self w)).

(* ================================================================== *)
(** * The program at the terminal: vocabulary *)
(* ================================================================== *)

(** [str.lower] restricted to ASCII letters; other code points are kept. *)
Definition ascii_lower (s : str) : str :=
  map (fun c => if (65 <=? c) && (c <=? 90) then c + 32 else c) s.

Definition keyboard_interrupt : PyExc := Eval vm_compute in
  {| exc_is_Exception := false;
     exc_str := [];
     exc_repr := py "KeyboardInterrupt()" |}.

(** An ASCII-only terminal runtime, for running the model. *)
Definition ascii_terminal : PyTerminal :=
  {| lower := ascii_lower;
     is_KeyboardInterrupt :=
       fun e => bool_decide (exc_repr e = exc_repr keyboard_interrupt) |}.

(** Partial correctness with an exceptional postcondition, at the
    terminal. *)
Definition iohoare {A} (P : Interactive.Term -> Prop) (m : Interactive.IO A)
    (Q : A -> Interactive.Term -> Prop)
    (E : PyExc -> Interactive.Term -> Prop) : Prop :=
  forall t, P t ->
    match m t with
    | (Ok a, t') => Q a t'
    | (Raise e, t') => E e t'
    end.

(** [m] keeps [I], and raises only what [R] allows. *)
Definition keeps {A} (R : PyExc -> Prop) (I : Interactive.Term -> Prop)
    (m : Interactive.IO A) : Prop :=
  iohoare I m (fun _ => I) (fun e t => I t /\ R e).

(** What [get_health_query] prints before it reads. *)
Definition query_banner : str :=
  concat (map Cli.println
    [nl ++ repeat_char 45 80; Interactive.query_title; repeat_char 45 80; [];
     Interactive.examples_title; Interactive.example_1; Interactive.example_2;
     Interactive.example_3; Interactive.example_4; [];
     Interactive.query_prompt; []]).

(** The crew that [consult_healthcare_agent] hands to the gateway. *)
Definition consult_crew (specialist query api_key : str) : Crew :=
  Cli.build_crew (get Cli.agent_configs specialist cli_default_config)
    specialist query api_key.

(** A crew for one of the menu's specialists, configured by that
    specialist's own table entry, about a query that is not blank, with the
    credential [key]. *)
Definition menu_crew (key : str) (crew : Crew) : Prop :=
  exists specialist c query,
    specialist ∈ cli_roles
    /\ lookup Cli.agent_configs specialist = Some c
    /\ strip query <> []
    /\ crew = Cli.build_crew c specialist query key.

(** The terminal [t] comes after [t0]: input was only consumed, output only
    added, and the gateway was only given crews of the menu. *)
Definition extends (key : str) (t0 t : Interactive.Term) : Prop :=
  Interactive.stdin t `suffix_of` Interactive.stdin t0
  /\ Interactive.stdout t0 `prefix_of` Interactive.stdout t
  /\ exists new, Interactive.calls t = Interactive.calls t0 ++ new
                 /\ Forall (menu_crew key) new.

(** What leaves [main]: the end of the input, or an error of the gateway
    that is not an [Exception]. *)
Definition leaves_main (gateway : nat -> Crew -> Kickoff) (e : PyExc) : Prop :=
  e = Interactive.EOFError
  \/ (exc_is_Exception e = false
      /\ exists n crew, gateway n crew = Raised e).

(** What a function does to the terminal, whatever its state: it only
    moves it forward; its result satisfies [Q]; and what it raises may leave
    [main]. *)
Definition steps {A} (key : str) (gateway : nat -> Crew -> Kickoff)
    (Q : A -> Prop) (m : Interactive.IO A) : Prop :=
  forall t,
    match m t with
    | (Ok a, t') => extends key t t' /\ Q a
    | (Raise e, t') => extends key t t' /\ leaves_main gateway e
    end.

(** The same, for a function that reads at least one line when it
    returns. *)
Definition reads {A} (key : str) (gateway : nat -> Crew -> Kickoff)
    (Q : A -> Prop) (m : Interactive.IO A) : Prop :=
  forall t,
    match m t with
    | (Ok a, t') =>
      extends key t t'
      /\ (length (Interactive.stdin t') < length (Interactive.stdin t))%nat
      /\ Q a
    | (Raise e, t') => extends key t t' /\ leaves_main gateway e
    end.

(** A selection of the menu. *)
Definition menu_selection (selected : str * str) : Prop :=
  fst selected ∈ cli_roles
  /\ is_Some (lookup Cli.agent_configs (fst selected)).

(* ================================================================== *)
(** * Sample runs *)
(* ================================================================== *)

(** The user has picked the nutrition specialist and typed the query. *)
Definition typed_world : World :=
  session (rt := ascii_runtime)
    [ ([], SelectSpecialist (py "Nutrition Specialist"));
      ([], FocusIn);
      ([], EditQuery sample_query) ] ready_world.

(** The sample session, the run of its thread and the display of the
    answer. *)
Definition answered_steps : list (list (option (str * str)) * Event) :=
  sample_steps ++ [ ([], ThreadRuns 0 sample_now answering); ([], TkIdle) ].

Definition render_fault : str * str := Eval vm_compute in
  (py "invalid command name", py "TclError('invalid command name')").

(** The answer is about to be displayed, and the seventh widget call will
    fail. *)
Definition failing_display_world : World :=
  set_tk_faults (fault_at 6 render_fault) (set_after_queue [] answered_world).

(** At the terminal: the user picks entry 4, types a query on two lines and
    declines another consultation. *)
Definition sample_lines : list str := Eval vm_compute in
  [ py "4"; py "What should I eat"; py "for diabetes?"; []; py "no" ].

Definition sample_terminal : Interactive.Term :=
  {| Interactive.stdin := sample_lines; Interactive.stdout := [];
     Interactive.calls := [] |}.

(** The same, going on with a second consultation that the end of the input
    cuts short. *)
Definition eager_terminal : Interactive.Term := Eval vm_compute in
  {| Interactive.stdin :=
       [ py " 2 "; py "I have a headache"; []; py " YES "; py "9" ];
     Interactive.stdout := []; Interactive.calls := [] |}.

Definition cli_answering : nat -> Crew -> Kickoff :=
  fun _ _ => Returned (py "Eat low-glycemic foods.").


(* ================================================================== *)
(** * Strings and dictionaries *)
(* ================================================================== *)

Lemma lookup_None_iff {V} (d : dict V) (k : str) :
  lookup d k = None <-> k ∉ keys d.
Proof.
  induction d as [|[k' v] d IH]; simpl.
  - split; [intros _; apply not_elem_of_nil | done].
  - case_bool_decide as Hk.
    + split; [done|]. intros Hn. contradict Hn. rewrite Hk.
      apply list_elem_of_here.
    + rewrite IH, not_elem_of_cons.
      split; [intros ?; split; [congruence | done] | by intros [_ ?]].
Qed.

Lemma get_unrecognized {V} (d : dict V) (k : str) (default : V) :
  k ∉ keys d -> get d k default = default.
Proof. intros H. unfold get. by apply lookup_None_iff in H as ->. Qed.

Lemma mem_false {V} (d : dict V) (k : str) :
  k ∉ keys d -> mem d k = false.
Proof. intros H. unfold mem. by apply bool_decide_eq_false. Qed.

Lemma strip_placeholder : strip placeholder = placeholder.
Proof. reflexivity. Qed.

Lemma slice_to_short (n : nat) (s : str) :
  (length s <= n)%nat -> slice_to n s = s.
Proof. intros H. unfold slice_to. by apply take_ge. Qed.

Lemma occurs_in_app_l (t s a : str) : occurs_in t s -> occurs_in t (a ++ s).
Proof.
  intros (x & y & ->). exists (a ++ x), y. by rewrite <- app_assoc.
Qed.

Lemma occurs_in_app_r (t s b : str) : occurs_in t s -> occurs_in t (s ++ b).
Proof.
  intros (x & y & ->). exists x, (y ++ b). by rewrite <- !app_assoc.
Qed.

Lemma occurs_in_refl (t : str) : occurs_in t t.
Proof. exists [], []. by rewrite app_nil_r. Qed.

Lemma startswith_spec (s p : str) :
  startswith s p = true <-> exists b, s = p ++ b.
Proof.
  revert s. induction p as [|a p IH]; intros s; simpl.
  - split; [intros _; by exists s | done].
  - destruct s as [|c s].
    + split; [done | by intros [b ?]].
    + rewrite andb_true_iff, N.eqb_eq, IH. split.
      * intros [-> [b ->]]. eauto.
      * intros [b Hb]. injection Hb as -> ->. eauto.
Qed.

(** [contains] decides [occurs_in]. *)
Lemma contains_spec (s t : str) : contains s t = true <-> occurs_in t s.
Proof.
  induction s as [|c s IH]; simpl.
  - rewrite orb_false_r, startswith_spec. split.
    + intros [b Hb]. exists [], b. done.
    + intros (x & y & H). symmetry in H.
      apply app_eq_nil in H as [-> H]. apply app_eq_nil in H as [-> ->].
      by exists [].
  - rewrite orb_true_iff, startswith_spec, IH. split.
    + intros [[b Hb] | (x & y & ->)].
      * exists [], b. done.
      * exists (c :: x), y. done.
    + intros (x & y & H). destruct x as [|c' x].
      * left. exists y. done.
      * right. injection H as -> ->. by exists x, y.
Qed.

(* ================================================================== *)
(** * Rejections of [run_consultation] *)
(* ================================================================== *)

Lemma rejected_with_set_dialogs (d : Dialog) (w : World) :
  rejected_with d w (set_dialogs (dialogs w ++ [d]) w).
Proof. by repeat split. Qed.

Lemma run_consultation_processing (w : World) :
  is_processing (self w) = true ->
  run_consultation w
  = (Ok tt, set_dialogs
              (dialogs w ++ [showwarning title_processing msg_processing]) w).
Proof.
  intros H. unfold run_consultation, mbind, M_bind, attr, messagebox.
  by rewrite H.
Qed.

Lemma run_consultation_demo (w : World) :
  is_processing (self w) = false -> demo_mode (self w) = true ->
  run_consultation w
  = (Ok tt, set_dialogs
              (dialogs w ++ [showinfo title_demo_mode msg_demo_mode]) w).
Proof.
  intros H1 H2. unfold run_consultation, mbind, M_bind, attr, messagebox.
  by rewrite H1, H2.
Qed.

Lemma run_consultation_no_query (w : World) :
  is_processing (self w) = false -> demo_mode (self w) = false ->
  let query := strip (get_all (query_input (self w))) in
  query = [] \/ query = placeholder ->
  run_consultation w
  = (Ok tt, set_dialogs
              (dialogs w
                 ++ [showwarning title_input_required msg_input_required]) w).
Proof.
  intros H1 H2 query Hq.
  unfold run_consultation, mbind, M_bind, attr, messagebox.
  rewrite H1, H2. fold query.
  assert (negb (truthy query) || bool_decide (query = placeholder) = true)
    as ->; [|done].
  destruct Hq as [-> | ->]; [done|].
  rewrite bool_decide_eq_true_2 by done. apply orb_true_r.
Qed.

(** C2. A call of [run_consultation] while a request is in flight
    ([is_processing] set) only shows the "Processing" warning, a validation
    error: the object is unchanged, no thread is started, nothing is
    scheduled or queued, and the gateway is not called. *)
Theorem C2_in_flight_submission_rejected (w : World) :
  is_processing (self w) = true ->
  exists w',
    run_consultation w = (Ok tt, w')
    /\ rejected_with (showwarning title_processing msg_processing) w w'
    /\ signal (showwarning title_processing msg_processing)
       = Some ValidationError
    /\ is_processing (self w') = is_processing (self w)
    /\ status_indicator (self w') = status_indicator (self w)
    /\ threads w' = threads w.
Proof.
  intros H. eexists. split; [by apply run_consultation_processing|].
  split; [apply rejected_with_set_dialogs | done].
Qed.

(** C5, as stated, fails in demo mode. A freshly constructed window without
    the credential holds the placeholder in its query box; submitting it is
    answered with the "Demo Mode" notice, the configuration error, and with
    no validation error. *)
Lemma C5_placeholder_in_demo_mode_is_configuration_error :
  let w := __init__ None in
  get_all (query_input (self w)) = placeholder
  /\ (exists w',
        run_consultation w = (Ok tt, w')
        /\ rejected_with (showinfo title_demo_mode msg_demo_mode) w w'
        /\ signal (showinfo title_demo_mode msg_demo_mode)
           = Some ConfigurationError)
  /\ ~ (exists d w',
          run_consultation w = (Ok tt, w')
          /\ dialogs w' = dialogs w ++ [d]
          /\ signal d = Some ValidationError).
Proof.
  intros w. split; [reflexivity|].
  assert (run_consultation w
          = (Ok tt, set_dialogs
               (dialogs w ++ [showinfo title_demo_mode msg_demo_mode]) w))
    as Hrun by (by apply run_consultation_demo).
  split.
  - eexists. split; [exact Hrun|]. split; [apply rejected_with_set_dialogs|].
    reflexivity.
  - intros (d & w' & Hw' & Hd & Hs). rewrite Hrun in Hw'.
    injection Hw' as <-. simpl in Hd.
    injection Hd as <-. discriminate Hs.
Qed.

(** C5, amended. A submission whose query is empty after trimming, or is the
    placeholder, is always rejected with one message box and nothing else:
    the processing flag, the status label and the history are unchanged and
    nothing is dispatched. The rejection is the configuration error when the
    window runs in demo mode with no request in flight (that check comes
    before the query check), and a validation error otherwise. *)
Theorem C5_unusable_query_rejected (w : World) :
  let text := get_all (query_input (self w)) in
  strip text = [] \/ text = placeholder ->
  exists d w',
    run_consultation w = (Ok tt, w')
    /\ rejected_with d w w'
    /\ signal d
       = Some (if negb (is_processing (self w)) && demo_mode (self w)
               then ConfigurationError else ValidationError)
    /\ is_processing (self w') = is_processing (self w)
    /\ status_indicator (self w') = status_indicator (self w)
    /\ consultation_history (self w') = consultation_history (self w)
    /\ threads w' = threads w
    /\ gateway_log w' = gateway_log w.
Proof.
  intros text Hq.
  destruct (is_processing (self w)) eqn:Hp; [|destruct (demo_mode (self w)) eqn:Hd].
  - eexists _, _. split; [by apply run_consultation_processing|].
    split; [apply rejected_with_set_dialogs | done].
  - eexists _, _. split; [by apply run_consultation_demo|].
    split; [apply rejected_with_set_dialogs | done].
  - eexists _, _. split.
    + apply run_consultation_no_query; [done..|]. fold text.
      destruct Hq as [-> | ->]; [by left | right; apply strip_placeholder].
    + split; [apply rejected_with_set_dialogs | done].
Qed.

(* ================================================================== *)
(** * The specialist registries *)
(* ================================================================== *)

Lemma gui_config_keys : keys Gui.agent_configs = Gui.specialists.
Proof. reflexivity. Qed.

Lemma cli_config_keys : keys Cli.agent_configs = cli_roles.
Proof. reflexivity. Qed.

Lemma gui_default_lookup :
  getitem Gui.agent_configs (py "Medical Advisor") = Ok gui_default_config.
Proof. reflexivity. Qed.

Lemma cli_default_lookup :
  getitem Cli.agent_configs (py "Medical Advisor") = Ok cli_default_config.
Proof. reflexivity. Qed.

(** The lookup of [execute_consultation] never raises. *)
Lemma gui_config_total (specialist : str) :
  Gui.config specialist
  = Ok (get Gui.agent_configs specialist gui_default_config).
Proof.
  unfold Gui.config, mbind, Result_bind. by rewrite gui_default_lookup.
Qed.

Lemma cli_config_total (specialist : str) :
  Cli.config specialist
  = Ok (get Cli.agent_configs specialist cli_default_config).
Proof.
  unfold Cli.config, mbind, Result_bind. by rewrite cli_default_lookup.
Qed.

(** C8. An unrecognized specialist id resolves to the "Medical Advisor"
    entry and raises nothing: in the configuration lookup of the GUI, in the
    menu selection of the command line (where the id is the typed choice),
    and in the configuration lookup of the command line. *)
Theorem C8_unrecognized_id_defaults_to_medical_advisor
    (gui_id cli_id choice : str) :
  gui_id ∉ keys Gui.agent_configs ->
  cli_id ∉ keys Cli.agent_configs ->
  strip choice ∉ keys Cli.specialists ->
  Gui.config gui_id = Ok gui_default_config
  /\ Gui.cfg_role gui_default_config = py "Medical Advisor"
  /\ getitem Gui.agent_configs (py "Medical Advisor") = Ok gui_default_config
  /\ snd (Cli.get_healthcare_specialist choice)
     = Ok (py "Medical Advisor",
           py "General medical information and guidance")
  /\ Cli.config cli_id = Ok cli_default_config
  /\ getitem Cli.agent_configs (py "Medical Advisor") = Ok cli_default_config.
Proof.
  intros Hgui Hcli Hchoice. repeat split.
  - rewrite gui_config_total. by rewrite get_unrecognized.
  - unfold Cli.get_healthcare_specialist. by rewrite mem_false.
  - rewrite cli_config_total. by rewrite get_unrecognized.
Qed.

(** Closed decidable facts about the program's constants. *)
Ltac by_compute :=
  match goal with
  | |- ?P => apply (bool_decide_unpack P); vm_compute; exact I
  end.

(** C9. The GUI offers nine specialist ids and the command line seven; the
    two lists are written out separately, and the seven are among the nine
    while two of the nine are missing from the seven. *)
Theorem C9_nine_gui_and_seven_cli_specialists :
  length Gui.specialists = 9%nat
  /\ NoDup Gui.specialists
  /\ length Cli.specialists = 7%nat
  /\ NoDup cli_roles
  /\ keys Cli.specialists
     = [py "1"; py "2"; py "3"; py "4"; py "5"; py "6"; py "7"]
  /\ (forall id, id ∈ cli_roles -> id ∈ Gui.specialists)
  /\ cli_roles = take 7 Gui.specialists
  /\ ((py "Preventive Medicine Expert") ∈ Gui.specialists)
  /\ ((py "Preventive Medicine Expert") ∉ cli_roles)
  /\ ((py "Emergency Response Advisor") ∈ Gui.specialists)
  /\ ((py "Emergency Response Advisor") ∉ cli_roles).
Proof.
  assert (cli_roles = take 7 Gui.specialists) as Htake by reflexivity.
  repeat apply conj; try reflexivity; try by_compute.
  intros id. rewrite Htake. apply (subseteq_take 7 Gui.specialists).
Qed.

(* ================================================================== *)
(** * [execute_consultation] *)
(* ================================================================== *)

Section ConsultationFacts.
Context {rt : PyRuntime}.

Ltac run_execute :=
  unfold execute_consultation, try_except, mbind, M_bind, attr, lift,
    kickoff, assign, root_after, print;
  rewrite gui_config_total.

Lemma execute_consultation_returned w now gateway query result :
  gateway (crew_for w query) = Returned result ->
  exists w',
    execute_consultation now gateway query w = (Ok tt, w')
    /\ completes_with
         (formatted_result (specialist_var (self w)) now result)
         (history_entry now (specialist_var (self w)) query) query w w'
    /\ console w' = console w.
Proof.
  intros Hg. run_execute.
  change (build_crew _ _ _ _) with (crew_for w query). rewrite Hg.
  eexists. split; [reflexivity|]. by repeat split.
Qed.

Lemma execute_consultation_raised w now gateway query e :
  gateway (crew_for w query) = Raised e ->
  exc_is_Exception e = true ->
  exists w',
    execute_consultation now gateway query w = (Ok tt, w')
    /\ completes_with
         (simulated_result (specialist_var (self w)) now e)
         (history_entry_fallback now (specialist_var (self w)) query)
         query w w'
    /\ console w' = console w ++ [py "Consultation error: " ++ exc_repr e].
Proof.
  intros Hg He. run_execute.
  change (build_crew _ _ _ _) with (crew_for w query). rewrite Hg, He.
  eexists. split; [reflexivity|]. by repeat split.
Qed.

(** An object that is not an [Exception] passes through the handler: the
    thread ends with it, and nothing is logged or scheduled. *)
Lemma execute_consultation_not_caught w now gateway query e :
  gateway (crew_for w query) = Raised e ->
  exc_is_Exception e = false ->
  exists w',
    execute_consultation now gateway query w = (Raise e, w')
    /\ consultation_history (self w') = consultation_history (self w)
    /\ after_queue w' = after_queue w.
Proof.
  intros Hg He. run_execute.
  change (build_crew _ _ _ _) with (crew_for w query). rewrite Hg, He.
  eexists. split; [reflexivity|]. by repeat split.
Qed.

End ConsultationFacts.

(* ================================================================== *)
(** * The rules of the program logic *)
(* ================================================================== *)

Lemma hoare_ret {A} (P : World -> Prop) (a : A) Q E :
  (forall w, P w -> Q a w) -> hoare P (mret a) Q E.
Proof. intros H w Hw. by apply H. Qed.

Lemma hoare_bind {A B} (P : World -> Prop) (m : M A) (k : A -> M B) R Q E :
  hoare P m R E -> (forall a, hoare (R a) (k a) Q E) ->
  hoare P (m ≫= k) Q E.
Proof.
  intros Hm Hk w Hw. specialize (Hm w Hw). unfold mbind, M_bind.
  destruct (m w) as [[a|e] w']; [by apply Hk | done].
Qed.

Lemma hoare_try_except {A} (P : World -> Prop) (body : M A) handler Q E1 E :
  hoare P body Q E1 ->
  (forall e, exc_is_Exception e = true -> hoare (E1 e) (handler e) Q E) ->
  (forall e w, exc_is_Exception e = false -> E1 e w -> E e w) ->
  hoare P (try_except body handler) Q E.
Proof.
  intros Hb Hh Hn w Hw. specialize (Hb w Hw). unfold try_except.
  destruct (body w) as [[a|e] w']; [done|].
  destruct (exc_is_Exception e) eqn:He; [by apply Hh | by apply Hn].
Qed.

Lemma hoare_consequence {A} (P P' : World -> Prop) (m : M A)
    (Q Q' : A -> World -> Prop) (E E' : PyExc -> World -> Prop) :
  hoare P m Q E ->
  (forall w, P' w -> P w) -> (forall a w, Q a w -> Q' a w) ->
  (forall e w, E e w -> E' e w) ->
  hoare P' m Q' E'.
Proof.
  intros H HP HQ HE w Hw. specialize (H w (HP w Hw)).
  destruct (m w) as [[a|e] w']; [by apply HQ | by apply HE].
Qed.

Lemma set_tk_faults_same (w : World) : set_tk_faults (tk_faults w) w = w.
Proof. by destruct w. Qed.

(** A widget call raises only [TclError], an [Exception]. *)
Lemma hoare_widget_call (P : World -> Prop) f Q E :
  (forall w x, P w -> Q tt (set_tk_faults x (set_self (f (self w)) w))) ->
  (forall w x s r, P w -> E (TclError s r) (set_tk_faults x w)) ->
  hoare P (widget_call f) Q E.
Proof.
  intros HQ HE w Hw. unfold widget_call.
  destruct (tk_faults w) as [|[[s r]|] rest] eqn:Hf.
  - rewrite <- (set_tk_faults_same (set_self _ w)). by apply HQ.
  - by apply HE.
  - by apply HQ.
Qed.

Lemma hoare_attr {A} (P : World -> Prop) (f : HealthcareAssistantGUI -> A) Q E :
  (forall w, P w -> Q (f (self w)) w) -> hoare P (attr f) Q E.
Proof. intros H w Hw. by apply H. Qed.

Lemma hoare_assign (P : World -> Prop) f Q E :
  (forall w, P w -> Q tt (set_self (f (self w)) w)) -> hoare P (assign f) Q E.
Proof. intros H w Hw. by apply H. Qed.

Lemma hoare_getitem {V} (P : World -> Prop) (d : dict V) k Q E :
  (forall v w, P w -> Q v w) -> (forall w, P w -> E (KeyError k) w) ->
  hoare P (lift (getitem d k)) Q E.
Proof.
  intros HQ HE w Hw. unfold lift, getitem.
  destruct (lookup d k); [by apply HQ | by apply HE].
Qed.

Lemma hoare_messagebox (P : World -> Prop) d Q E :
  (forall w, P w -> Q tt (set_dialogs (dialogs w ++ [d]) w)) ->
  hoare P (messagebox d) Q E.
Proof. intros H w Hw. by apply H. Qed.

Lemma hoare_print (P : World -> Prop) line Q E :
  (forall w, P w -> Q tt (set_console (console w ++ [line]) w)) ->
  hoare P (print line) Q E.
Proof. intros H w Hw. by apply H. Qed.

(** ** Invariants *)

Lemma stable_ret {A} I (a : A) : stable I (mret a).
Proof. by apply hoare_ret. Qed.

Lemma stable_bind {A B} I (m : M A) (k : A -> M B) :
  stable I m -> (forall a, stable I (k a)) -> stable I (m ≫= k).
Proof. intros Hm Hk. by eapply hoare_bind; [exact Hm|]. Qed.

Lemma stable_try_except {A} I (body : M A) handler :
  stable I body -> (forall e, stable I (handler e)) ->
  stable I (try_except body handler).
Proof.
  intros Hb Hh. eapply hoare_try_except; [exact Hb | |].
  - intros e _. eapply hoare_consequence; [apply (Hh e) | | done..].
    by intros w [Hw _].
  - intros e w He [_ He']. congruence.
Qed.

Lemma stable_for_each {A} I (l : list A) body :
  (forall x, stable I (body x)) -> stable I (for_each l body).
Proof.
  intros Hb. induction l as [|x l IH]; simpl.
  - apply stable_ret.
  - by apply stable_bind.
Qed.

Lemma stable_attr {A} I (f : HealthcareAssistantGUI -> A) : stable I (attr f).
Proof. by apply hoare_attr. Qed.

Lemma stable_getitem {V} I (d : dict V) k : stable I (lift (getitem d k)).
Proof. by apply hoare_getitem. Qed.

Lemma stable_widget_call I f :
  env_independent I ->
  (forall w, I w -> I (set_self (f (self w)) w)) ->
  stable I (widget_call f).
Proof.
  intros HI Hf. apply hoare_widget_call.
  - intros w x Hw. by apply HI, Hf.
  - intros w x s r Hw. split; [by apply HI | done].
Qed.

Lemma stable_assign I f :
  (forall w, I w -> I (set_self (f (self w)) w)) -> stable I (assign f).
Proof. intros Hf. by apply hoare_assign. Qed.

Lemma stable_messagebox I d : env_independent I -> stable I (messagebox d).
Proof. intros HI. apply hoare_messagebox. intros w Hw. by apply HI. Qed.

Lemma stable_print I line : env_independent I -> stable I (print line).
Proof. intros HI. apply hoare_print. intros w Hw. by apply HI. Qed.

Lemma stable_thread_start I query :
  (forall w x, I w -> I (set_threads x w)) -> stable I (thread_start query).
Proof. intros HI w Hw. by apply HI. Qed.

Lemma stable_run {A} I (m : M A) (w : World) :
  stable I m -> I w -> I (snd (m w)).
Proof.
  intros H Hw. specialize (H w Hw).
  destruct (m w) as [[a|e] w']; [done | by destruct H].
Qed.

(** Splits a method into its calls; what is left are the conditions on the
    invariant. *)
Ltac stable_steps :=
  repeat first
    [ apply stable_ret
    | apply stable_attr
    | apply stable_getitem
    | apply stable_bind; [|intros ?]
    | apply stable_try_except; [|intros ?]
    | apply stable_for_each; intros ?
    | apply stable_widget_call
    | apply stable_assign
    | apply stable_messagebox
    | apply stable_print
    | apply stable_thread_start
    | match goal with
      | |- stable _ (if ?c then _ else _) => destruct c
      | |- stable _ (match ?x with [] => _ | _ :: _ => _ end) => destruct x
      end ].


(* ================================================================== *)
(** * The methods that run on the Tk thread *)
(* ================================================================== *)

Ltac unfold_widgets :=
  unfold on_query_input, on_output_text, on_history_text, status_configure.

(** None of them touches the history list. *)
Lemma update_history_display_history h :
  stable (history_is h) update_history_display.
Proof.
  unfold update_history_display. unfold_widgets. stable_steps; done.
Qed.

Lemma display_result_history h result :
  stable (history_is h) (display_result result).
Proof.
  unfold display_result. unfold_widgets. stable_steps.
  all: try apply update_history_display_history.
  all: done.
Qed.

Lemma run_consultation_history h : stable (history_is h) run_consultation.
Proof. unfold run_consultation. unfold_widgets. stable_steps; done. Qed.

Lemma clear_all_history h : stable (history_is h) clear_all.
Proof. unfold clear_all. unfold_widgets. stable_steps; done. Qed.

Lemma clear_placeholder_history h : stable (history_is h) _clear_placeholder.
Proof. unfold _clear_placeholder. unfold_widgets. stable_steps; done. Qed.

Lemma add_placeholder_history h : stable (history_is h) _add_placeholder.
Proof. unfold _add_placeholder. unfold_widgets. stable_steps; done. Qed.

(** In demo mode they keep the window idle. *)
Lemma demo_idle_env : env_independent demo_idle.
Proof. intros w Hw. by repeat split; intros; apply Hw. Qed.

Lemma clear_all_demo_idle : stable demo_idle clear_all.
Proof.
  unfold clear_all. unfold_widgets. stable_steps.
  all: try apply demo_idle_env.
  all: intros w Hw; by repeat split; apply Hw.
Qed.

Lemma clear_placeholder_demo_idle : stable demo_idle _clear_placeholder.
Proof.
  unfold _clear_placeholder. unfold_widgets. stable_steps.
  all: try apply demo_idle_env.
  all: intros w Hw; by repeat split; apply Hw.
Qed.

Lemma add_placeholder_demo_idle : stable demo_idle _add_placeholder.
Proof.
  unfold _add_placeholder. unfold_widgets. stable_steps.
  all: try apply demo_idle_env.
  all: intros w Hw; by repeat split; apply Hw.
Qed.

Lemma run_consultation_demo_idle : stable demo_idle run_consultation.
Proof.
  intros w Hw. destruct Hw as (Hd & Hp & Hrest).
  rewrite run_consultation_demo by done. by repeat split; try apply Hrest.
Qed.

(** [display_result] always ends with the processing flag cleared. *)
Lemma update_history_display_not_processing :
  stable not_processing update_history_display.
Proof.
  unfold update_history_display. unfold_widgets. stable_steps; done.
Qed.

Lemma display_result_clears_flag result :
  hoare (fun _ => True) (display_result result)
    (fun _ => not_processing) (fun _ => not_processing).
Proof.
  unfold display_result. unfold_widgets.
  apply hoare_try_except
    with (E1 := fun e _ => exc_is_Exception e = true).
  - repeat (eapply hoare_bind with (R := fun _ _ => True);
            [by apply hoare_widget_call | intros _]).
    eapply hoare_bind with (R := fun _ => not_processing);
      [by apply hoare_assign | intros _].
    eapply hoare_bind with (R := fun _ => not_processing);
      [by apply hoare_getitem | intros success].
    eapply hoare_bind with (R := fun _ => not_processing);
      [by apply hoare_widget_call | intros _].
    eapply hoare_consequence;
      [apply update_history_display_not_processing | done | done |].
    by intros e w [_ He].
  - intros e _.
    eapply hoare_bind with (R := fun _ _ => True);
      [by apply hoare_print | intros _].
    eapply hoare_bind with (R := fun _ => not_processing);
      [by apply hoare_assign | intros _].
    eapply hoare_bind with (R := fun _ => not_processing);
      [by apply hoare_getitem | intros danger].
    by apply hoare_widget_call.
  - intros e w He He'. congruence.
Qed.

(* ================================================================== *)
(** * Sessions *)
(* ================================================================== *)

Section SessionFacts.
Context {rt : PyRuntime}.

Lemma callback_stable I m faults w :
  stable I m -> env_independent I -> I w -> I (callback m faults w).
Proof.
  intros Hm HI Hw. unfold callback. apply stable_run; [done|]. by apply HI.
Qed.

Lemma history_is_env h : env_independent (history_is h).
Proof. done. Qed.

(** One step of a session keeps the entries logged so far, in place. *)
Lemma fire_history_prefix step (w : World) :
  consultation_history (self w)
    `prefix_of` consultation_history (self (fire step w)).
Proof.
  set (h := consultation_history (self w)).
  assert (history_is h w) as Hw by done.
  assert (forall m faults, stable (history_is h) m ->
            h `prefix_of` consultation_history (self (callback m faults w)))
    as Hcb.
  { intros m faults Hm.
    by rewrite (callback_stable (history_is h) m faults w Hm (history_is_env h) Hw). }
  destruct step as [faults ev]. destruct ev; simpl.
  - apply Hcb, run_consultation_history.
  - apply Hcb, clear_all_history.
  - apply Hcb, clear_placeholder_history.
  - apply Hcb, add_placeholder_history.
  - done.
  - by case_bool_decide.
  - destruct (threads w !! i) as [query|]; [|done].
    set (w0 := set_tk_faults faults (set_threads (delete i (threads w)) w)).
    unfold callback. fold w0.
    change h with (consultation_history (self w0)).
    destruct (gateway (crew_for w0 query)) as [result|e] eqn:Hg;
      [|destruct (exc_is_Exception e) eqn:He].
    + destruct (execute_consultation_returned w0 now gateway query result Hg)
        as (w' & Hrun & (Hh & _) & _).
      rewrite Hrun. simpl. rewrite Hh. by apply prefix_app_r.
    + destruct (execute_consultation_raised w0 now gateway query e Hg He)
        as (w' & Hrun & (Hh & _) & _).
      rewrite Hrun. simpl. rewrite Hh. by apply prefix_app_r.
    + destruct (execute_consultation_not_caught w0 now gateway query e Hg He)
        as (w' & Hrun & Hh & _).
      rewrite Hrun. simpl. by rewrite Hh.
  - destruct (after_queue w) as [|result rest]; [done|].
    unfold callback.
    by rewrite (stable_run (history_is h) (display_result result) _
                  (display_result_history h result)).
Qed.

Lemma session_history_prefix steps (w : World) :
  consultation_history (self w)
    `prefix_of` consultation_history (self (session steps w)).
Proof.
  revert w. induction steps as [|step steps IH]; intros w; simpl.
  - done.
  - etrans; [apply (fire_history_prefix step) | apply IH].
Qed.

Lemma fire_demo_idle step (w : World) : demo_idle w -> demo_idle (fire step w).
Proof.
  intros Hw. destruct step as [faults ev]. destruct ev; simpl.
  - by apply callback_stable;
      [apply run_consultation_demo_idle | apply demo_idle_env |].
  - by apply callback_stable;
      [apply clear_all_demo_idle | apply demo_idle_env |].
  - by apply callback_stable;
      [apply clear_placeholder_demo_idle | apply demo_idle_env |].
  - by apply callback_stable;
      [apply add_placeholder_demo_idle | apply demo_idle_env |].
  - by repeat split; apply Hw.
  - case_bool_decide; [|done]. by repeat split; apply Hw.
  - pose proof Hw as (_ & _ & _ & Ht & _). by rewrite Ht.
  - pose proof Hw as (_ & _ & _ & _ & Hq & _). by rewrite Hq.
Qed.

Lemma session_demo_idle steps (w : World) :
  demo_idle w -> demo_idle (session steps w).
Proof.
  revert w. induction steps as [|step steps IH]; intros w Hw; simpl.
  - done.
  - by apply IH, fire_demo_idle.
Qed.

Lemma init_demo_idle (key : option str) :
  from_option truthy false key = false -> demo_idle (__init__ key).
Proof.
  destruct key as [[|c k]|]; [| done |]; intros _; by vm_compute.
Qed.

(** C3. Started without the credential ([GOOGLE_API_KEY] unset or empty),
    the window is in demo mode for the whole session: after any sequence of
    events the processing flag is still clear, the status label still reads
    "Ready", no thread has been started and the gateway has not been called;
    and a call of [run_consultation] there only shows the "Demo Mode"
    notice, the configuration error. *)
Theorem C3_demo_mode_rejects_every_submission
    (key : option str) (steps : list (list (option (str * str)) * Event))
    (faults : list (option (str * str))) :
  from_option truthy false key = false ->
  let w := session steps (__init__ key) in
  (demo_mode (self w) = true
   /\ is_processing (self w) = false
   /\ text (status_indicator (self w)) = status_ready
   /\ threads w = [] /\ after_queue w = [] /\ gateway_log w = [])
  /\ exists w',
       run_consultation (set_tk_faults faults w) = (Ok tt, w')
       /\ rejected_with (showinfo title_demo_mode msg_demo_mode)
            (set_tk_faults faults w) w'
       /\ signal (showinfo title_demo_mode msg_demo_mode)
          = Some ConfigurationError
       /\ is_processing (self w') = false
       /\ threads w' = [] /\ gateway_log w' = [].
Proof.
  intros Hkey w.
  assert (demo_idle w) as Hw by by apply session_demo_idle, init_demo_idle.
  split; [exact Hw|].
  destruct Hw as (Hd & Hp & _ & Ht & _ & Hg).
  eexists. split; [by apply run_consultation_demo|].
  split; [apply rejected_with_set_dialogs | done].
Qed.

End SessionFacts.

(* ================================================================== *)
(** * Rendering the history *)
(* ================================================================== *)

Lemma bind_ok {A B} (m : M A) (k : A -> M B) w a w' :
  m w = (Ok a, w') -> (m ≫= k) w = k a w'.
Proof. intros H. unfold mbind, M_bind. by rewrite H. Qed.

Lemma on_history_text_ok op (w : World) t :
  tk_faults w = [] -> history_text (self w) = Some t ->
  on_history_text op w = (Ok tt, with_history_text (op t) w).
Proof.
  intros Hf Ht. unfold on_history_text, widget_call. by rewrite Hf, Ht.
Qed.

Lemma with_history_text_same (w : World) t :
  history_text (self w) = Some t -> with_history_text t w = w.
Proof. destruct w as [[] ]. simpl. by intros ->. Qed.

Lemma with_history_text_twice (w : World) t t' :
  with_history_text t (with_history_text t' w) = with_history_text t w.
Proof. reflexivity. Qed.

Lemma for_each_insert_end (entries : list str) (w : World) (c : str) :
  tk_faults w = [] ->
  history_text (self w) = Some {| content := c; normal := true |} ->
  for_each entries (fun entry => on_history_text (insert_end entry)) w
  = (Ok tt,
     with_history_text {| content := c ++ concat entries; normal := true |} w).
Proof.
  revert w c. induction entries as [|entry entries IH]; intros w c Hf Ht.
  - cbn [for_each concat]. rewrite app_nil_r.
    by rewrite with_history_text_same.
  - cbn [for_each concat]. erewrite bind_ok by by apply on_history_text_ok.
    erewrite IH; [|done|reflexivity]. by rewrite <- app_assoc.
Qed.

(** With working widgets, [update_history_display] shows the title line, a
    rule of fifty "=" and the entries from the newest to the oldest. *)
Lemma update_history_display_renders (w : World) t :
  tk_faults w = [] -> history_text (self w) = Some t ->
  consultation_history (self w) <> [] ->
  update_history_display w
  = (Ok tt,
     with_history_text
       {| content := history_title ++ repeat_char 61 50 ++ nl ++ nl
                     ++ concat (reverse (consultation_history (self w)));
          normal := false |} w).
Proof.
  intros Hf Ht Hh. unfold update_history_display.
  erewrite bind_ok by reflexivity. rewrite Ht.
  destruct (is_Some_dec (Some t)) as [_|Hn]; [|by destruct Hn].
  erewrite bind_ok by by apply on_history_text_ok.
  erewrite bind_ok by by apply on_history_text_ok.
  erewrite bind_ok by reflexivity.
  change (consultation_history (self (with_history_text _ _)))
    with (consultation_history (self w)).
  destruct (consultation_history (self w)) as [|e h] eqn:Hhist; [done|].
  rewrite <- Hhist.
  erewrite bind_ok.
  2: { erewrite bind_ok by by apply on_history_text_ok.
       by apply for_each_insert_end. }
  erewrite on_history_text_ok by done.
  rewrite !with_history_text_twice.
  change (content (delete_all (configure_state true t))) with (@nil N).
  unfold configure_state; cbn [content normal].
  by rewrite app_nil_r, <- !app_assoc.
Qed.

(* ================================================================== *)
(** * Accepting a submission *)
(* ================================================================== *)

Lemma widget_call_ok f (w : World) :
  tk_faults w = [] -> widget_call f w = (Ok tt, set_self (f (self w)) w).
Proof. intros Hf. unfold widget_call. by rewrite Hf. Qed.

Lemma colors_warning : exists c, getitem COLORS (py "warning") = Ok c.
Proof. by eexists. Qed.

(** With the credential, a usable query, no request in flight and working
    widgets, [run_consultation] marks the request in flight and starts its
    thread with the trimmed query. *)
Lemma run_consultation_accepted (w : World) :
  is_processing (self w) = false -> demo_mode (self w) = false ->
  tk_faults w = [] ->
  let query := strip (get_all (query_input (self w))) in
  query <> [] -> query <> placeholder ->
  exists w',
    run_consultation w = (Ok tt, w')
    /\ threads w' = threads w ++ [query]
    /\ is_processing (self w') = true
    /\ text (status_indicator (self w')) = status_analyzing
    /\ dialogs w' = dialogs w
    /\ consultation_history (self w') = consultation_history (self w)
    /\ gateway_log w' = gateway_log w.
Proof.
  intros Hp Hd Hf query Hq1 Hq2.
  destruct colors_warning as [c Hc].
  unfold run_consultation.
  erewrite bind_ok by reflexivity. rewrite Hp.
  erewrite bind_ok by reflexivity. rewrite Hd.
  erewrite bind_ok by reflexivity. fold query.
  assert (negb (truthy query) || bool_decide (query = placeholder) = false)
    as ->.
  { rewrite bool_decide_eq_false_2 by done. by destruct query. }
  unfold on_output_text, status_configure.
  do 4 (erewrite bind_ok by by apply widget_call_ok).
  erewrite bind_ok by reflexivity.
  erewrite bind_ok by (unfold lift; by rewrite Hc).
  erewrite bind_ok by by apply widget_call_ok.
  eexists. split; [reflexivity|]. done.
Qed.

(* ================================================================== *)
(** * The outcome of a consultation *)
(* ================================================================== *)

Section OutcomeFacts.
Context {rt : PyRuntime}.

Lemma demo_response_label : occurs_in (py " (Demo Response)") demo_box_bottom.
Proof. apply contains_spec. by vm_compute. Qed.

Lemma cause_in_simulated_result specialist now e :
  occurs_in (exc_str e) (simulated_result specialist now e).
Proof.
  exists (box_top ++ upper specialist ++ demo_box_bottom ++ now
            ++ sample_guidance), (nl ++ nl).
  unfold simulated_result. by rewrite <- !app_assoc.
Qed.

Lemma label_in_simulated_result specialist now e :
  occurs_in (py " (Demo Response)") (simulated_result specialist now e).
Proof.
  unfold simulated_result.
  do 2 apply occurs_in_app_l. apply occurs_in_app_r, demo_response_label.
Qed.

Lemma fallback_mark_in_entry now specialist query :
  occurs_in (py " (demo fallback): ")
    (history_entry_fallback now specialist query).
Proof.
  unfold history_entry_fallback.
  do 5 apply occurs_in_app_l. apply occurs_in_app_r, occurs_in_refl.
Qed.

(** C1, amended. When the gateway call of an accepted submission raises an
    [Exception], [execute_consultation] returns normally: it hands the
    simulated response to [display_result], and that text carries the
    "(Demo Response)" header and [str(e)]; the history entry it appends is
    marked "(demo fallback)"; no message box is shown. An object that is
    not an [Exception] ([SystemExit], [KeyboardInterrupt]) is not caught: it
    leaves [execute_consultation], nothing is handed to [display_result] and
    the history gets no entry. *)
Theorem C1_gateway_exception_yields_fallback
    (w : World) (now : str) (gateway : Crew -> Kickoff) (query : str)
    (e : PyExc) :
  gateway (crew_for w query) = Raised e ->
  let specialist := specialist_var (self w) in
  let outcome := simulated_result specialist now e in
  let entry := history_entry_fallback now specialist query in
  (exc_is_Exception e = true ->
   exists w',
     execute_consultation now gateway query w = (Ok tt, w')
     /\ after_queue w' = after_queue w ++ [outcome]
     /\ occurs_in (exc_str e) outcome
     /\ occurs_in (py " (Demo Response)") outcome
     /\ consultation_history (self w')
        = consultation_history (self w) ++ [entry]
     /\ occurs_in (py " (demo fallback): ") entry
     /\ dialogs w' = dialogs w)
  /\ (exc_is_Exception e = false ->
      exists w',
        execute_consultation now gateway query w = (Raise e, w')
        /\ after_queue w' = after_queue w
        /\ consultation_history (self w') = consultation_history (self w)).
Proof.
  intros Hg specialist outcome entry. split; intros He.
  - destruct (execute_consultation_raised w now gateway query e Hg He)
      as (w' & Hrun & (Hh & Hq & _ & Hd & _) & _).
    exists w'. repeat split; try done.
    + apply cause_in_simulated_result.
    + apply label_in_simulated_result.
    + apply fallback_mark_in_entry.
  - destruct (execute_consultation_not_caught w now gateway query e Hg He)
      as (w' & Hrun & Hh & Hq).
    by exists w'.
Qed.

(** C7. The history entry of a completed consultation is
    "\n[timestamp] specialist: preview...\n" (with " (demo fallback)" after
    the specialist on the fallback path), where the preview is [query[:100]],
    the first hundred characters of the query the consultation ran with; it
    is the whole query when that has at most a hundred characters. *)
Theorem C7_history_preview_is_first_100_characters
    (w : World) (now : str) (gateway : Crew -> Kickoff) (query : str) :
  completes gateway w query ->
  let specialist := specialist_var (self w) in
  let preview := take 100 query in
  exists w' label,
    execute_consultation now gateway query w = (Ok tt, w')
    /\ (label = py ": " \/ label = py " (demo fallback): ")
    /\ consultation_history (self w')
       = consultation_history (self w)
         ++ [nl ++ py "[" ++ now ++ py "] " ++ specialist ++ label
                ++ preview ++ py "..." ++ nl]
    /\ length preview = min 100 (length query)
    /\ preview `prefix_of` query
    /\ ((length query <= 100)%nat -> preview = query).
Proof.
  intros Hc specialist preview. unfold completes in Hc.
  assert (length preview = min 100 (length query)
          /\ preview `prefix_of` query
          /\ ((length query <= 100)%nat -> preview = query)) as Hpre.
  { split; [apply length_take|].
    split; [apply prefix_take | apply (slice_to_short 100)]. }
  destruct (gateway (crew_for w query)) as [result|e] eqn:Hg.
  - destruct (execute_consultation_returned w now gateway query result Hg)
      as (w' & Hrun & (Hh & _) & _).
    exists w', (py ": "). split; [done|]. split; [by left|].
    split; [|done]. by rewrite Hh.
  - destruct (execute_consultation_raised w now gateway query e Hg Hc)
      as (w' & Hrun & (Hh & _) & _).
    exists w', (py " (demo fallback): "). split; [done|]. split; [by right|].
    split; [|done]. by rewrite Hh.
Qed.

(** C4. A completed consultation, success or fallback, appends exactly one
    entry to the history; no step of a session removes or changes an entry
    already logged; and [update_history_display] writes the entries from the
    newest to the oldest under the title. *)
Theorem C4_history_append_only_most_recent_first :
  (forall (w : World) now gateway query,
      completes gateway w query ->
      exists w' entry,
        execute_consultation now gateway query w = (Ok tt, w')
        /\ consultation_history (self w')
           = consultation_history (self w) ++ [entry])
  /\ (forall steps (w : World),
        consultation_history (self w)
          `prefix_of` consultation_history (self (session steps w)))
  /\ (forall (w : World) t older latest,
        tk_faults w = [] -> history_text (self w) = Some t ->
        consultation_history (self w) = older ++ [latest] ->
        exists w',
          update_history_display w = (Ok tt, w')
          /\ consultation_history (self w') = older ++ [latest]
          /\ history_text (self w')
             = Some {| content :=
                         history_title ++ repeat_char 61 50 ++ nl ++ nl
                           ++ latest ++ concat (reverse older);
                       normal := false |}).
Proof.
  split; [|split].
  - intros w now gateway query Hc. unfold completes in Hc.
    destruct (gateway (crew_for w query)) as [result|e] eqn:Hg.
    + destruct (execute_consultation_returned w now gateway query result Hg)
        as (w' & Hrun & (Hh & _) & _). by eexists w', _.
    + destruct (execute_consultation_raised w now gateway query e Hg Hc)
        as (w' & Hrun & (Hh & _) & _). by eexists w', _.
  - apply session_history_prefix.
  - intros w t older latest Hf Ht Hh.
    eexists. split.
    + apply (update_history_display_renders w t Hf Ht).
      rewrite Hh. by destruct older.
    + split; [done|]. simpl. by rewrite Hh, reverse_snoc.
Qed.

(** C10. However the rendering goes, [display_result] leaves the processing
    flag cleared: the [try] block clears it once the text is shown, and the
    handler, which catches every failure of the [try] block, clears it before
    it touches a widget. A submission made afterwards is not held back by
    the guard: with the credential, a usable query and working widgets it is
    accepted and its thread is started. *)
Theorem C10_display_result_clears_processing_flag
    (result : str) (w : World) :
  let w' := snd (display_result result w) in
  is_processing (self w') = false
  /\ (forall faults,
        is_processing (self (callback (display_result result) faults w))
        = false)
  /\ (let w1 := set_tk_faults [] w' in
      let query := strip (get_all (query_input (self w1))) in
      demo_mode (self w1) = false -> query <> [] -> query <> placeholder ->
      exists w2,
        run_consultation w1 = (Ok tt, w2)
        /\ threads w2 = threads w1 ++ [query]
        /\ is_processing (self w2) = true).
Proof.
  assert (forall v, is_processing (self (snd (display_result result v))) = false)
    as Hclear.
  { intros v. pose proof (display_result_clears_flag result v I) as H.
    by destruct (display_result result v) as [[a|e] v']. }
  intros w'. split; [apply Hclear|]. split; [intros faults; apply Hclear|].
  intros w1 query Hd Hq1 Hq2.
  destruct (run_consultation_accepted w1) as (w2 & Hrun & Ht & Hp & _);
    [apply Hclear | done | done | done | done |].
  by exists w2.
Qed.

(** C6, as stated, fails on two counts. The task description of the GUI
    holds neither the goal nor the backstory of the specialist (they are
    passed to the agent, next to the description); and the task description
    of the command line has seven numbered directives, worded differently
    from the six of the GUI. *)
Lemma C6_prompt_without_backstory_and_seven_cli_directives :
  let specialist := py "Medical Advisor" in
  let query := py "I have a persistent headache" in
  Gui.config specialist = Ok gui_default_config
  /\ contains (Gui.task_description specialist query)
       (Gui.cfg_goal gui_default_config) = false
  /\ contains (Gui.task_description specialist query)
       (Gui.cfg_backstory gui_default_config) = false
  /\ length (numbered_lines (Cli.task_description specialist query)) = 7%nat
  /\ numbered_lines (Cli.task_description specialist query) = cli_directives
  /\ numbered_lines (Gui.task_description specialist query) = gui_directives
  /\ cli_directives <> gui_directives.
Proof. by vm_compute. Qed.

(** C6, amended. Whatever the specialist, [execute_consultation] calls the
    gateway once, with one agent and one task. The agent carries the role,
    goal and backstory of the resolved configuration; the task description
    is the specialist's name and the query set in fixed text, and the fixed
    text after the query holds exactly the six numbered directives of the
    GUI, as the source spells them. The command line builds its task
    description the same way, with its own seven directives. *)
Theorem C6_task_description_carries_fixed_directives
    (w : World) (now : str) (gateway : Crew -> Kickoff) (query : str) :
  let specialist := specialist_var (self w) in
  let w' := snd (execute_consultation now gateway query w) in
  exists config agent task,
    Gui.config specialist = Ok config
    /\ gateway_log w'
       = gateway_log w
         ++ [{| agents := [agent]; tasks := [task]; crew_verbose := false |}]
    /\ CrewAI.agent task = agent
    /\ role agent = Gui.cfg_role config
    /\ goal agent = Gui.cfg_goal config
    /\ backstory agent = Gui.cfg_backstory config
    /\ description task
       = Gui.task_head ++ specialist ++ Gui.task_analyze ++ query
           ++ Gui.task_instructions
    /\ numbered_lines Gui.task_head = []
    /\ numbered_lines Gui.task_analyze = []
    /\ numbered_lines Gui.task_instructions = gui_directives
    /\ length gui_directives = 6%nat
    /\ (forall cli_specialist cli_query,
          Cli.task_description cli_specialist cli_query
          = Cli.task_head ++ cli_specialist ++ Cli.task_analyze ++ cli_query
              ++ Cli.task_instructions)
    /\ numbered_lines Cli.task_instructions = cli_directives
    /\ length cli_directives = 7%nat.
Proof.
  intros specialist w'.
  assert (gateway_log w' = gateway_log w ++ [crew_for w query]) as Hlog.
  { subst w'.
    destruct (gateway (crew_for w query)) as [result|e] eqn:Hg;
      [|destruct (exc_is_Exception e) eqn:He].
    - destruct (execute_consultation_returned w now gateway query result Hg)
        as (v & Hrun & (_ & _ & Hl & _) & _). by rewrite Hrun.
    - destruct (execute_consultation_raised w now gateway query e Hg He)
        as (v & Hrun & (_ & _ & Hl & _) & _). by rewrite Hrun.
    - (* the handler passes the object on; the call is logged all the same *)
      unfold execute_consultation, try_except, mbind, M_bind, attr, lift,
        kickoff.
      rewrite gui_config_total.
      change (build_crew _ _ _ _) with (crew_for w query).
      by rewrite Hg, He. }
  eexists _, _, _. split; [apply gui_config_total|].
  split; [exact Hlog|]. by repeat split.
Qed.

End OutcomeFacts.

(* ================================================================== *)
(** * The sample session, run *)
(* ================================================================== *)

(** C1, as stated, fails for an error that is not an [Exception]. In the
    sample session the submission was accepted and its thread is about to
    run; the gateway raises [SystemExit]. The error leaves
    [execute_consultation]: no outcome is handed to [display_result], no
    history entry is written, and the call does not return normally. *)
Lemma C1_system_exit_is_propagated :
  threads in_flight_world = [sample_query]
  /\ exiting (crew_for in_flight_world sample_query) = Raised system_exit
  /\ (exists w',
        execute_consultation (rt := ascii_runtime) sample_now exiting
          sample_query in_flight_world = (Raise system_exit, w')
        /\ after_queue w' = []
        /\ consultation_history (self w') = [])
  /\ ~ (exists w' outcome,
          execute_consultation (rt := ascii_runtime) sample_now exiting
            sample_query in_flight_world = (Ok tt, w')
          /\ after_queue w' = after_queue in_flight_world ++ [outcome]).
Proof.
  split; [by vm_compute|]. split; [reflexivity|].
  destruct (execute_consultation_not_caught (rt := ascii_runtime)
              in_flight_world sample_now exiting sample_query system_exit
              eq_refl eq_refl) as (w' & Hrun & Hh & Hq).
  split.
  - exists w'. split; [exact Hrun|]. split.
    + rewrite Hq. by vm_compute.
    + rewrite Hh. by vm_compute.
  - intros (w'' & outcome & Hok & _). rewrite Hrun in Hok. discriminate Hok.
Qed.

(** C1 on the sample session: the connection times out. *)
Lemma C1_timeout_witness :
  timing_out (crew_for in_flight_world sample_query) = Raised connection_error
  /\ exc_is_Exception connection_error = true
  /\ exists w',
       execute_consultation (rt := ascii_runtime) sample_now timing_out
         sample_query in_flight_world = (Ok tt, w')
       /\ occurs_in (exc_str connection_error)
            (simulated_result (rt := ascii_runtime)
               (specialist_var (self in_flight_world)) sample_now
               connection_error)
       /\ dialogs w' = dialogs in_flight_world.
Proof.
  split; [reflexivity|]. split; [reflexivity|].
  destruct (C1_gateway_exception_yields_fallback (rt := ascii_runtime)
              in_flight_world sample_now timing_out sample_query
              connection_error eq_refl) as [Hcaught _].
  destruct (Hcaught eq_refl)
    as (w' & Hrun & _ & Hcause & _ & _ & _ & Hd).
  exists w'. split; [exact Hrun|]. split; [exact Hcause | exact Hd].
Defined.

(** C2 on the sample session: a second click while the first request is in
    flight. *)
Lemma C2_second_click_witness :
  is_processing (self in_flight_world) = true
  /\ exists w',
       run_consultation in_flight_world = (Ok tt, w')
       /\ threads w' = threads in_flight_world
       /\ self w' = self in_flight_world.
Proof.
  split; [reflexivity|].
  destruct (C2_in_flight_submission_rejected in_flight_world eq_refl)
    as (w' & Hrun & (_ & Hs & _) & _ & _ & _ & Ht).
  exists w'. split; [exact Hrun|]. split; [exact Ht | exact Hs].
Defined.

(** C3 on a session without the credential. *)
Lemma C3_demo_session_witness :
  from_option truthy false None = false
  /\ is_processing
       (self (session (rt := ascii_runtime) demo_steps (__init__ None)))
     = false
  /\ threads (session (rt := ascii_runtime) demo_steps (__init__ None)) = [].
Proof.
  split; [reflexivity|].
  destruct (C3_demo_mode_rejects_every_submission (rt := ascii_runtime)
              None demo_steps [] eq_refl)
    as ((_ & Hp & _ & Ht & _) & _).
  split; [exact Hp | exact Ht].
Defined.

(** C4 on the sample session. *)
Lemma C4_sample_session_witness :
  completes answering in_flight_world sample_query
  /\ (exists w' entry,
        execute_consultation (rt := ascii_runtime) sample_now answering
          sample_query in_flight_world = (Ok tt, w')
        /\ consultation_history (self w')
           = consultation_history (self in_flight_world) ++ [entry])
  /\ consultation_history (self ready_world)
       `prefix_of` consultation_history (self in_flight_world).
Proof.
  destruct (C4_history_append_only_most_recent_first (rt := ascii_runtime))
    as (Happend & Hkeep & _).
  split; [exact I|]. split.
  - exact (Happend in_flight_world sample_now answering sample_query I).
  - exact (Hkeep sample_steps ready_world).
Defined.

(** C5 on a window with the credential: the placeholder is submitted. *)
Lemma C5_placeholder_witness :
  (strip (get_all (query_input (self ready_world))) = []
   \/ get_all (query_input (self ready_world)) = placeholder)
  /\ exists d w',
       run_consultation ready_world = (Ok tt, w')
       /\ rejected_with d ready_world w'
       /\ signal d = Some ValidationError.
Proof.
  split; [right; reflexivity|].
  destruct (C5_unusable_query_rejected ready_world (or_intror eq_refl))
    as (d & w' & Hrun & Hrej & Hsig & _).
  exists d, w'. split; [exact Hrun|]. split; [exact Hrej | exact Hsig].
Defined.

(** C7 on the sample session: the query is shorter than a hundred
    characters and is logged whole. *)
Lemma C7_short_query_witness :
  completes answering in_flight_world sample_query
  /\ (length sample_query <= 100)%nat
  /\ exists w',
       execute_consultation (rt := ascii_runtime) sample_now answering
         sample_query in_flight_world = (Ok tt, w')
       /\ take 100 sample_query = sample_query.
Proof.
  split; [exact I|].
  assert (length sample_query <= 100)%nat as Hlen by (vm_compute; lia).
  split; [exact Hlen|].
  destruct (C7_history_preview_is_first_100_characters (rt := ascii_runtime)
              in_flight_world sample_now answering sample_query I)
    as (w' & label & Hrun & _ & _ & _ & _ & Hshort).
  exists w'. split; [exact Hrun | exact (Hshort Hlen)].
Defined.

(** C8 on ids that no list knows. *)
Lemma C8_unknown_ids_witness :
  ((py "Cardiologist") ∉ keys Gui.agent_configs)
  /\ ((py "Emergency Response Advisor") ∉ keys Cli.agent_configs)
  /\ (strip (py " 9 ") ∉ keys Cli.specialists)
  /\ Gui.config (py "Cardiologist") = Ok gui_default_config
  /\ snd (Cli.get_healthcare_specialist (py " 9 "))
     = Ok (py "Medical Advisor",
           py "General medical information and guidance")
  /\ Cli.config (py "Emergency Response Advisor") = Ok cli_default_config.
Proof.
  assert ((py "Cardiologist") ∉ keys Gui.agent_configs) as H1 by by_compute.
  assert ((py "Emergency Response Advisor") ∉ keys Cli.agent_configs)
    as H2 by by_compute.
  assert (strip (py " 9 ") ∉ keys Cli.specialists) as H3 by by_compute.
  destruct (C8_unrecognized_id_defaults_to_medical_advisor _ _ _ H1 H2 H3)
    as (Hgui & _ & _ & Hmenu & Hcli & _).
  repeat split; assumption.
Defined.

(** C10 on the sample session: the answer is rendered while the first
    widget call fails, and the next submission goes through. *)
Lemma C10_render_failure_witness :
  let failed :=
    fire (rt := ascii_runtime) (first_call_fails, TkIdle) answered_world in
  let rendered := fire (rt := ascii_runtime) ([], TkIdle) answered_world in
  let resubmitted := fire (rt := ascii_runtime) ([], ClickGetGuidance) failed in
  after_queue answered_world <> []
  /\ is_processing (self answered_world) = true
  /\ is_processing (self failed) = false
  /\ text (status_indicator (self failed)) = status_error
  /\ is_processing (self rendered) = false
  /\ text (status_indicator (self rendered)) = status_complete
  /\ threads failed = []
  /\ threads resubmitted = [sample_query]
  /\ is_processing (self resubmitted) = true.
Proof.
  intros failed rendered resubmitted.
  split; [by vm_compute|]. split; [reflexivity|].
  split; [|repeat split; reflexivity].
  assert (exists result rest, after_queue answered_world = result :: rest)
    as (result & rest & Hq) by (by eexists _, _).
  destruct (C10_display_result_clears_processing_flag result
              (set_after_queue rest answered_world)) as (_ & Hclear & _).
  specialize (Hclear first_call_fails).
  unfold failed, fire. by rewrite Hq.
Defined.

(* ================================================================== *)
(** * More on trimming *)
(* ================================================================== *)

Lemma lstrip_spaces (ws t : str) :
  Forall (fun c => isspace c = true) ws -> lstrip (ws ++ t) = lstrip t.
Proof.
  induction 1 as [|c ws Hc _ IH]; [done|]. simpl. by rewrite Hc.
Qed.

Lemma lstrip_nil_iff (s : str) :
  lstrip s = [] <-> Forall (fun c => isspace c = true) s.
Proof.
  induction s as [|c s IH]; simpl; [done|].
  destruct (isspace c) eqn:Hc.
  - rewrite IH. split; [by constructor | by inversion 1].
  - split; [done | inversion 1; congruence].
Qed.

Lemma lstrip_head (s : str) c t : lstrip s = c :: t -> isspace c = false.
Proof.
  induction s as [|d s IH]; simpl; [done|].
  destruct (isspace d) eqn:Hd; [done|]. by intros [= <- _].
Qed.

Lemma lstrip_fixed c (t : str) : isspace c = false -> lstrip (c :: t) = c :: t.
Proof. intros H. simpl. by rewrite H. Qed.

Lemma lstrip_idempotent (s : str) : lstrip (lstrip s) = lstrip s.
Proof.
  destruct (lstrip s) as [|c t] eqn:Hs; [done|].
  apply lstrip_fixed. by eapply lstrip_head.
Qed.

Lemma lstrip_app (s u : str) :
  lstrip s <> [] -> lstrip (s ++ u) = lstrip s ++ u.
Proof.
  induction s as [|c s IH]; simpl; [done|].
  destruct (isspace c); [exact IH | done].
Qed.

Lemma lstrip_keeps_last (x : str) c :
  isspace c = false -> exists y, lstrip (x ++ [c]) = y ++ [c].
Proof.
  intros Hc. induction x as [|d x IH]; simpl.
  - rewrite Hc. by exists [].
  - destruct (isspace d); [exact IH | by exists (d :: x)].
Qed.

Lemma rstrip_spaces (s ws : str) :
  Forall (fun c => isspace c = true) ws -> rstrip (s ++ ws) = rstrip s.
Proof.
  intros H. unfold rstrip. rewrite reverse_app, lstrip_spaces; [done|].
  by apply Forall_reverse.
Qed.

Lemma rstrip_idempotent (s : str) : rstrip (rstrip s) = rstrip s.
Proof. unfold rstrip. by rewrite reverse_involutive, lstrip_idempotent. Qed.

Lemma rstrip_keeps_head c (t : str) :
  isspace c = false -> exists y, rstrip (c :: t) = c :: y.
Proof.
  intros Hc. unfold rstrip. rewrite reverse_cons.
  destruct (lstrip_keeps_last (reverse t) c Hc) as [y ->].
  exists (reverse y). by rewrite reverse_app.
Qed.

(** A text trims to nothing exactly when it is all white space. *)
Lemma strip_nil_iff (s : str) :
  strip s = [] <-> Forall (fun c => isspace c = true) s.
Proof.
  unfold strip. rewrite <- lstrip_nil_iff. split; [|by intros ->].
  intros H. destruct (lstrip s) as [|c t] eqn:Hs; [done|].
  destruct (rstrip_keeps_head c t) as [y Hy]; [by eapply lstrip_head|].
  by rewrite Hy in H.
Qed.

(** White space after a text does not survive trimming. *)
Lemma strip_app_spaces (s ws : str) :
  Forall (fun c => isspace c = true) ws -> strip (s ++ ws) = strip s.
Proof.
  intros H. unfold strip. destruct (lstrip s) as [|c t] eqn:Hs.
  - apply lstrip_nil_iff in Hs.
    assert (lstrip (s ++ ws) = []) as ->; [|done].
    apply lstrip_nil_iff. by apply Forall_app.
  - rewrite lstrip_app by by rewrite Hs. rewrite Hs. by apply rstrip_spaces.
Qed.

(** Trimming twice is trimming once. *)
Lemma strip_idempotent (s : str) : strip (strip s) = strip s.
Proof.
  unfold strip. destruct (lstrip s) as [|c t] eqn:Hs; [done|].
  destruct (rstrip_keeps_head c t) as [y Hy]; [by eapply lstrip_head|].
  rewrite Hy, lstrip_fixed by by eapply lstrip_head.
  rewrite <- Hy. apply rstrip_idempotent.
Qed.

(* ================================================================== *)
(** * More rules of the program logic *)
(* ================================================================== *)

Lemma hoare_thread_start (P : World -> Prop) query Q E :
  (forall w, P w -> Q tt (set_threads (threads w ++ [query]) w)) ->
  hoare P (thread_start query) Q E.
Proof. intros H w Hw. by apply H. Qed.

Lemma hoare_run {A} (P : World -> Prop) (m : M A) (R : World -> Prop) w :
  hoare P m (fun _ => R) (fun _ => R) -> P w -> R (snd (m w)).
Proof.
  intros H Hw. specialize (H w Hw). by destruct (m w) as [[a|e] w'].
Qed.

(* ================================================================== *)
(** * One request at a time *)
(* ================================================================== *)

Lemma idle_queues_one_in_flight (w : World) : idle_queues w -> one_in_flight w.
Proof.
  intros [Ht Hq]. split; [rewrite Ht, Hq; simpl; lia|].
  rewrite Ht, Hq. by intros [|].
Qed.

Lemma one_in_flight_idle (w : World) :
  one_in_flight w -> is_processing (self w) = false -> idle_queues w.
Proof.
  intros [_ H] Hp. split.
  - destruct (threads w); [done|]. rewrite H in Hp by by left. done.
  - destruct (after_queue w); [done|]. rewrite H in Hp by by right. done.
Qed.

Lemma run_consultation_from_idle_queues :
  hoare idle_queues run_consultation
    (fun _ => one_in_flight) (fun _ => one_in_flight).
Proof.
  assert (forall A (f : HealthcareAssistantGUI -> A),
            hoare idle_queues (attr f) (fun _ => idle_queues)
              (fun _ => one_in_flight)) as Hattr.
  { intros. by apply hoare_attr. }
  assert (forall d, hoare idle_queues (messagebox d)
            (fun _ => one_in_flight) (fun _ => one_in_flight)) as Hbox.
  { intros d. apply hoare_messagebox. intros w Hw.
    by apply idle_queues_one_in_flight. }
  assert (forall f, (forall w, idle_queues w ->
                       idle_queues (set_self (f (self w)) w)) ->
            hoare idle_queues (widget_call f) (fun _ => idle_queues)
              (fun _ => one_in_flight)) as Hcall.
  { intros f Hf. apply hoare_widget_call.
    - intros w x Hw. by apply Hf.
    - intros w x s r Hw. by apply idle_queues_one_in_flight. }
  unfold run_consultation.
  eapply hoare_bind with (R := fun _ => idle_queues); [apply Hattr|].
  intros busy.
  destruct busy; [apply Hbox|].
  eapply hoare_bind with (R := fun _ => idle_queues); [apply Hattr|].
  intros demo.
  destruct demo; [apply Hbox|].
  eapply hoare_bind with (R := fun _ => idle_queues); [apply Hattr|].
  intros text.
  destruct (negb _ || _); [apply Hbox|].
  unfold on_output_text, status_configure.
  do 4 (eapply hoare_bind with (R := fun _ => idle_queues);
        [by apply Hcall | intros _]).
  set (armed := fun w => idle_queues w /\ is_processing (self w) = true).
  eapply hoare_bind with (R := fun _ => armed); [by apply hoare_assign|].
  intros _.
  eapply hoare_bind with (R := fun _ => armed).
  { apply hoare_getitem; [done|]. intros w [Hw _].
    by apply idle_queues_one_in_flight. }
  intros warning.
  eapply hoare_bind with (R := fun _ => armed).
  { apply hoare_widget_call; [done|]. intros w x s r [Hw _].
    by apply idle_queues_one_in_flight. }
  intros _. apply hoare_thread_start. intros w [[Ht Hq] Hp].
  split; simpl; [rewrite Ht, Hq; simpl; lia | done].
Qed.

Lemma lifecycle_is_env p h ts q g : env_independent (lifecycle_is p h ts q g).
Proof. done. Qed.

Lemma clear_all_lifecycle p h ts q g :
  stable (lifecycle_is p h ts q g) clear_all.
Proof. unfold clear_all. unfold_widgets. stable_steps; done. Qed.

Lemma clear_placeholder_lifecycle p h ts q g :
  stable (lifecycle_is p h ts q g) _clear_placeholder.
Proof. unfold _clear_placeholder. unfold_widgets. stable_steps; done. Qed.

Lemma add_placeholder_lifecycle p h ts q g :
  stable (lifecycle_is p h ts q g) _add_placeholder.
Proof. unfold _add_placeholder. unfold_widgets. stable_steps; done. Qed.

Lemma update_history_display_pending ts q g :
  stable (pending_is ts q g) update_history_display.
Proof.
  unfold update_history_display. unfold_widgets. stable_steps; done.
Qed.

Lemma display_result_pending ts q g result :
  stable (pending_is ts q g) (display_result result).
Proof.
  unfold display_result. unfold_widgets. stable_steps.
  all: try apply update_history_display_pending.
  all: done.
Qed.

(** The world as [lifecycle_is] sees it. *)
Lemma lifecycle_is_here (w : World) :
  lifecycle_is (is_processing (self w)) (consultation_history (self w))
    (threads w) (after_queue w) (gateway_log w) w.
Proof. done. Qed.

Lemma one_in_flight_lifecycle (w w' : World) :
  lifecycle_is (is_processing (self w)) (consultation_history (self w))
    (threads w) (after_queue w) (gateway_log w) w' ->
  one_in_flight w -> one_in_flight w'.
Proof. intros (Hp & _ & Ht & Hq & _). unfold one_in_flight. by rewrite Hp, Ht, Hq. Qed.

Section OneInFlight.
Context {rt : PyRuntime}.

Lemma fire_one_in_flight step (w : World) :
  one_in_flight w -> one_in_flight (fire step w).
Proof.
  intros Hw.
  assert (forall m faults,
            (forall p h ts q g, stable (lifecycle_is p h ts q g) m) ->
            one_in_flight (callback m faults w)) as Hframe.
  { intros m faults Hm. apply (one_in_flight_lifecycle w); [|done].
    apply callback_stable;
      [apply Hm | apply lifecycle_is_env | apply lifecycle_is_here]. }
  destruct step as [faults ev]. destruct ev; simpl.
  - (* Get Guidance *)
    unfold callback. destruct (is_processing (self w)) eqn:Hp.
    + rewrite run_consultation_processing by done. simpl.
      destruct Hw as [Hn Hb]. split; [done|]. intros _. exact Hp.
    + apply (hoare_run idle_queues);
        [apply run_consultation_from_idle_queues|].
      by apply (one_in_flight_idle w).
  - apply Hframe, clear_all_lifecycle.
  - apply Hframe, clear_placeholder_lifecycle.
  - apply Hframe, add_placeholder_lifecycle.
  - done.
  - by case_bool_decide.
  - (* a thread runs *)
    destruct (threads w !! i) as [query|] eqn:Hi; [|done].
    destruct Hw as [Hn Hb].
    assert (threads w = [query] /\ after_queue w = []) as [Ht Hq].
    { destruct (threads w) as [|q0 [|q1 ts]]; [done| |simpl in Hn; lia].
      destruct (after_queue w); [|simpl in Hn; lia].
      destruct i; [by injection Hi as -> | done]. }
    assert (is_processing (self w) = true) as Hp by (apply Hb; left; by rewrite Ht).
    assert (delete i (threads w) = []) as Hdel.
    { rewrite Ht in Hi |- *. destruct i; [done|]. done. }
    rewrite Hdel.
    set (w0 := set_tk_faults faults (set_threads [] w)).
    unfold callback. fold w0.
    destruct (gateway (crew_for w0 query)) as [result|e] eqn:Hg;
      [|destruct (exc_is_Exception e) eqn:He].
    + destruct (execute_consultation_returned w0 now gateway query result Hg)
        as (w' & Hrun & (_ & Hq' & _ & _ & Ht' & Hp' & _) & _).
      rewrite Hrun. simpl. unfold one_in_flight.
      rewrite Ht', Hq', Hp'. simpl. rewrite Hq. split; [simpl; lia | done].
    + destruct (execute_consultation_raised w0 now gateway query e Hg He)
        as (w' & Hrun & (_ & Hq' & _ & _ & Ht' & Hp' & _) & _).
      rewrite Hrun. simpl. unfold one_in_flight.
      rewrite Ht', Hq', Hp'. simpl. rewrite Hq. split; [simpl; lia | done].
    + unfold execute_consultation, try_except, mbind, M_bind, attr, lift,
        kickoff.
      rewrite gui_config_total.
      change (build_crew _ _ _ _) with (crew_for w0 query).
      rewrite Hg, He. simpl. apply idle_queues_one_in_flight. by split.
  - (* Tk runs the pending callback *)
    destruct (after_queue w) as [|result rest] eqn:Hq; [done|].
    destruct Hw as [Hn Hb]. rewrite Hq in Hn.
    assert (threads w = [] /\ rest = []) as [Ht ->].
    { destruct (threads w); [|simpl in Hn; lia].
      destruct rest; [done | simpl in Hn; lia]. }
    unfold callback. apply idle_queues_one_in_flight.
    set (w0 := set_tk_faults faults (set_after_queue [] w)).
    assert (pending_is [] [] (gateway_log w) w0) as H0 by done.
    pose proof (stable_run _ _ _ (display_result_pending [] []
                  (gateway_log w) result) H0) as (Ht' & Hq' & _).
    by split.
Qed.

(** X1. In every session at most one request is under way: there is never
    more than one started thread or pending [display_result] callback in
    total, and the processing flag is set whenever there is one. *)
Theorem X1_at_most_one_request_in_flight
    (key : option str) (steps : list (list (option (str * str)) * Event)) :
  let w := session steps (__init__ key) in
  (length (threads w) + length (after_queue w) <= 1)%nat
  /\ (threads w <> [] \/ after_queue w <> [] -> is_processing (self w) = true).
Proof.
  assert (forall v, one_in_flight v -> one_in_flight (session steps v)) as H.
  { induction steps as [|step steps IH]; intros v Hv; [done|].
    simpl. by apply IH, fire_one_in_flight. }
  assert (one_in_flight (__init__ key)) as Hinit.
  { apply idle_queues_one_in_flight. destruct key as [[|c k]|]; by vm_compute. }
  intros w. exact (H _ Hinit).
Qed.

End OneInFlight.

(* ================================================================== *)
(** * The whole round, with working widgets *)
(* ================================================================== *)

Lemma bind_raise {A B} (m : M A) (k : A -> M B) w e w' :
  m w = (Raise e, w') -> (m ≫= k) w = (Raise e, w').
Proof. intros H. unfold mbind, M_bind. by rewrite H. Qed.

Lemma colors_success :
  getitem COLORS (py "success") = Ok (get COLORS (py "success") []).
Proof. reflexivity. Qed.

Lemma colors_danger :
  getitem COLORS (py "danger") = Ok (get COLORS (py "danger") []).
Proof. reflexivity. Qed.

Lemma history_view_renders (w : World) t :
  tk_faults w = [] -> history_text (self w) = Some t ->
  update_history_display w
  = (Ok tt,
     with_history_text
       {| content := history_view (consultation_history (self w));
          normal := false |} w).
Proof.
  intros Hf Ht.
  destruct (consultation_history (self w)) as [|e h] eqn:Hh.
  - unfold update_history_display.
    erewrite bind_ok by reflexivity. rewrite Ht.
    destruct (is_Some_dec (Some t)) as [_|Hn]; [|by destruct Hn].
    do 2 (erewrite bind_ok by by apply on_history_text_ok).
    erewrite bind_ok by reflexivity.
    change (consultation_history (self (with_history_text _ _)))
      with (consultation_history (self w)).
    rewrite Hh.
    erewrite bind_ok by by apply on_history_text_ok.
    erewrite on_history_text_ok by done.
    rewrite !with_history_text_twice.
    change (content (delete_all (configure_state true t))) with (@nil N).
    unfold insert_start, configure_state; cbn [content normal].
    by rewrite app_nil_r.
  - rewrite <- Hh. rewrite (update_history_display_renders w t Hf Ht).
    + by rewrite Hh.
    + by rewrite Hh.
Qed.

Section RoundFacts.
Context {rt : PyRuntime}.

Lemma execute_consultation_returned_state w now gateway query result :
  gateway (crew_for w query) = Returned result ->
  execute_consultation now gateway query w
  = (Ok tt,
     after_outcome (formatted_result (specialist_var (self w)) now result)
       (history_entry now (specialist_var (self w)) query)
       (crew_for w query) w).
Proof.
  intros Hg.
  unfold execute_consultation, try_except, mbind, M_bind, attr, lift,
    kickoff, assign, root_after.
  rewrite gui_config_total.
  change (build_crew _ _ _ _) with (crew_for w query). by rewrite Hg.
Qed.

Lemma execute_consultation_raised_state w now gateway query e :
  gateway (crew_for w query) = Raised e ->
  exc_is_Exception e = true ->
  execute_consultation now gateway query w
  = (Ok tt,
     set_console (console w ++ [py "Consultation error: " ++ exc_repr e])
       (after_outcome (simulated_result (specialist_var (self w)) now e)
          (history_entry_fallback now (specialist_var (self w)) query)
          (crew_for w query) w)).
Proof.
  intros Hg He.
  unfold execute_consultation, try_except, mbind, M_bind, attr, lift,
    kickoff, assign, root_after, print.
  rewrite gui_config_total.
  change (build_crew _ _ _ _) with (crew_for w query). by rewrite Hg, He.
Qed.

Lemma execute_consultation_not_caught_state w now gateway query e :
  gateway (crew_for w query) = Raised e ->
  exc_is_Exception e = false ->
  execute_consultation now gateway query w
  = (Raise e, set_gateway_log (gateway_log w ++ [crew_for w query]) w).
Proof.
  intros Hg He.
  unfold execute_consultation, try_except, mbind, M_bind, attr, lift,
    kickoff.
  rewrite gui_config_total.
  change (build_crew _ _ _ _) with (crew_for w query). by rewrite Hg, He.
Qed.

End RoundFacts.

Lemma display_result_ok (w : World) result t :
  tk_faults w = [] -> history_text (self w) = Some t ->
  display_result result w = (Ok tt, set_self (shown result (self w)) w).
Proof.
  intros Hf Ht. unfold display_result, try_except.
  assert ((on_output_text (configure_state true);;
           on_output_text delete_all;;
           on_output_text (insert_start result);;
           on_output_text id;;
           on_output_text (configure_state false);;
           assign (set_is_processing false);;
           success ← lift (getitem COLORS (py "success"));
           status_configure status_complete success;;
           update_history_display) w
          = (Ok tt, set_self (shown result (self w)) w)) as ->; [|done].
  unfold on_output_text, status_configure.
  do 5 (erewrite bind_ok by by apply widget_call_ok).
  erewrite bind_ok by reflexivity.
  erewrite bind_ok by (unfold lift; by rewrite colors_success).
  erewrite bind_ok by by apply widget_call_ok.
  erewrite history_view_renders; [|done|exact Ht].
  unfold shown, with_history_text, insert_start, delete_all, configure_state.
  cbn. by rewrite app_nil_r.
Qed.

Lemma run_consultation_accepted_state (w : World) :
  is_processing (self w) = false -> demo_mode (self w) = false ->
  tk_faults w = [] ->
  let query := strip (get_all (query_input (self w))) in
  query <> [] -> query <> placeholder ->
  run_consultation w
  = (Ok tt,
     set_threads (threads w ++ [query]) (set_self (submitted (self w)) w)).
Proof.
  intros Hp Hd Hf query Hq1 Hq2.
  unfold run_consultation.
  erewrite bind_ok by reflexivity. rewrite Hp.
  erewrite bind_ok by reflexivity. rewrite Hd.
  erewrite bind_ok by reflexivity. fold query.
  assert (negb (truthy query) || bool_decide (query = placeholder) = false)
    as ->.
  { rewrite bool_decide_eq_false_2 by done. by destruct query. }
  unfold on_output_text, status_configure.
  do 4 (erewrite bind_ok by by apply widget_call_ok).
  erewrite bind_ok by reflexivity.
  erewrite bind_ok by reflexivity.
  erewrite bind_ok by by apply widget_call_ok.
  reflexivity.
Qed.

Lemma disclaimer_in_footer :
  occurs_in (py "MEDICAL DISCLAIMER") disclaimer_footer.
Proof. apply contains_spec. by vm_compute. Qed.

Section RoundTheorems.
Context {rt : PyRuntime}.

(** X2. A whole successful round with working widgets. From a window with
    the credential, nothing under way and a usable query, the click, the
    run of the thread against a gateway that returns [result], and the
    pending callback leave the window ready again: the flag is clear, the
    label reads "Complete", the output box holds the framed answer (the
    result and the medical disclaimer in it) and is read-only, the history
    has one more entry and the History tab shows it, and the gateway was
    called once. *)
Theorem X2_successful_round
    (w : World) (now : str) (gateway : Crew -> Kickoff) (t : Textbox)
    (result : str) :
  is_processing (self w) = false -> demo_mode (self w) = false ->
  threads w = [] -> after_queue w = [] ->
  history_text (self w) = Some t ->
  let query := strip (get_all (query_input (self w))) in
  query <> [] -> query <> placeholder ->
  gateway (crew_for w query) = Returned result ->
  let specialist := specialist_var (self w) in
  let outcome := formatted_result specialist now result in
  let entry := history_entry now specialist query in
  let w' :=
    session [ ([], ClickGetGuidance); ([], ThreadRuns 0 now gateway);
              ([], TkIdle) ] w in
  is_processing (self w') = false
  /\ text (status_indicator (self w')) = status_complete
  /\ output_text (self w') = {| content := outcome; normal := false |}
  /\ occurs_in result outcome
  /\ occurs_in (py "MEDICAL DISCLAIMER") outcome
  /\ consultation_history (self w')
     = consultation_history (self w) ++ [entry]
  /\ history_text (self w')
     = Some {| content :=
                 history_view (consultation_history (self w) ++ [entry]);
               normal := false |}
  /\ threads w' = [] /\ after_queue w' = []
  /\ gateway_log w' = gateway_log w ++ [crew_for w query]
  /\ dialogs w' = dialogs w.
Proof.
  intros Hp Hd Hts Hq Ht query Hq1 Hq2 Hg specialist outcome entry w'.
  assert (occurs_in result outcome) as Hres.
  { exists (box_top ++ upper specialist ++ box_bottom ++ now ++ nl ++ nl),
      disclaimer_footer.
    unfold outcome, formatted_result. by rewrite <- !app_assoc. }
  assert (occurs_in (py "MEDICAL DISCLAIMER") outcome) as Hdis.
  { unfold outcome, formatted_result.
    do 7 apply occurs_in_app_l. apply disclaimer_in_footer. }
  set (w1 := set_threads [query]
                (set_self (submitted (self w)) (set_tk_faults [] w))).
  assert (fire ([], ClickGetGuidance) w = w1) as H1.
  { unfold fire, callback. rewrite run_consultation_accepted_state by done.
    cbn [snd threads set_tk_faults]. by rewrite Hts. }
  set (w2 := after_outcome outcome entry (crew_for w query)
               (set_tk_faults [] (set_threads [] w1))).
  assert (fire ([], ThreadRuns 0 now gateway) w1 = w2) as H2.
  { unfold fire. change (threads w1) with [query].
    cbn [lookup list_lookup delete list_delete]. unfold callback.
    change ([query] !! 0%nat) with (Some query). cbv iota.
    by rewrite (execute_consultation_returned_state
                  (set_tk_faults [] (set_threads [] w1)) now gateway query
                  result Hg). }
  set (w3 := set_self (shown outcome (self w2))
               (set_tk_faults [] (set_after_queue [] w2))).
  assert (fire ([], TkIdle) w2 = w3) as H3.
  { unfold fire. change (after_queue w2) with (after_queue w ++ [outcome]).
    rewrite Hq. cbn [app]. unfold callback.
    by erewrite display_result_ok; [|reflexivity|exact Ht]. }
  subst w'. cbn [session fold_left]. rewrite H1, H2, H3.
  by repeat split.
Qed.

(** X28. A round whose gateway call fails. From the same window, when the
    gateway raises an [Exception] the round ends like a successful one: the
    flag is clear and the label reads "Complete", not "Error"; the output box
    holds the simulated response, marked as a demo response and naming the
    error; the history has one more entry, marked as a fallback, and the
    History tab shows it; the console has the line "Consultation error: ..."
    and no message box was shown. *)
Theorem X28_failed_round_ends_as_complete
    (w : World) (now : str) (gateway : Crew -> Kickoff) (t : Textbox)
    (e : PyExc) :
  is_processing (self w) = false -> demo_mode (self w) = false ->
  threads w = [] -> after_queue w = [] ->
  history_text (self w) = Some t ->
  let query := strip (get_all (query_input (self w))) in
  query <> [] -> query <> placeholder ->
  gateway (crew_for w query) = Raised e -> exc_is_Exception e = true ->
  let specialist := specialist_var (self w) in
  let outcome := simulated_result specialist now e in
  let entry := history_entry_fallback now specialist query in
  let w' :=
    session [ ([], ClickGetGuidance); ([], ThreadRuns 0 now gateway);
              ([], TkIdle) ] w in
  is_processing (self w') = false
  /\ text (status_indicator (self w')) = status_complete
  /\ output_text (self w') = {| content := outcome; normal := false |}
  /\ occurs_in (exc_str e) outcome
  /\ occurs_in (py " (Demo Response)") outcome
  /\ consultation_history (self w')
     = consultation_history (self w) ++ [entry]
  /\ history_text (self w')
     = Some {| content :=
                 history_view (consultation_history (self w) ++ [entry]);
               normal := false |}
  /\ threads w' = [] /\ after_queue w' = []
  /\ gateway_log w' = gateway_log w ++ [crew_for w query]
  /\ console w'
     = console w ++ [py "Consultation error: " ++ exc_repr e]
  /\ dialogs w' = dialogs w.
Proof.
  intros Hp Hd Hts Hq Ht query Hq1 Hq2 Hg He specialist outcome entry w'.
  set (w1 := set_threads [query]
                (set_self (submitted (self w)) (set_tk_faults [] w))).
  assert (fire ([], ClickGetGuidance) w = w1) as H1.
  { unfold fire, callback. rewrite run_consultation_accepted_state by done.
    cbn [snd threads set_tk_faults]. by rewrite Hts. }
  set (w2 := set_console
               (console w ++ [py "Consultation error: " ++ exc_repr e])
               (after_outcome outcome entry (crew_for w query)
                  (set_tk_faults [] (set_threads [] w1)))).
  assert (fire ([], ThreadRuns 0 now gateway) w1 = w2) as H2.
  { unfold fire. change (threads w1) with [query].
    cbn [lookup list_lookup delete list_delete]. unfold callback.
    change ([query] !! 0%nat) with (Some query). cbv iota.
    by rewrite (execute_consultation_raised_state
                  (set_tk_faults [] (set_threads [] w1)) now gateway query
                  e Hg He). }
  set (w3 := set_self (shown outcome (self w2))
               (set_tk_faults [] (set_after_queue [] w2))).
  assert (fire ([], TkIdle) w2 = w3) as H3.
  { unfold fire. change (after_queue w2) with (after_queue w ++ [outcome]).
    rewrite Hq. cbn [app]. unfold callback.
    by erewrite display_result_ok; [|reflexivity|exact Ht]. }
  subst w'. cbn [session fold_left]. rewrite H1, H2, H3.
  split; [done|]. split; [done|]. split; [done|].
  split; [apply cause_in_simulated_result|].
  split; [apply label_in_simulated_result|].
  by repeat split.
Qed.

End RoundTheorems.

(* ================================================================== *)
(** * The input side: Clear, and the placeholder *)
(* ================================================================== *)

Lemma stuck_lifecycle (w w' : World) :
  lifecycle_is (is_processing (self w)) (consultation_history (self w))
    (threads w) (after_queue w) (gateway_log w) w' ->
  stuck w -> stuck w'.
Proof. intros (Hp & _ & Ht & Hq & _). unfold stuck. by rewrite Hp, Ht, Hq. Qed.

Section StuckFacts.
Context {rt : PyRuntime}.

Lemma fire_stuck step (w : World) : stuck w -> stuck (fire step w).
Proof.
  intros Hw.
  assert (forall m faults,
            (forall p h ts q g, stable (lifecycle_is p h ts q g) m) ->
            stuck (callback m faults w)) as Hframe.
  { intros m faults Hm. apply (stuck_lifecycle w); [|done].
    apply callback_stable;
      [apply Hm | apply lifecycle_is_env | apply lifecycle_is_here]. }
  destruct Hw as (Hp & Ht & Hq).
  destruct step as [faults ev]. destruct ev; simpl.
  - unfold callback. by rewrite run_consultation_processing.
  - apply Hframe, clear_all_lifecycle.
  - apply Hframe, clear_placeholder_lifecycle.
  - apply Hframe, add_placeholder_lifecycle.
  - done.
  - by case_bool_decide.
  - by rewrite Ht.
  - by rewrite Hq.
Qed.

(** X3. The processing flag is cleared by [display_result] only. Once it is
    set while no thread is left to run and no callback is pending, it stays
    set for the rest of the session, whatever the user does, and every
    submission is answered with the "Processing" warning. *)
Theorem X3_flag_stays_set_when_nothing_is_under_way
    (w : World) (steps : list (list (option (str * str)) * Event))
    (faults : list (option (str * str))) :
  is_processing (self w) = true -> threads w = [] -> after_queue w = [] ->
  let w' := session steps w in
  is_processing (self w') = true
  /\ threads w' = [] /\ after_queue w' = []
  /\ run_consultation (set_tk_faults faults w')
     = (Ok tt,
        set_dialogs
          (dialogs w' ++ [showwarning title_processing msg_processing])
          (set_tk_faults faults w')).
Proof.
  intros Hp Ht Hq w'.
  assert (stuck w') as (Hp' & Ht' & Hq').
  { subst w'. assert (stuck w) as Hw by done. clear Hp Ht Hq.
    revert w Hw. induction steps as [|step steps IH]; intros w Hw; [done|].
    simpl. by apply IH, fire_stuck. }
  repeat split; try done. by rewrite run_consultation_processing.
Qed.

End StuckFacts.

Lemma clear_all_ok (w : World) :
  tk_faults w = [] ->
  clear_all w
  = (Ok tt,
     set_self
       (set_status_indicator
          {| text := status_ready; text_color := get COLORS (py "success") [] |}
          (set_output_text
             (configure_state false
                (delete_all (configure_state true (output_text (self w)))))
             (set_query_input
                (insert_start placeholder (delete_all (query_input (self w))))
                (self w)))) w).
Proof.
  intros Hf. unfold clear_all, on_query_input, on_output_text,
    status_configure.
  do 5 (erewrite bind_ok by by apply widget_call_ok).
  erewrite bind_ok by reflexivity.
  by rewrite widget_call_ok.
Qed.

(** X4. The Clear button resets the form and nothing else. Whatever widget
    call fails, [clear_all] leaves the processing flag, the history, the
    started threads, the pending callbacks and the gateway log as they are.
    With working widgets it puts the placeholder in the query box, empties
    the output box and leaves it read-only, and sets the label to "Ready";
    pressed while a request is in flight it does not release the guard, so
    the next submission is still answered with the "Processing" warning. *)
Theorem X4_clear_all_resets_the_form_only (w : World) :
  let w' := snd (clear_all w) in
  (is_processing (self w') = is_processing (self w)
   /\ consultation_history (self w') = consultation_history (self w)
   /\ threads w' = threads w /\ after_queue w' = after_queue w
   /\ gateway_log w' = gateway_log w)
  /\ (tk_faults w = [] -> normal (query_input (self w)) = true ->
      clear_all w = (Ok tt, w')
      /\ query_input (self w') = {| content := placeholder; normal := true |}
      /\ output_text (self w') = {| content := []; normal := false |}
      /\ text (status_indicator (self w')) = status_ready
      /\ (is_processing (self w) = true ->
          run_consultation w'
          = (Ok tt,
             set_dialogs
               (dialogs w' ++ [showwarning title_processing msg_processing])
               w'))).
Proof.
  intros w'. split.
  - by pose proof (stable_run _ _ _
        (clear_all_lifecycle _ _ _ _ _) (lifecycle_is_here w))
      as (? & ? & ? & ? & ?).
  - intros Hf Hn. subst w'. rewrite clear_all_ok by done. cbn [snd].
    split; [done|]. split.
    + cbn. unfold insert_start, delete_all. by rewrite Hn.
    + split; [done|]. split; [done|]. intros Hp.
      by rewrite run_consultation_processing.
Qed.

(** X5. The placeholder of the query box, with working widgets. Getting the
    focus empties the box when it holds exactly the placeholder and leaves
    any other text alone; losing the focus puts the placeholder in front of
    a text that is blank (empty or all white space) and leaves any other
    text alone. After losing the focus the box never trims to the empty
    string; and a box that held the placeholder holds it again after the
    focus has come and gone. *)
Theorem X5_placeholder_comes_and_goes (w : World) :
  tk_faults w = [] -> normal (query_input (self w)) = true ->
  let text := content (query_input (self w)) in
  let focused := snd (_clear_placeholder w) in
  let left := snd (_add_placeholder w) in
  (text = placeholder -> content (query_input (self focused)) = [])
  /\ (text <> placeholder -> _clear_placeholder w = (Ok tt, w))
  /\ (strip text = [] ->
      content (query_input (self left)) = placeholder ++ text
      /\ strip (content (query_input (self left))) = placeholder)
  /\ (strip text <> [] -> _add_placeholder w = (Ok tt, w))
  /\ strip (content (query_input (self left))) <> []
  /\ (text = placeholder ->
      content (query_input (self (snd (_add_placeholder focused))))
      = placeholder).
Proof.
  intros Hf Hn text focused left.
  assert (text = placeholder ->
          focused
          = set_self (set_query_input {| content := []; normal := true |}
                        (self w)) w) as Hin.
  { intros Htext. subst focused. unfold _clear_placeholder.
    erewrite bind_ok by reflexivity. unfold get_all. fold text.
    rewrite bool_decide_eq_true_2 by done.
    unfold on_query_input. rewrite widget_call_ok by done.
    cbn [snd]. unfold delete_all. by rewrite Hn. }
  assert (strip text = [] ->
          left
          = set_self (set_query_input
                        {| content := placeholder ++ text; normal := true |}
                        (self w)) w) as Hout.
  { intros Htext. subst left. unfold _add_placeholder.
    erewrite bind_ok by reflexivity. unfold get_all. fold text.
    rewrite Htext. cbn [truthy negb].
    unfold on_query_input. rewrite widget_call_ok by done.
    cbn [snd]. unfold insert_start. by rewrite Hn. }
  assert (strip text <> [] -> _add_placeholder w = (Ok tt, w)) as Hkeep.
  { intros Htext. unfold _add_placeholder.
    erewrite bind_ok by reflexivity. unfold get_all. fold text.
    by destruct (strip text). }
  assert (strip text = [] -> strip (placeholder ++ text) = placeholder)
    as Hstrip.
  { intros Htext. rewrite strip_app_spaces; [apply strip_placeholder|].
    by apply strip_nil_iff. }
  split; [intros Htext; by rewrite Hin|].
  split.
  { intros Htext. unfold _clear_placeholder.
    erewrite bind_ok by reflexivity. unfold get_all. fold text.
    by rewrite bool_decide_eq_false_2. }
  split; [intros Htext; rewrite Hout by done; split; [done | by apply Hstrip]|].
  split; [exact Hkeep|].
  split.
  { destruct (strip text) as [|c s] eqn:Htext.
    - rewrite Hout by done.
      cbn [self set_self query_input set_query_input content].
      by rewrite Hstrip.
    - subst left. rewrite Hkeep by done.
      change (strip text <> []). by rewrite Htext. }
  intros Htext. rewrite Hin by done.
  unfold _add_placeholder. erewrite bind_ok by reflexivity.
  cbn [get_all query_input set_self set_query_input self content].
  change (negb (truthy (strip []))) with true. cbv iota.
  unfold on_query_input. by rewrite widget_call_ok.
Qed.

(* ================================================================== *)
(** * Invariants of a session *)
(* ================================================================== *)

Lemma session_invariant {rt : PyRuntime} (I : World -> Prop) steps w :
  (forall step v, I v -> I (fire step v)) -> I w -> I (session steps w).
Proof.
  intros Hstep. revert w.
  induction steps as [|step steps IH]; intros w Hw; [done|].
  simpl. by apply IH, Hstep.
Qed.

(** ** The History tab *)

Lemma view_is_env h q t : env_independent (view_is h q t).
Proof. done. Qed.

Lemma run_consultation_view h q t : stable (view_is h q t) run_consultation.
Proof. unfold run_consultation. unfold_widgets. stable_steps; done. Qed.

Lemma clear_all_view h q t : stable (view_is h q t) clear_all.
Proof. unfold clear_all. unfold_widgets. stable_steps; done. Qed.

Lemma clear_placeholder_view h q t : stable (view_is h q t) _clear_placeholder.
Proof. unfold _clear_placeholder. unfold_widgets. stable_steps; done. Qed.

Lemma add_placeholder_view h q t : stable (view_is h q t) _add_placeholder.
Proof. unfold _add_placeholder. unfold_widgets. stable_steps; done. Qed.

Lemma view_lags_view (w w' : World) :
  view_is (consultation_history (self w)) (after_queue w)
    (history_text (self w)) w' ->
  view_lags w -> view_lags w'.
Proof. intros (Hh & Hq & Ht). unfold view_lags. by rewrite Hh, Hq, Ht. Qed.

Lemma after_outcome_view text entry crew (w : World) :
  view_is (consultation_history (self w) ++ [entry]) (after_queue w ++ [text])
    (history_text (self w)) (after_outcome text entry crew w).
Proof. done. Qed.

Lemma view_lags_one_more (w w' : World) entry text :
  view_is (consultation_history (self w) ++ [entry]) (after_queue w ++ [text])
    (history_text (self w)) w' ->
  view_lags w -> view_lags w'.
Proof.
  intros (Hh & Hq & Ht) (seen & waiting & Hw & Hlen & Hv).
  exists seen, (waiting ++ [entry]).
  rewrite Hh, Hq, Ht, Hw, !length_app, Hlen, <- app_assoc. done.
Qed.

Section ViewFacts.
Context {rt : PyRuntime}.

Lemma fire_view_lags step (w : World) :
  fst step = [] -> one_in_flight w -> view_lags w -> view_lags (fire step w).
Proof.
  intros Hfree Hone Hw.
  assert (forall m faults, (forall h q t, stable (view_is h q t) m) ->
            view_lags (callback m faults w)) as Hframe.
  { intros m faults Hm. apply (view_lags_view w); [|done].
    by apply callback_stable; [apply Hm | apply view_is_env |]. }
  destruct step as [faults ev]. simpl in Hfree. subst faults.
  destruct ev; simpl.
  - apply Hframe, run_consultation_view.
  - apply Hframe, clear_all_view.
  - apply Hframe, clear_placeholder_view.
  - apply Hframe, add_placeholder_view.
  - done.
  - by case_bool_decide.
  - destruct (threads w !! i) as [query|]; [|done].
    set (w0 := set_tk_faults [] (set_threads (delete i (threads w)) w)).
    unfold callback. fold w0.
    assert (view_lags w0) as Hw0 by done.
    destruct (gateway (crew_for w0 query)) as [result|e] eqn:Hg;
      [|destruct (exc_is_Exception e) eqn:He].
    + rewrite (execute_consultation_returned_state w0 _ _ _ _ Hg).
      eapply view_lags_one_more; [|exact Hw0].
      apply after_outcome_view.
    + rewrite (execute_consultation_raised_state w0 _ _ _ _ Hg He).
      eapply view_lags_one_more; [|exact Hw0].
      apply (after_outcome_view _ _ _ w0).
    + rewrite (execute_consultation_not_caught_state w0 _ _ _ _ Hg He).
      exact Hw0.
  - destruct (after_queue w) as [|result rest] eqn:Hq; [done|].
    destruct Hone as [Hn _]. rewrite Hq in Hn.
    assert (rest = []) as -> by (destruct rest; [done | simpl in Hn; lia]).
    destruct Hw as (seen & waiting & Hh & Hlen & Ht).
    unfold callback.
    erewrite display_result_ok; [|reflexivity|exact Ht].
    exists (consultation_history (self w)), [].
    split; [by rewrite app_nil_r | done].
Qed.

(** X6. With working widgets the History tab keeps up with the history: in
    every session it shows the title and the entries, newest first, of all
    consultations but those whose outcome is still waiting to be displayed
    (at most one); once nothing is pending it shows the whole history, and
    "No consultations yet" while that is empty. *)
Theorem X6_history_tab_follows_the_history
    (key : option str) (steps : list (list (option (str * str)) * Event)) :
  fault_free steps ->
  let w := session steps (__init__ key) in
  exists seen waiting,
    consultation_history (self w) = seen ++ waiting
    /\ length waiting = length (after_queue w)
    /\ (length waiting <= 1)%nat
    /\ history_text (self w)
       = Some {| content := history_view seen; normal := false |}
    /\ (after_queue w = [] -> seen = consultation_history (self w)).
Proof.
  intros Hfree w.
  assert (one_in_flight w /\ view_lags w) as [[Hn _] Hw].
  { subst w. assert (one_in_flight (__init__ key) /\ view_lags (__init__ key))
      as Hinit.
    { split.
      - apply idle_queues_one_in_flight.
        destruct key as [[|c k]|]; by vm_compute.
      - exists [], []. destruct key as [[|c k]|]; by vm_compute. }
    revert Hinit. generalize (__init__ key).
    induction Hfree as [|step steps Hs _ IH]; intros v [Hone Hv]; [done|].
    simpl. apply IH. split; [by apply fire_one_in_flight|].
    by apply fire_view_lags. }
  destruct Hw as (seen & waiting & Hh & Hlen & Ht).
  exists seen, waiting. repeat split; try done.
  - lia.
  - intros Hq. rewrite Hq in Hlen. destruct waiting; [|done].
    by rewrite Hh, app_nil_r.
Qed.

End ViewFacts.

(** ** The queries that are dispatched *)

Lemma dispatches_usable_lifecycle (w w' : World) :
  lifecycle_is (is_processing (self w)) (consultation_history (self w))
    (threads w) (after_queue w) (gateway_log w) w' ->
  dispatches_usable w -> dispatches_usable w'.
Proof.
  intros (_ & _ & Ht & _ & Hg). unfold dispatches_usable. by rewrite Ht, Hg.
Qed.

Lemma run_consultation_dispatches_usable :
  hoare dispatches_usable run_consultation
    (fun _ => dispatches_usable) (fun _ => dispatches_usable).
Proof.
  assert (forall A (f : HealthcareAssistantGUI -> A),
            hoare dispatches_usable (attr f) (fun _ => dispatches_usable)
              (fun _ => dispatches_usable)) as Hattr.
  { intros. by apply hoare_attr. }
  assert (forall d, hoare dispatches_usable (messagebox d)
            (fun _ => dispatches_usable) (fun _ => dispatches_usable))
    as Hbox.
  { intros d. by apply hoare_messagebox. }
  assert (forall f, hoare dispatches_usable (widget_call f)
            (fun _ => dispatches_usable) (fun _ => dispatches_usable))
    as Hcall.
  { intros f. by apply hoare_widget_call. }
  unfold run_consultation.
  eapply hoare_bind with (R := fun _ => dispatches_usable); [apply Hattr|].
  intros busy. destruct busy; [apply Hbox|].
  eapply hoare_bind with (R := fun _ => dispatches_usable); [apply Hattr|].
  intros demo. destruct demo; [apply Hbox|].
  eapply hoare_bind with (R := fun _ => dispatches_usable); [apply Hattr|].
  intros text.
  destruct (negb (truthy (strip text))) eqn:Hempty; [apply Hbox|].
  case_bool_decide as Hph; [apply Hbox|]. cbn [orb].
  unfold on_output_text, status_configure.
  do 4 (eapply hoare_bind with (R := fun _ => dispatches_usable);
        [apply Hcall | intros _]).
  eapply hoare_bind with (R := fun _ => dispatches_usable);
    [by apply hoare_assign | intros _].
  eapply hoare_bind with (R := fun _ => dispatches_usable);
    [by apply hoare_getitem | intros warning].
  eapply hoare_bind with (R := fun _ => dispatches_usable);
    [apply Hcall | intros _].
  apply hoare_thread_start. intros w [Ht Hg]. split; [|done].
  cbn. apply Forall_app. split; [done|]. apply Forall_singleton.
  split; [by destruct (strip text)|]. split; [done | apply strip_idempotent].
Qed.

Section DispatchFacts.
Context {rt : PyRuntime}.

Lemma fire_dispatches_usable step (w : World) :
  dispatches_usable w -> dispatches_usable (fire step w).
Proof.
  intros Hw.
  assert (forall m faults,
            (forall p h ts q g, stable (lifecycle_is p h ts q g) m) ->
            dispatches_usable (callback m faults w)) as Hframe.
  { intros m faults Hm. apply (dispatches_usable_lifecycle w); [|done].
    apply callback_stable;
      [apply Hm | apply lifecycle_is_env | apply lifecycle_is_here]. }
  destruct step as [faults ev]. destruct ev; simpl.
  - unfold callback.
    by apply (hoare_run dispatches_usable);
      [apply run_consultation_dispatches_usable|].
  - apply Hframe, clear_all_lifecycle.
  - apply Hframe, clear_placeholder_lifecycle.
  - apply Hframe, add_placeholder_lifecycle.
  - done.
  - by case_bool_decide.
  - destruct (threads w !! i) as [query|] eqn:Hi; [|done].
    destruct Hw as [Ht Hg].
    assert (usable_query query) as Hquery.
    { by eapply (Forall_lookup_1 _ (threads w)). }
    set (w0 := set_tk_faults faults (set_threads (delete i (threads w)) w)).
    assert (dispatches_usable
              (set_gateway_log (gateway_log w0 ++ [crew_for w0 query]) w0))
      as Hlog.
    { split; cbn.
      - by apply Forall_delete.
      - apply Forall_app. split; [done|]. apply Forall_singleton.
        by eexists _, _, _, _. }
    unfold callback. fold w0.
    destruct (gateway (crew_for w0 query)) as [result|e] eqn:Hgw;
      [|destruct (exc_is_Exception e) eqn:He].
    + by rewrite (execute_consultation_returned_state w0 _ _ _ _ Hgw).
    + by rewrite (execute_consultation_raised_state w0 _ _ _ _ Hgw He).
    + by rewrite (execute_consultation_not_caught_state w0 _ _ _ _ Hgw He).
  - destruct (after_queue w) as [|result rest] eqn:Hq; [done|].
    unfold callback. destruct Hw as [Ht Hg].
    set (w0 := set_tk_faults faults (set_after_queue rest w)).
    assert (pending_is (threads w) rest (gateway_log w) w0) as H0 by done.
    pose proof (stable_run _ _ _ (display_result_pending _ _ _ result) H0)
      as (Ht' & _ & Hg').
    unfold dispatches_usable. by rewrite Ht', Hg'.
Qed.

(** X8. Only usable queries are dispatched. In every session each query
    handed to a thread, and each query in a crew given to the gateway, is
    trimmed (trimming it again changes nothing), is not empty and is not the
    placeholder. *)
Theorem X8_only_usable_queries_are_dispatched
    (key : option str) (steps : list (list (option (str * str)) * Event)) :
  let w := session steps (__init__ key) in
  Forall (fun query =>
            query <> [] /\ query <> placeholder /\ strip query = query)
    (threads w)
  /\ Forall (fun crew =>
               exists config specialist query key,
                 (query <> [] /\ query <> placeholder /\ strip query = query)
                 /\ crew = build_crew config specialist query key)
       (gateway_log w).
Proof.
  intros w. apply (session_invariant dispatches_usable).
  - apply fire_dispatches_usable.
  - split; destruct key as [[|c k]|]; by vm_compute.
Qed.

End DispatchFacts.

(* ================================================================== *)
(** * A widget fails while the answer is displayed *)
(* ================================================================== *)

Lemma hoare_fault_call n f c (O : Textbox -> Prop) g :
  (forall gui, O (output_text gui) -> is_Some (history_text gui) ->
     O (output_text (g gui)) /\ is_Some (history_text (g gui))) ->
  hoare (fault_within (S n) f c O) (widget_call g)
    (fun _ => fault_within n f c O) (fault_struck f c O).
Proof.
  intros Hg w ((j & Hj & Hf) & Hc & HO & Hh). unfold widget_call.
  rewrite Hf. destruct f as [s r]. destruct j as [|j]; simpl.
  - done.
  - destruct (Hg _ HO Hh) as [HO' Hh'].
    split; [exists j; split; [lia | done] | done].
Qed.

Lemma hoare_fault_call_last f c (O : Textbox -> Prop) g Q :
  hoare (fault_within 1 f c O) (widget_call g) Q (fault_struck f c O).
Proof.
  intros w ((j & Hj & Hf) & Hc & HO & Hh). unfold widget_call.
  rewrite Hf. destruct f as [s r]. destruct j as [|j]; [done | lia].
Qed.

Lemma fault_within_none f c O w : ~ fault_within 0 f c O w.
Proof. intros ((j & Hj & _) & _). lia. Qed.

Lemma fault_within_mono n m f c O w :
  (n <= m)%nat -> fault_within n f c O w -> fault_within m f c O w.
Proof.
  intros Hnm ((j & Hj & Hf) & H). split; [|done]. exists j. split; [lia|done].
Qed.

Lemma hoare_fault_call_keep n f c (O : Textbox -> Prop) g :
  (forall gui, O (output_text gui) -> is_Some (history_text gui) ->
     O (output_text (g gui)) /\ is_Some (history_text (g gui))) ->
  hoare (fault_within n f c O) (widget_call g)
    (fun _ => fault_within n f c O) (fault_struck f c O).
Proof.
  intros Hg. destruct n as [|n].
  - intros w Hw. by destruct (fault_within_none _ _ _ _ Hw).
  - eapply hoare_consequence; [by apply hoare_fault_call | done | | done].
    intros a w Hw. eapply fault_within_mono; [|exact Hw]. lia.
Qed.

Lemma history_call_keeps (O : Textbox -> Prop) op gui :
  O (output_text gui) -> is_Some (history_text gui) ->
  O (output_text (set_history_text (op <$> history_text gui) gui))
  /\ is_Some (history_text (set_history_text (op <$> history_text gui) gui)).
Proof. intros HO [t Ht]. split; [done|]. simpl. rewrite Ht. by eexists. Qed.

Lemma update_history_display_fault f c O :
  hoare (fault_within 4 f c O) update_history_display
    (fun _ _ => False) (fault_struck f c O).
Proof.
  unfold update_history_display.
  eapply hoare_bind with (R := fun h w => is_Some h /\ fault_within 4 f c O w).
  { apply hoare_attr. intros w Hw. split; [|done]. by destruct Hw as (_&_&_&?). }
  intros h. destruct (is_Some_dec h) as [_|Hn];
    [|by intros w [Hh _]; destruct Hn].
  eapply hoare_consequence with (P := fault_within 4 f c O)
    (Q := fun _ _ => False) (E := fault_struck f c O);
    [|by intros w [_ Hw] | done | done].
  unfold on_history_text.
  eapply hoare_bind;
    [apply hoare_fault_call; intros; by apply history_call_keeps | intros ?].
  eapply hoare_bind;
    [apply hoare_fault_call; intros; by apply history_call_keeps | intros ?].
  eapply hoare_bind with (R := fun _ => fault_within 2 f c O);
    [by apply hoare_attr | intros history].
  eapply hoare_bind with (R := fun _ => fault_within 1 f c O).
  - destruct history as [|entry history].
    + apply hoare_fault_call. intros. by apply history_call_keeps.
    + eapply hoare_bind;
        [apply hoare_fault_call; intros; by apply history_call_keeps|].
      intros ?. generalize (reverse (entry :: history)). intros l.
      induction l as [|x l IH]; simpl; [by apply hoare_ret|].
      eapply hoare_bind; [|intros ?; exact IH].
      apply hoare_fault_call_keep. intros. by apply history_call_keeps.
  - intros ?. apply hoare_fault_call_last.
Qed.

(** From the assignment of the flag on: four more widget calls at least. *)
Lemma display_result_tail_fault f c O :
  hoare (fault_within 5 f c O)
    (assign (set_is_processing false) ;;
     success ← lift (getitem COLORS (py "success"));
     status_configure status_complete success ;;
     update_history_display)
    (fun _ _ => False) (fault_struck f c O).
Proof.
  eapply hoare_bind with (R := fun _ => fault_within 5 f c O);
    [by apply hoare_assign | intros ?].
  rewrite colors_success.
  eapply hoare_bind with (R := fun _ => fault_within 5 f c O);
    [by intros w Hw | intros success].
  eapply hoare_bind; [by apply hoare_fault_call | intros ?].
  apply update_history_display_fault.
Qed.

Lemma display_result_handler f c O e :
  hoare (fault_struck f c O e)
    (print (py "Error displaying result: " ++ exc_str e) ;;
     assign (set_is_processing false) ;;
     danger ← lift (getitem COLORS (py "danger"));
     status_configure status_error danger)
    (fun _ => error_reported f c O) (fun _ _ => False).
Proof.
  intros w (-> & Hf & Hc & HO).
  unfold print, assign, lift, status_configure, widget_call, mbind, M_bind.
  rewrite colors_danger. cbn -[py status_error COLORS get].
  by rewrite Hf, Hc.
Qed.

Lemma display_result_fault f c result :
  hoare (fault_within 10 f c (fun _ => True)) (display_result result)
    (fun _ => error_reported f c (fun _ => True)) (fun _ _ => False).
Proof.
  unfold display_result.
  eapply hoare_try_except with (E1 := fault_struck f c (fun _ => True)).
  - unfold on_output_text.
    do 5 (eapply hoare_bind; [by apply hoare_fault_call | intros ?]).
    eapply hoare_consequence;
      [apply display_result_tail_fault | done | done | done].
  - intros e _. apply display_result_handler.
  - intros e w He [-> _]. done.
Qed.

Lemma widget_call_skip g (w : World) rest :
  tk_faults w = None :: rest ->
  widget_call g w = (Ok tt, set_tk_faults rest (set_self (g (self w)) w)).
Proof. intros Hf. unfold widget_call. by rewrite Hf. Qed.

(** When the first five calls succeed the answer is in the output box. *)
Lemma display_result_late_fault f c result j (w : World) :
  (j < 5)%nat -> tk_faults w = replicate 5 None ++ fault_at j f ->
  console w = c -> is_Some (history_text (self w)) ->
  match display_result result w with
  | (Ok _, w') =>
    error_reported f c (eq {| content := result; normal := false |}) w'
  | (Raise _, _) => False
  end.
Proof.
  intros Hj Hf Hc Hh. unfold display_result, on_output_text.
  apply (hoare_try_except (fun w0 => w0 = w) _ _ _
           (fault_struck f c (eq {| content := result; normal := false |}))
           (fun _ _ => False)); [| | |reflexivity].
  - intros ? ->.
    erewrite bind_ok by (apply widget_call_skip; exact Hf).
    do 4 (erewrite bind_ok by (by apply widget_call_skip)).
    match goal with
    | |- context [(assign ?a ≫= ?k) ?w5] =>
      pose proof (display_result_tail_fault f c
                    (eq {| content := result; normal := false |}) w5) as Htail;
      destruct ((assign a ≫= k) w5) as [[a'|e] w']
    end.
    + destruct Htail; [|done..].
      split; [by exists j|]. split; [done|]. split; [|done].
      unfold insert_start, delete_all, configure_state. cbn.
      by rewrite app_nil_r.
    + apply Htail.
      split; [by exists j|]. split; [done|]. split; [|done].
      unfold insert_start, delete_all, configure_state. cbn.
      by rewrite app_nil_r.
  - intros e _. apply display_result_handler.
  - intros e w' He [-> _]. done.
Qed.

(** X7. One widget call fails while an answer is displayed. If the failing
    call is among the first ten that [display_result] makes, the method
    still returns normally: the processing flag is cleared, the console gets
    the line "Error displaying result: ..." with the error's text, and the
    status reads "● Error". When the failure comes after the fifth call, the
    answer is nevertheless in the read-only output box. *)
Theorem X7_failed_display_reports_error
    (w : World) (result : str) (k : nat) (s r : str) (t : Textbox) :
  (k < 10)%nat ->
  tk_faults w = fault_at k (s, r) ->
  history_text (self w) = Some t ->
  let out := display_result result w in
  fst out = Ok tt
  /\ is_processing (self (snd out)) = false
  /\ status_indicator (self (snd out))
     = {| text := status_error; text_color := get COLORS (py "danger") [] |}
  /\ console (snd out)
     = console w ++ [py "Error displaying result: " ++ s]
  /\ tk_faults (snd out) = []
  /\ ((5 <= k)%nat ->
      output_text (self (snd out))
      = {| content := result; normal := false |}).
Proof.
  intros Hk Hf Ht out.
  assert (is_Some (history_text (self w))) as Hh by by eexists.
  assert (fault_within 10 (s, r) (console w) (fun _ => True) w) as Hw.
  { split; [by exists k | done]. }
  pose proof (display_result_fault (s, r) (console w) result w Hw) as Hall.
  assert ((5 <= k)%nat ->
          match out with
          | (Ok _, w') =>
            error_reported (s, r) (console w)
              (eq {| content := result; normal := false |}) w'
          | (Raise _, _) => False
          end) as Hlate.
  { intros H5. apply (display_result_late_fault _ _ _ (k - 5)); [lia| |done..].
    rewrite Hf. unfold fault_at. rewrite app_assoc, <- replicate_add.
    by replace (5 + (k - 5))%nat with k by lia. }
  fold out in Hall. destruct out as [[[]|e] w']; [|done].
  destruct Hall as (Hp & Hs & Hc & Hfs & _). simpl.
  repeat split; try done.
  intros H5. by destruct (Hlate H5) as (_ & _ & _ & _ & <-).
Qed.


(* ================================================================== *)
(** * The specialist of a crew *)
(* ================================================================== *)

Lemma specialists_configured s :
  s ∈ specialists ->
  exists c, lookup Gui.agent_configs s = Some c /\ cfg_role c = s.
Proof.
  intros Hs. unfold specialists in Hs.
  repeat (apply elem_of_cons in Hs as [->|Hs]);
    [eexists; split; by vm_compute ..|by apply elem_of_nil in Hs].
Qed.

Lemma selection_is_env s k g : env_independent (selection_is s k g).
Proof. done. Qed.

Lemma update_history_display_selection s k g :
  stable (selection_is s k g) update_history_display.
Proof. unfold update_history_display. unfold_widgets. stable_steps; done. Qed.

Lemma run_consultation_selection s k g :
  stable (selection_is s k g) run_consultation.
Proof. unfold run_consultation. unfold_widgets. stable_steps; done. Qed.

Lemma clear_all_selection s k g : stable (selection_is s k g) clear_all.
Proof. unfold clear_all. unfold_widgets. stable_steps; done. Qed.

Lemma clear_placeholder_selection s k g :
  stable (selection_is s k g) _clear_placeholder.
Proof. unfold _clear_placeholder. unfold_widgets. stable_steps; done. Qed.

Lemma add_placeholder_selection s k g :
  stable (selection_is s k g) _add_placeholder.
Proof. unfold _add_placeholder. unfold_widgets. stable_steps; done. Qed.

Lemma display_result_selection s k g result :
  stable (selection_is s k g) (display_result result).
Proof.
  unfold display_result. unfold_widgets. stable_steps.
  all: try apply update_history_display_selection.
  all: done.
Qed.

Lemma selection_ok_selection key (w w' : World) :
  selection_is (specialist_var (self w)) (api_key (self w)) (gateway_log w) w' ->
  selection_ok key w -> selection_ok key w'.
Proof. intros (Hs & Hk & Hg). unfold selection_ok. by rewrite Hs, Hk, Hg. Qed.

Section SelectionFacts.
Context {rt : PyRuntime}.

Lemma fire_selection_ok key step (w : World) :
  selection_ok key w -> selection_ok key (fire step w).
Proof.
  intros Hw.
  assert (forall m faults, (forall s k g, stable (selection_is s k g) m) ->
            forall v : World,
              selection_is (specialist_var (self w)) (api_key (self w))
                (gateway_log w) v ->
              selection_ok key (callback m faults v)) as Hframe.
  { intros m faults Hm v Hv. apply (selection_ok_selection key w); [|done].
    by apply callback_stable; [apply Hm | apply selection_is_env |]. }
  destruct step as [faults ev]. destruct ev; simpl.
  - by apply Hframe; [apply run_consultation_selection|].
  - by apply Hframe; [apply clear_all_selection|].
  - by apply Hframe; [apply clear_placeholder_selection|].
  - by apply Hframe; [apply add_placeholder_selection|].
  - done.
  - case_bool_decide as Hname; [|done].
    destruct Hw as (_ & Hk & Hg). done.
  - destruct (threads w !! i) as [query|] eqn:Hi; [|done].
    destruct Hw as (Hs & Hk & Hg).
    set (w0 := set_tk_faults faults (set_threads (delete i (threads w)) w)).
    assert (selection_ok key
              (set_gateway_log (gateway_log w0 ++ [crew_for w0 query]) w0))
      as Hlog.
    { split; [done|]. split; [done|]. cbn.
      apply Forall_app. split; [done|]. apply Forall_singleton.
      destruct (specialists_configured _ Hs) as (c & Hc & Hrole).
      exists (specialist_var (self w)), c, query.
      split; [done|]. split; [done|]. split; [done|].
      unfold crew_for. cbv zeta.
      change (specialist_var (self w0)) with (specialist_var (self w)).
      change (api_key (self w0)) with (api_key (self w)).
      unfold get. by rewrite Hc, Hk. }
    unfold callback. fold w0.
    destruct (gateway (crew_for w0 query)) as [result|e] eqn:Hgw;
      [|destruct (exc_is_Exception e) eqn:He].
    + by rewrite (execute_consultation_returned_state w0 _ _ _ _ Hgw).
    + by rewrite (execute_consultation_raised_state w0 _ _ _ _ Hgw He).
    + by rewrite (execute_consultation_not_caught_state w0 _ _ _ _ Hgw He).
  - destruct (after_queue w) as [|result rest] eqn:Hq; [done|].
    by apply Hframe; [intros; apply display_result_selection|].
Qed.

(** X9. The combobox is read-only, so the selection is always one of the
    nine specialists, and every crew given to the gateway was configured by
    the table entry of the specialist selected for it: the fallback to the
    Medical Advisor entry is never taken, and the agent's role is the
    selected name. *)
Theorem X9_every_crew_is_configured_by_its_own_specialist
    (key : option str) (steps : list (list (option (str * str)) * Event)) :
  let w := session steps (__init__ key) in
  specialist_var (self w) ∈ specialists
  /\ Forall (fun crew =>
               exists specialist c query,
                 specialist ∈ specialists
                 /\ lookup Gui.agent_configs specialist = Some c
                 /\ crew = build_crew c specialist query key
                 /\ role <$> agents crew = [specialist])
       (gateway_log w).
Proof.
  intros w.
  assert (selection_ok key w) as (Hs & _ & Hg).
  { apply (session_invariant (selection_ok key)).
    - apply fire_selection_ok.
    - destruct key as [[|c k]|]; (split; [by_compute | by vm_compute]). }
  split; [done|].
  eapply Forall_impl; [exact Hg|].
  intros crew (s & c & q & Hin & Hc & Hrole & ->).
  exists s, c, q. repeat split; try done. simpl. by rewrite Hrole.
Qed.

End SelectionFacts.

(* ================================================================== *)
(** * [display_error] *)
(* ================================================================== *)

Lemma widget_call_raise g (w : World) s r rest :
  tk_faults w = Some (s, r) :: rest ->
  widget_call g w = (Raise (TclError s r), set_tk_faults rest w).
Proof. intros Hf. unfold widget_call. by rewrite Hf. Qed.

(** X10. [display_error] has no handler of its own. When one of its five
    widget calls fails, the error leaves the method: no message box is
    shown and the status is not changed; the processing flag is cleared
    only if the failing call is the last one, the status update. *)
Theorem X10_display_error_is_unguarded
    (w : World) (error_msg : str) (k : nat) (s r : str) :
  (k < 5)%nat ->
  tk_faults w = fault_at k (s, r) ->
  let out := display_error error_msg w in
  fst out = Raise (TclError s r)
  /\ dialogs (snd out) = dialogs w
  /\ status_indicator (self (snd out)) = status_indicator (self w)
  /\ is_processing (self (snd out))
     = (if (k <? 4)%nat then is_processing (self w) else false).
Proof.
  intros Hk Hf out. subst out.
  unfold display_error, on_output_text, status_configure.
  destruct k as [|[|[|[|[|k]]]]]; [..|lia]; simpl in Hf.
  1-4: repeat (erewrite bind_ok
                 by (apply widget_call_skip; first [exact Hf | reflexivity]));
       (erewrite bind_raise
          by (apply widget_call_raise; first [exact Hf | reflexivity]));
       done.
  do 4 (erewrite bind_ok
          by (apply widget_call_skip; first [exact Hf | reflexivity])).
  erewrite bind_ok by reflexivity.
  erewrite bind_ok by (unfold lift; by rewrite colors_danger).
  erewrite bind_raise by (by apply widget_call_raise).
  done.
Qed.

(* ================================================================== *)
(** * The window *)
(* ================================================================== *)

(** X11. Whatever the screen, the window asked for is between 1000x640 and
    1200x800, so never smaller than the minimum size; it is 150 by 120
    pixels smaller than the screen whenever that lies between the bounds. *)
Theorem X11_window_size_is_clamped (screen_w screen_h : Z) :
  let (width, height) := window_size screen_w screen_h in
  (1000 <= width <= 1200 /\ 640 <= height <= 800
   /\ fst minsize <= width /\ snd minsize <= height
   /\ (1000 <= screen_w - 150 <= 1200 -> width = screen_w - 150)
   /\ (640 <= screen_h - 120 <= 800 -> height = screen_h - 120))%Z.
Proof. unfold window_size, minsize. simpl. lia. Qed.

(* ================================================================== *)
(** * The program at the terminal *)
(* ================================================================== *)

(** ** Reading the query *)

Lemma read_lines_collects (lines body rest : list str) :
  Forall (fun line : str => line <> []) body -> lines ++ body <> [] ->
  Interactive.read_lines lines (body ++ ([] : str) :: rest)
  = (Ok (lines ++ body), rest).
Proof.
  revert lines. induction body as [|line body IH]; intros lines Hb Hne; simpl.
  - rewrite app_nil_r in *. by destruct lines.
  - apply Forall_cons in Hb as [Hline Hb]. destruct line as [|c line]; [done|].
    simpl. rewrite IH; [|done|].
    + by rewrite <- app_assoc.
    + rewrite <- app_assoc. simpl. by destruct lines.
Qed.

Lemma read_lines_skips (blanks unread : list str) :
  Forall (fun line : str => line = []) blanks ->
  Interactive.read_lines [] (blanks ++ unread)
  = Interactive.read_lines [] unread.
Proof.
  induction 1 as [|line blanks -> _ IH]; [done|]. simpl. exact IH.
Qed.

Lemma read_lines_result (lines unread : list str) :
  Forall (fun line : str => line <> []) lines ->
  match Interactive.read_lines lines unread with
  | (Ok ls, rest) =>
    ls <> [] /\ Forall (fun line : str => line <> []) ls
    /\ rest `suffix_of` unread
  | (Raise e, rest) => e = Interactive.EOFError /\ rest = []
  end.
Proof.
  revert lines. induction unread as [|line unread IH]; intros lines Hl; simpl.
  - done.
  - destruct line as [|c line]; simpl.
    + destruct lines as [|l lines].
      * specialize (IH [] Hl). revert IH.
        match goal with
        | |- context [Interactive.read_lines ?l unread] =>
          change (Interactive.read_lines [] unread)
            with (Interactive.read_lines l unread);
          destruct (Interactive.read_lines l unread) as [[ls|e] rest]
        end; intros IH; [|exact IH].
        destruct IH as (? & ? & ?). repeat split; try done.
        by apply suffix_cons_r.
      * repeat split; try done. by apply suffix_cons_r.
    + assert (Forall (fun line : str => line <> []) (lines ++ [c :: line])) as Hl'.
      { apply Forall_app. split; [done|]. by apply Forall_singleton. }
      specialize (IH _ Hl'). revert IH.
      match goal with
      | |- context [Interactive.read_lines ?l unread] =>
        change (Interactive.read_lines (lines ++ [c :: line]) unread)
          with (Interactive.read_lines l unread);
        destruct (Interactive.read_lines l unread) as [[ls|e] rest]
      end; intros IH; [|exact IH].
      destruct IH as (? & ? & ?). repeat split; try done.
      by apply suffix_cons_r.
Qed.

Lemma read_lines_terminated (lines before after : list str) :
  lines <> [] \/ Exists (fun line : str => line <> []) before ->
  exists ls rest,
    Interactive.read_lines lines (before ++ ([] : str) :: after) = (Ok ls, rest).
Proof.
  revert lines. induction before as [|line before IH]; intros lines H; simpl.
  - destruct H as [H|H]; [|by apply Exists_nil in H].
    destruct lines; [done | by eexists _, _].
  - destruct line as [|c line]; simpl.
    + destruct lines as [|l lines]; [|by eexists _, _].
      apply IH. destruct H as [H|H]; [done|].
      apply Exists_cons in H as [H|H]; [done | by right].
    + apply IH. left. by destruct lines.
Qed.

Lemma join_nil_iff sep (l : list str) :
  Forall (fun line : str => line <> []) l -> Interactive.join sep l = [] -> l = [].
Proof.
  destruct l as [|x l]; [done|]. intros Hl. apply Forall_cons in Hl as [Hx _].
  simpl. destruct l; [done|]. intros H. by apply app_eq_nil in H as [? _].
Qed.

Lemma io_bind_ok {A B} (m : Interactive.IO A) (k : A -> Interactive.IO B)
    t a t' :
  m t = (Ok a, t') -> (m ≫= k) t = k a t'.
Proof. intros H. unfold mbind, Interactive.IO_bind. by rewrite H. Qed.

Lemma io_bind_raise {A B} (m : Interactive.IO A)
    (k : A -> Interactive.IO B) t e t' :
  m t = (Raise e, t') -> (m ≫= k) t = (Raise e, t').
Proof. intros H. unfold mbind, Interactive.IO_bind. by rewrite H. Qed.

Lemma print_run s t :
  Interactive.print s t = (Ok tt, Interactive.write (Cli.println s) t).
Proof. reflexivity. Qed.

Lemma write_write a b t :
  Interactive.write b (Interactive.write a t) = Interactive.write (a ++ b) t.
Proof. unfold Interactive.write. simpl. by rewrite app_assoc. Qed.

(** Runs the calls of [print] at the head of a function. *)
Ltac io_prints :=
  repeat (erewrite io_bind_ok by apply print_run);
  rewrite ?write_write.

Lemma get_health_query_run (t : Interactive.Term) :
  Interactive.get_health_query t
  = (match fst (Interactive.read_lines [] (Interactive.stdin t)) with
     | Ok lines => Ok (Interactive.join (py " ") lines)
     | Raise e => Raise e
     end,
     {| Interactive.stdin :=
          snd (Interactive.read_lines [] (Interactive.stdin t));
        Interactive.stdout := Interactive.stdout t ++ query_banner;
        Interactive.calls := Interactive.calls t |}).
Proof.
  unfold Interactive.get_health_query. io_prints.
  unfold mbind, Interactive.IO_bind, Interactive.input_lines.
  change (Interactive.stdin (Interactive.write _ t))
    with (Interactive.stdin t).
  destruct (Interactive.read_lines [] (Interactive.stdin t)) as [[ls|e] rest];
    reflexivity.
Qed.

(** X12. [get_health_query] skips the empty lines that come first, reads
    the lines up to the next empty one and returns them joined by single
    spaces; it consumes that empty line, prints only its banner and calls
    nothing. *)
Theorem X12_get_health_query_reads_one_paragraph
    (t : Interactive.Term) (blanks body rest : list str) :
  Interactive.stdin t = blanks ++ body ++ ([] : str) :: rest ->
  Forall (fun line : str => line = []) blanks ->
  Forall (fun line : str => line <> []) body ->
  body <> [] ->
  Interactive.get_health_query t
  = (Ok (Interactive.join (py " ") body),
     {| Interactive.stdin := rest;
        Interactive.stdout := Interactive.stdout t ++ query_banner;
        Interactive.calls := Interactive.calls t |}).
Proof.
  intros Hin Hblanks Hbody Hne.
  rewrite get_health_query_run, Hin, read_lines_skips by done.
  by rewrite (read_lines_collects [] body rest).
Qed.

(** X13. Whatever the input, [get_health_query] either returns a query
    that is not empty, leaving unread a suffix of the input, or it raises
    [EOFError] with the input used up: the latter when no empty line follows
    a non-empty one. *)
Theorem X13_get_health_query_returns_text_or_raises_EOFError
    (t : Interactive.Term) :
  match Interactive.get_health_query t with
  | (Ok query, t') =>
    query <> []
    /\ Interactive.stdin t' `suffix_of` Interactive.stdin t
  | (Raise e, t') =>
    e = Interactive.EOFError /\ Interactive.stdin t' = []
    /\ forall before after : list str,
         Interactive.stdin t = before ++ ([] : str) :: after ->
         Forall (fun line : str => line = []) before
  end.
Proof.
  rewrite get_health_query_run.
  pose proof (read_lines_result [] (Interactive.stdin t) (Forall_nil_2 _))
    as H.
  destruct (Interactive.read_lines [] (Interactive.stdin t))
    as [[ls|e] rest] eqn:Hr; cbn [fst snd].
  - destruct H as (Hne & Hls & Hsuf). split; [|done].
    intros Hj. by apply join_nil_iff in Hj.
  - destruct H as [-> ->]. repeat split.
    intros before after Hin.
    destruct (decide (Forall (fun line : str => line = []) before)) as [|Hn];
      [done|exfalso].
    apply not_Forall_Exists in Hn; [|intros x; apply _].
    destruct (read_lines_terminated [] before after) as (ls & rest & Hok).
    { right. eapply Exists_impl; [exact Hn|]. by intros x Hx. }
    rewrite Hin in Hr. congruence.
Qed.

(** ** Choosing the specialist *)

Lemma lookup_elem_of {V} (d : dict V) (k : str) (v : V) :
  lookup d k = Some v -> (k, v) ∈ d.
Proof.
  induction d as [|[k' v'] d IH]; simpl; [done|].
  case_bool_decide as Hk.
  - intros [= ->]. subst k'. apply list_elem_of_here.
  - intros H. apply list_elem_of_further. by apply IH.
Qed.

Lemma lookup_is_Some {V} (d : dict V) (k : str) :
  k ∈ keys d -> is_Some (lookup d k).
Proof.
  intros Hk. destruct (lookup d k) eqn:Hl; [by eexists|].
  by apply lookup_None_iff in Hl.
Qed.

Lemma menu_entries_configured :
  Forall (fun entry : str * (str * str) =>
            fst (snd entry) ∈ cli_roles
            /\ is_Some (lookup Cli.agent_configs (fst (snd entry))))
    Cli.specialists.
Proof.
  unfold Cli.specialists.
  repeat (apply Forall_cons; split; [split; [by_compute | by eexists]|]).
  apply Forall_nil_2.
Qed.

Lemma menu_default :
  lookup Cli.specialists (py "1")
  = Some (py "Medical Advisor", py "General medical information and guidance").
Proof. reflexivity. Qed.

Lemma menu_choice (line : str) :
  exists key item c,
    snd (Cli.get_healthcare_specialist line) = Ok item
    /\ lookup Cli.specialists key = Some item
    /\ key = (if mem Cli.specialists (strip line) then strip line
              else py "1")
    /\ fst item ∈ cli_roles
    /\ lookup Cli.agent_configs (fst item) = Some c.
Proof.
  assert (forall key, is_Some (lookup Cli.specialists key) ->
            exists item c,
              getitem Cli.specialists key = Ok item
              /\ lookup Cli.specialists key = Some item
              /\ fst item ∈ cli_roles
              /\ lookup Cli.agent_configs (fst item) = Some c) as Hkey.
  { intros key [item Hitem].
    pose proof (lookup_elem_of _ _ _ Hitem) as Hin.
    pose proof menu_entries_configured as Hall.
    rewrite Forall_forall in Hall. destruct (Hall _ Hin) as [Hrole [c Hc]].
    exists item, c. unfold getitem. by rewrite Hitem. }
  unfold Cli.get_healthcare_specialist.
  destruct (mem Cli.specialists (strip line)) eqn:Hmem; cbn [snd].
  - apply bool_decide_eq_true in Hmem.
    destruct (Hkey (strip line)) as (item & c & ? & ? & ? & ?);
      [by apply lookup_is_Some|].
    by exists (strip line), item, c.
  - destruct (Hkey (py "1")) as (item & c & ? & ? & ? & ?);
      [by rewrite menu_default|].
    by exists (py "1"), item, c.
Qed.

(** X14. Whatever is typed at the menu, [get_healthcare_specialist]
    returns the role and description of a menu entry whose role has its own
    entry in [agent_configs]: the entry of the typed key when the trimmed
    input is one of the keys, the first entry otherwise. So the default of
    [agent_configs.get] is never used by the program. *)
Theorem X14_menu_always_yields_a_configured_specialist (line : str) :
  exists key role description c,
    snd (Cli.get_healthcare_specialist line) = Ok (role, description)
    /\ lookup Cli.specialists key = Some (role, description)
    /\ (strip line ∈ keys Cli.specialists -> key = strip line)
    /\ (strip line ∉ keys Cli.specialists ->
        key = py "1" /\ role = py "Medical Advisor")
    /\ role ∈ cli_roles
    /\ lookup Cli.agent_configs role = Some c
    /\ Cli.config role = Ok c.
Proof.
  destruct (menu_choice line) as (key & [role description] & c & Hr & Hl
                                  & Hkey & Hrole & Hc).
  exists key, role, description, c. unfold mem in Hkey.
  cbn [fst] in Hrole, Hc.
  split; [done|]. split; [done|]. split; [|split; [|split; [done|split]]].
  - intros Hin. by rewrite bool_decide_eq_true_2 in Hkey.
  - intros Hin. rewrite bool_decide_eq_false_2 in Hkey by done. subst key.
    rewrite menu_default in Hl. by injection Hl as <- _.
  - done.
  - rewrite cli_config_total. unfold get. by rewrite Hc.
Qed.

Lemma input_run prompt t line rest :
  Interactive.stdin t = line :: rest ->
  Interactive.input prompt t
  = (Ok line,
     {| Interactive.stdin := rest;
        Interactive.stdout := Interactive.stdout t ++ prompt;
        Interactive.calls := Interactive.calls t |}).
Proof. intros H. unfold Interactive.input. by rewrite H. Qed.

Lemma input_eof prompt t :
  Interactive.stdin t = [] ->
  Interactive.input prompt t
  = (Raise Interactive.EOFError, Interactive.write prompt t).
Proof. intros H. unfold Interactive.input. by rewrite H. Qed.

Lemma menu_text (line : str) :
  fst (Cli.get_healthcare_specialist line)
  = fst (Cli.get_healthcare_specialist (py "1"))
    ++ (if mem Cli.specialists (strip line) then []
        else Cli.println Cli.invalid_choice).
Proof.
  unfold Cli.get_healthcare_specialist.
  change (mem Cli.specialists (strip (py "1"))) with true. cbv iota.
  destruct (mem Cli.specialists (strip line)); cbn [fst]; [|done].
  by rewrite app_nil_r.
Qed.

Lemma get_healthcare_specialist_run t line rest :
  Interactive.stdin t = line :: rest ->
  Interactive.get_healthcare_specialist t
  = (snd (Cli.get_healthcare_specialist line),
     {| Interactive.stdin := rest;
        Interactive.stdout :=
          Interactive.stdout t ++ fst (Cli.get_healthcare_specialist line);
        Interactive.calls := Interactive.calls t |}).
Proof.
  intros Hin. unfold Interactive.get_healthcare_specialist. io_prints.
  erewrite io_bind_ok by (apply input_run; exact Hin).
  unfold Cli.get_healthcare_specialist.
  destruct (mem Cli.specialists (strip line)); cbn [fst snd].
  - unfold Interactive.lift, Interactive.write.
    cbn [Interactive.stdout Interactive.calls]. do 2 f_equal.
    rewrite <- !app_assoc. by f_equal.
  - io_prints. unfold Interactive.lift, Interactive.write.
    cbn [Interactive.stdout Interactive.calls Interactive.stdin].
    do 2 f_equal. rewrite <- !app_assoc. by f_equal.
Qed.

Lemma get_healthcare_specialist_eof t :
  Interactive.stdin t = [] ->
  Interactive.get_healthcare_specialist t
  = (Raise Interactive.EOFError,
     Interactive.write (fst (Cli.get_healthcare_specialist (py "1"))) t).
Proof.
  intros Hin. unfold Interactive.get_healthcare_specialist. io_prints.
  erewrite io_bind_raise by (apply input_eof; exact Hin).
  rewrite write_write. reflexivity.
Qed.

(** X15. At the terminal [get_healthcare_specialist] prints the title, the
    seven menu lines and the prompt, reads exactly one line and, when the
    trimmed line is not a key of the menu, prints the notice that the
    default is used; it never calls the gateway. At the end of the input
    the [EOFError] of [input()] leaves the function after the prompt. *)
Theorem X15_menu_reads_one_line (t : Interactive.Term) :
  match Interactive.stdin t with
  | line :: rest =>
    Interactive.get_healthcare_specialist t
    = (snd (Cli.get_healthcare_specialist line),
       {| Interactive.stdin := rest;
          Interactive.stdout :=
            Interactive.stdout t
              ++ fst (Cli.get_healthcare_specialist (py "1"))
              ++ (if mem Cli.specialists (strip line) then []
                  else Cli.println Cli.invalid_choice);
          Interactive.calls := Interactive.calls t |})
  | [] =>
    Interactive.get_healthcare_specialist t
    = (Raise Interactive.EOFError,
       {| Interactive.stdin := [];
          Interactive.stdout :=
            Interactive.stdout t
              ++ fst (Cli.get_healthcare_specialist (py "1"));
          Interactive.calls := Interactive.calls t |})
  end.
Proof.
  destruct (Interactive.stdin t) as [|line rest] eqn:Hin.
  - rewrite get_healthcare_specialist_eof by done.
    unfold Interactive.write. by rewrite Hin.
  - rewrite (get_healthcare_specialist_run t line rest) by done.
    by rewrite menu_text.
Qed.


(** ** The consultation *)

Section TerminalFacts.
Context {rt : PyRuntime} {term : PyTerminal}.

Lemma consult_healthcare_agent_run gateway specialist description query
    api_key t :
  Interactive.consult_healthcare_agent gateway specialist description query
    api_key t
  = (snd (Cli.consult_healthcare_agent
            (gateway (length (Interactive.calls t)))
            specialist description query api_key),
     {| Interactive.stdin := Interactive.stdin t;
        Interactive.stdout :=
          Interactive.stdout t
            ++ fst (Cli.consult_healthcare_agent
                      (gateway (length (Interactive.calls t)))
                      specialist description query api_key);
        Interactive.calls :=
          Interactive.calls t ++ [consult_crew specialist query api_key] |}).
Proof.
  unfold Interactive.consult_healthcare_agent, Cli.consult_healthcare_agent.
  io_prints. cbn [fst snd].
  unfold Interactive.try_except, Cli.try_except, Interactive.lift,
    Interactive.kickoff, mbind, Interactive.IO_bind, mret, Interactive.IO_ret.
  rewrite cli_config_total. cbn [Result_bind].
  unfold Interactive.write.
  cbn [Interactive.stdin Interactive.stdout Interactive.calls].
  change (Cli.build_crew _ specialist query api_key)
    with (consult_crew specialist query api_key).
  destruct (gateway (length (Interactive.calls t))
              (consult_crew specialist query api_key)) as [result|e];
    [|destruct (exc_is_Exception e)]; do 2 f_equal;
    rewrite <- !app_assoc; reflexivity.
Qed.

(** X16. [consult_healthcare_agent] hands exactly one crew to the gateway
    and reads nothing. It returns [(True, result)] when the gateway answers
    and [(False, "Error: ...")] with the error's text and the advice to
    check the connection and the key when the gateway raises an
    [Exception]; only an error that is not an [Exception] leaves it. *)
Theorem X16_consultation_reports_every_exception
    (gateway : nat -> Crew -> Kickoff)
    (specialist description query api_key : str) (t : Interactive.Term) :
  let out := Interactive.consult_healthcare_agent gateway specialist
               description query api_key t in
  let crew := consult_crew specialist query api_key in
  Interactive.calls (snd out) = Interactive.calls t ++ [crew]
  /\ Interactive.stdin (snd out) = Interactive.stdin t
  /\ match gateway (length (Interactive.calls t)) crew with
     | Returned result => fst out = Ok (true, result)
     | Raised e =>
       if exc_is_Exception e
       then fst out
            = Ok (false, Cli.error_head ++ exc_str e ++ Cli.error_tail)
       else fst out = Raise e
     end
  /\ (forall e, fst out = Raise e -> exc_is_Exception e = false).
Proof.
  intros out crew. subst out. rewrite consult_healthcare_agent_run.
  cbn [fst snd Interactive.calls Interactive.stdin].
  split; [done|]. split; [done|].
  unfold Cli.consult_healthcare_agent, Cli.try_except. cbn [snd].
  rewrite cli_config_total. cbn [mbind Result_bind].
  change (Cli.build_crew _ specialist query api_key) with crew.
  destruct (gateway (length (Interactive.calls t)) crew) as [result|e];
    [done|].
  destruct (exc_is_Exception e) eqn:He; [done|].
  split; [done|]. by intros e' [= <-].
Qed.

(** ** Without the credential *)

(** X17. Without a key, or with an empty one, [main] prints the three lines
    about the missing key and returns: it reads nothing, prints no header
    and never calls the gateway. *)
Theorem X17_main_without_key_only_reports (fuel : nat)
    (gateway : nat -> Crew -> Kickoff) (key : option str)
    (t : Interactive.Term) :
  key = None \/ key = Some [] ->
  Interactive.main fuel gateway key t
  = Some (Ok tt,
          Interactive.write
            (Cli.println Interactive.no_api_key_error
             ++ Cli.println Interactive.no_api_key_hint
             ++ Cli.println Interactive.no_api_key_format) t).
Proof.
  intros [-> | ->]; unfold Interactive.main; cbn [default truthy negb];
    io_prints; by rewrite print_run, write_write, <- app_assoc.
Qed.

End TerminalFacts.

(** ** The loop of [main] *)

Lemma extends_refl key t : extends key t t.
Proof.
  split; [done|]. split; [done|]. exists []. by rewrite app_nil_r.
Qed.

Lemma extends_trans key t1 t2 t3 :
  extends key t1 t2 -> extends key t2 t3 -> extends key t1 t3.
Proof.
  intros (Hs & Hp & new & Hc & Hn) (Hs' & Hp' & new' & Hc' & Hn').
  split; [by etrans|]. split; [by etrans|].
  exists (new ++ new'). split; [by rewrite Hc', Hc, app_assoc|].
  by apply Forall_app.
Qed.

Lemma extends_write key s t : extends key t (Interactive.write s t).
Proof.
  split; [done|]. split; [by apply prefix_app_r|].
  exists []. by rewrite app_nil_r.
Qed.

Lemma steps_ret {A} key gateway (Q : A -> Prop) (a : A) :
  Q a -> steps key gateway Q (mret a).
Proof. intros Ha t. split; [apply extends_refl | done]. Qed.

Lemma steps_bind {A B} key gateway (Q : A -> Prop) (Q' : B -> Prop)
    (m : Interactive.IO A) (k : A -> Interactive.IO B) :
  steps key gateway Q m -> (forall a, Q a -> steps key gateway Q' (k a)) ->
  steps key gateway Q' (m ≫= k).
Proof.
  intros Hm Hk t. specialize (Hm t). unfold mbind, Interactive.IO_bind.
  destruct (m t) as [[a|e] t1]; [|done].
  destruct Hm as [H1 Ha]. specialize (Hk a Ha t1).
  destruct (k a t1) as [[b|e] t2]; destruct Hk as [H2 ?];
    (split; [by eapply extends_trans|done]).
Qed.

Lemma reads_bind {A B} key gateway (Q : A -> Prop) (Q' : B -> Prop)
    (m : Interactive.IO A) (k : A -> Interactive.IO B) :
  reads key gateway Q m -> (forall a, Q a -> steps key gateway Q' (k a)) ->
  reads key gateway Q' (m ≫= k).
Proof.
  intros Hm Hk t. specialize (Hm t). unfold mbind, Interactive.IO_bind.
  destruct (m t) as [[a|e] t1]; [|done].
  destruct Hm as (H1 & Hlt & Ha). specialize (Hk a Ha t1).
  destruct (k a t1) as [[b|e] t2]; destruct Hk as [H2 ?].
  - split; [by eapply extends_trans|]. split; [|done].
    destruct H2 as [Hsuf _]. apply suffix_length in Hsuf. lia.
  - split; [by eapply extends_trans|done].
Qed.

Lemma steps_print key gateway s :
  steps key gateway (fun _ => True) (Interactive.print s).
Proof. intros t. split; [apply extends_write | done]. Qed.

Lemma steps_input key gateway prompt :
  steps key gateway (fun _ => True) (Interactive.input prompt).
Proof.
  intros t. unfold Interactive.input.
  destruct (Interactive.stdin t) as [|line rest] eqn:Hin.
  - split; [apply extends_write | by left].
  - split; [|done]. split; [|split].
    + simpl. rewrite ?Hin. by apply suffix_cons_r.
    + by apply prefix_app_r.
    + exists []. by rewrite app_nil_r.
Qed.

Lemma steps_get_health_query key gateway :
  steps key gateway (fun _ => True) Interactive.get_health_query.
Proof.
  intros t. rewrite get_health_query_run.
  pose proof (read_lines_result [] (Interactive.stdin t) (Forall_nil_2 _))
    as H.
  destruct (Interactive.read_lines [] (Interactive.stdin t))
    as [[ls|e] rest]; cbn [fst snd].
  - destruct H as (_ & _ & Hsuf). split; [|done].
    split; [done|]. split; [by apply prefix_app_r|].
    exists []. by rewrite app_nil_r.
  - destruct H as [-> ->]. split; [|by left].
    split; [apply suffix_nil|]. split; [by apply prefix_app_r|].
    exists []. by rewrite app_nil_r.
Qed.

Lemma reads_get_healthcare_specialist key gateway :
  reads key gateway menu_selection Interactive.get_healthcare_specialist.
Proof.
  intros t. destruct (Interactive.stdin t) as [|line rest] eqn:Hin.
  - rewrite get_healthcare_specialist_eof by done.
    split; [apply extends_write | by left].
  - rewrite (get_healthcare_specialist_run t line rest) by done.
    destruct (menu_choice line) as (k & item & c & -> & _ & _ & Hrole & Hc).
    split; [|split].
    + split; [|split].
      * simpl. rewrite Hin. by apply suffix_cons_r.
      * by apply prefix_app_r.
      * exists []. by rewrite app_nil_r.
    + cbn [Interactive.stdin]. rewrite ?Hin. simpl. lia.
    + split; [done | by eexists].
Qed.

Section LoopFacts.
Context {rt : PyRuntime} {term : PyTerminal}.

Lemma steps_consult_healthcare_agent key gateway specialist description
    query :
  menu_selection (specialist, description) -> strip query <> [] ->
  steps key gateway (fun _ => True)
    (Interactive.consult_healthcare_agent gateway specialist description
       query key).
Proof.
  intros [Hrole [c Hc]] Hq t. rewrite consult_healthcare_agent_run.
  assert (extends key t
            {| Interactive.stdin := Interactive.stdin t;
               Interactive.stdout :=
                 Interactive.stdout t
                   ++ fst (Cli.consult_healthcare_agent
                             (gateway (length (Interactive.calls t)))
                             specialist description query key);
               Interactive.calls :=
                 Interactive.calls t ++ [consult_crew specialist query key]
            |}) as Hext.
  { split; [done|]. split; [by apply prefix_app_r|].
    exists [consult_crew specialist query key]. split; [done|].
    apply Forall_singleton. exists specialist, c, query.
    split; [done|]. split; [done|]. split; [done|].
    unfold consult_crew, get. cbn [fst] in Hc. by rewrite Hc. }
  unfold Cli.consult_healthcare_agent, Cli.try_except. cbn [snd].
  rewrite cli_config_total. cbn [mbind Result_bind].
  change (Cli.build_crew _ specialist query key)
    with (consult_crew specialist query key).
  destruct (gateway (length (Interactive.calls t))
              (consult_crew specialist query key)) as [result|e] eqn:Hg;
    [done|].
  destruct (exc_is_Exception e) eqn:He; [done|].
  split; [done|]. right. split; [done|]. by eexists _, _.
Qed.

Lemma steps_display_consultation_result key gateway success result
    specialist :
  steps key gateway (fun _ => True)
    (Interactive.display_consultation_result success result specialist).
Proof.
  unfold Interactive.display_consultation_result.
  repeat first
    [ apply steps_print
    | eapply steps_bind; [|intros ? _]
    | by apply steps_ret
    | match goal with |- steps _ _ _ (if ?b then _ else _) => destruct b end ].
Qed.

Lemma reads_main_turn key gateway :
  reads key gateway (fun _ => True) (Interactive.main_turn gateway key).
Proof.
  unfold Interactive.main_turn.
  eapply reads_bind; [apply reads_get_healthcare_specialist|].
  intros [specialist description] Hsel. cbn [fst snd].
  eapply steps_bind; [apply steps_print | intros ? _].
  eapply steps_bind; [apply steps_print | intros ? _].
  eapply steps_bind; [apply steps_get_health_query | intros query _].
  destruct (negb (truthy (strip query))) eqn:Hq.
  - eapply steps_bind; [apply steps_print | intros ? _]. by apply steps_ret.
  - eapply steps_bind.
    { apply steps_consult_healthcare_agent; [done|].
      by destruct (strip query). }
    intros outcome _.
    eapply steps_bind;
      [apply steps_display_consultation_result | intros ? _].
    eapply steps_bind; [apply steps_print | intros ? _].
    eapply steps_bind; [apply steps_input | intros answer _].
    case_bool_decide.
    + do 3 (eapply steps_bind; [apply steps_print | intros ? _]).
      by apply steps_ret.
    + eapply steps_bind; [apply steps_print | intros ? _].
      by apply steps_ret.
Qed.

Lemma main_loop_run key gateway fuel t :
  match Interactive.main_loop fuel gateway key t with
  | Some (r, t') =>
    extends key t t'
    /\ forall e, r = Raise e -> leaves_main gateway e
  | None => (fuel <= length (Interactive.stdin t))%nat
  end.
Proof.
  revert t. induction fuel as [|fuel IH]; intros t; simpl; [lia|].
  pose proof (reads_main_turn key gateway t) as Hturn.
  destruct (Interactive.main_turn gateway key t) as [[[]|e] t1].
  - destruct Hturn as (Hext & Hlt & _). specialize (IH t1).
    destruct (Interactive.main_loop fuel gateway key t1) as [[r t']|].
    + destruct IH as [Hext' Hr]. split; [by eapply extends_trans | done].
    + lia.
  - destruct Hturn as (Hext & _). split; [done|]. by intros e.
  - destruct Hturn as [Hext He]. split; [done|]. by intros e' [= <-].
Qed.

Lemma main_loop_more_fuel key gateway fuel fuel' t out :
  (fuel <= fuel')%nat ->
  Interactive.main_loop fuel gateway key t = Some out ->
  Interactive.main_loop fuel' gateway key t = Some out.
Proof.
  revert fuel' t. induction fuel as [|fuel IH]; intros fuel' t Hle; [done|].
  destruct fuel' as [|fuel']; [lia|]. simpl.
  destruct (Interactive.main_turn gateway key t) as [[[]|e] t1]; [|done..].
  apply IH. lia.
Qed.

End LoopFacts.

Lemma print_header_run t :
  exists s, Interactive.print_header t = (Ok tt, Interactive.write s t).
Proof.
  unfold Interactive.print_header. io_prints.
  rewrite print_run, write_write. by eexists.
Qed.

Section MainFacts.
Context {rt : PyRuntime} {term : PyTerminal}.

Lemma main_run key gateway fuel t :
  match Interactive.main fuel gateway key t with
  | Some (r, t') =>
    extends (default [] key) t t'
    /\ forall e, r = Raise e -> leaves_main gateway e
  | None => (fuel <= length (Interactive.stdin t))%nat
  end.
Proof.
  unfold Interactive.main.
  destruct (negb (truthy (default [] key))).
  - io_prints. rewrite print_run, write_write.
    split; [apply extends_write | done].
  - destruct (print_header_run t) as [s ->].
    pose proof (main_loop_run (default [] key) gateway fuel
                  (Interactive.write s t)) as H.
    destruct (Interactive.main_loop fuel gateway (default [] key)
                (Interactive.write s t)) as [[r t']|]; [|done].
    destruct H as [Hext Hr]. split; [|done].
    eapply extends_trans; [apply extends_write | done].
Qed.

Lemma main_more_fuel key gateway fuel fuel' t out :
  (fuel <= fuel')%nat ->
  Interactive.main fuel gateway key t = Some out ->
  Interactive.main fuel' gateway key t = Some out.
Proof.
  intros Hle. unfold Interactive.main.
  destruct (negb (truthy (default [] key))); [done|].
  destruct (Interactive.print_header t) as [[[]|e] t1]; [|done].
  by apply main_loop_more_fuel.
Qed.

(** X18. [main] ends when the input does: every turn of its loop reads at
    least one line, so more turns than there are lines left are never
    needed, and giving the loop more turns than that changes nothing. *)
Theorem X18_main_ends_when_the_input_does
    (fuel fuel' : nat) (gateway : nat -> Crew -> Kickoff)
    (key : option str) (t : Interactive.Term) :
  (length (Interactive.stdin t) < fuel)%nat -> (fuel <= fuel')%nat ->
  exists r t',
    Interactive.main fuel gateway key t = Some (r, t')
    /\ Interactive.main fuel' gateway key t = Some (r, t').
Proof.
  intros Hlen Hle. pose proof (main_run key gateway fuel t) as H.
  destruct (Interactive.main fuel gateway key t) as [[r t']|] eqn:Hmain;
    [|lia].
  exists r, t'. split; [done|]. by eapply main_more_fuel.
Qed.

(** X19. Whatever is typed and whatever the gateway answers, a run of
    [main] only consumes input and only adds output; every crew it hands to
    the gateway is for a specialist of the menu, configured by that
    specialist's own entry, with the key of the environment, about a query
    that is not blank; and the only errors that leave it are the [EOFError]
    of [input()] and errors of the gateway that are not [Exception]s. *)
Theorem X19_main_only_consults_menu_specialists
    (fuel : nat) (gateway : nat -> Crew -> Kickoff) (key : option str)
    (t t' : Interactive.Term) (r : Result unit) :
  Interactive.main fuel gateway key t = Some (r, t') ->
  Interactive.stdin t' `suffix_of` Interactive.stdin t
  /\ Interactive.stdout t `prefix_of` Interactive.stdout t'
  /\ (exists new,
        Interactive.calls t' = Interactive.calls t ++ new
        /\ Forall (fun crew =>
                     exists specialist c query,
                       specialist ∈ cli_roles
                       /\ lookup Cli.agent_configs specialist = Some c
                       /\ strip query <> []
                       /\ crew = Cli.build_crew c specialist query
                                   (default [] key)) new)
  /\ (forall e, r = Raise e ->
        e = Interactive.EOFError
        \/ (exc_is_Exception e = false
            /\ exists n crew, gateway n crew = Raised e)).
Proof.
  intros Hmain. pose proof (main_run key gateway fuel t) as H.
  rewrite Hmain in H. destruct H as [(Hs & Hp & Hc) Hr]. done.
Qed.

(** X20. Run as a script, the program never ends with a traceback when the
    errors of the gateway are [Exception]s or [KeyboardInterrupt]s: once the
    input is used up, or the user has declined another consultation, the
    script has returned normally. *)
Theorem X20_script_ends_normally
    (fuel : nat) (gateway : nat -> Crew -> Kickoff) (key : option str)
    (t : Interactive.Term) :
  (forall n crew e, gateway n crew = Raised e ->
     exc_is_Exception e = true \/ is_KeyboardInterrupt e = true) ->
  (length (Interactive.stdin t) < fuel)%nat ->
  exists t', Interactive.__main__ fuel gateway key t = Some (Ok tt, t')
             /\ Interactive.stdin t' `suffix_of` Interactive.stdin t.
Proof.
  intros Hgw Hlen. pose proof (main_run key gateway fuel t) as H.
  unfold Interactive.__main__.
  destruct (Interactive.main fuel gateway key t) as [[[[]|e] t']|]; [| |lia].
  - destruct H as [(Hs & _) _]. by exists t'.
  - destruct H as [(Hs & _) He].
    destruct (is_KeyboardInterrupt e) eqn:Hk; [by eexists|].
    destruct (exc_is_Exception e) eqn:Hex; [by eexists|].
    destruct (He e eq_refl) as [-> | (_ & n & crew & Hraised)]; [done|].
    destruct (Hgw _ _ _ Hraised); congruence.
Qed.

End MainFacts.

(** ** One consultation at the terminal *)

Lemma menu_key_chosen (line : str) (item : str * str) :
  lookup Cli.specialists (strip line) = Some item ->
  snd (Cli.get_healthcare_specialist line) = Ok item.
Proof.
  intros Hl. unfold Cli.get_healthcare_specialist, mem.
  rewrite bool_decide_eq_true_2.
  - cbn [snd]. unfold getitem. by rewrite Hl.
  - destruct (decide (strip line ∈ keys Cli.specialists)) as [|Hn]; [done|].
    apply lookup_None_iff in Hn. congruence.
Qed.

Lemma occurs_in_write s t a :
  occurs_in s (Interactive.stdout t) ->
  occurs_in s (Interactive.stdout (Interactive.write a t)).
Proof. apply occurs_in_app_r. Qed.

Section TurnFacts.
Context {rt : PyRuntime} {term : PyTerminal}.

Lemma display_consultation_result_run success result specialist t :
  exists a b,
    Interactive.display_consultation_result success result specialist t
    = (Ok tt, Interactive.write (a ++ Cli.println result ++ b) t).
Proof.
  unfold Interactive.display_consultation_result.
  destruct success; io_prints; rewrite ?print_run, ?write_write;
    unfold mret, Interactive.IO_ret; rewrite <- ?app_assoc.
  - exists (Cli.println (nl ++ repeat_char 61 80)
            ++ Cli.println (Interactive.response_head ++ upper specialist
                            ++ Interactive.response_tail)
            ++ Cli.println (repeat_char 61 80) ++ Cli.println []).
    eexists. by rewrite <- !app_assoc.
  - exists (Cli.println (nl ++ repeat_char 61 80)
            ++ Cli.println Interactive.error_title
            ++ Cli.println (repeat_char 61 80) ++ Cli.println []).
    eexists. by rewrite <- !app_assoc.
Qed.

Lemma main_turn_consults key gateway t choice (body : list str) answer rest
    role description result :
  Interactive.stdin t = choice :: body ++ ([] : str) :: answer :: rest ->
  lookup Cli.specialists (strip choice) = Some (role, description) ->
  body <> [] -> Forall (fun line : str => line <> []) body ->
  strip (Interactive.join (py " ") body) <> [] ->
  gateway (length (Interactive.calls t))
    (consult_crew role (Interactive.join (py " ") body) key)
  = Returned result ->
  exists t5,
    Interactive.stdin t5 = rest
    /\ Interactive.calls t5
       = Interactive.calls t
           ++ [consult_crew role (Interactive.join (py " ") body) key]
    /\ occurs_in (Cli.println result) (Interactive.stdout t5)
    /\ Interactive.stdout t `prefix_of` Interactive.stdout t5
    /\ Interactive.main_turn gateway key t
       = (if bool_decide (lower (strip answer) ∉ [py "yes"; py "y"])
          then Interactive.print Interactive.thanks ;;
               Interactive.print Interactive.stay_healthy ;;
               Interactive.print (repeat_char 61 80) ;;
               mret false
          else Interactive.print Interactive.blank_lines ;;
               mret true) t5.
Proof.
  intros Hin Hl Hne Hbody Hq Hg. unfold Interactive.main_turn.
  erewrite io_bind_ok;
    [|by rewrite (get_healthcare_specialist_run t choice _ Hin),
         (menu_key_chosen _ _ Hl)].
  cbn [fst snd].
  do 2 (erewrite io_bind_ok by apply print_run).
  rewrite write_write.
  match goal with
  | |- context [(Interactive.get_health_query ≫= _) ?t2] =>
    assert (Interactive.get_health_query t2
            = (Ok (Interactive.join (py " ") body),
               {| Interactive.stdin := answer :: rest;
                  Interactive.stdout := Interactive.stdout t2 ++ query_banner;
                  Interactive.calls := Interactive.calls t |})) as Hquery
  end.
  { rewrite get_health_query_run.
    cbn [Interactive.stdin Interactive.write Interactive.calls].
    by rewrite (read_lines_collects [] body (answer :: rest)). }
  erewrite io_bind_ok by exact Hquery. clear Hquery.
  destruct (strip (Interactive.join (py " ") body)) as [|c q] eqn:Hs;
    [done|]. cbn [truthy negb].
  match goal with
  | |- context [(Interactive.consult_healthcare_agent _ _ _ _ _ ≫= _) ?t3] =>
    assert (Interactive.consult_healthcare_agent gateway role description
              (Interactive.join (py " ") body) key t3
            = (Ok (true, result),
               {| Interactive.stdin := answer :: rest;
                  Interactive.stdout :=
                    Interactive.stdout t3
                      ++ fst (Cli.consult_healthcare_agent
                                (gateway (length (Interactive.calls t)))
                                role description
                                (Interactive.join (py " ") body) key);
                  Interactive.calls :=
                    Interactive.calls t
                      ++ [consult_crew role (Interactive.join (py " ") body)
                            key] |})) as Hconsult
  end.
  { rewrite consult_healthcare_agent_run.
    cbn [Interactive.stdin Interactive.calls]. f_equal.
    unfold Cli.consult_healthcare_agent, Cli.try_except. cbn [snd].
    rewrite cli_config_total. cbn [mbind Result_bind].
    change (Cli.build_crew _ role _ key)
      with (consult_crew role (Interactive.join (py " ") body) key).
    by rewrite Hg. }
  erewrite io_bind_ok by exact Hconsult. clear Hconsult. cbn [fst snd].
  match goal with
  | |- context [(Interactive.display_consultation_result _ _ _ ≫= _) ?t4] =>
    destruct (display_consultation_result_run true result role t4)
      as (a & b & Hshow)
  end.
  erewrite io_bind_ok by exact Hshow. clear Hshow.
  erewrite io_bind_ok by apply print_run. rewrite write_write.
  erewrite io_bind_ok by (apply input_run; reflexivity).
  eexists. split; [|split; [|split; [|split; [|reflexivity]]]].
  - reflexivity.
  - reflexivity.
  - cbn [Interactive.stdout Interactive.write].
    apply occurs_in_app_r, occurs_in_app_l, occurs_in_app_r.
    apply occurs_in_app_l, occurs_in_app_r, occurs_in_refl.
  - cbn [Interactive.stdout Interactive.write].
    rewrite <- !app_assoc. by apply prefix_app_r.
Qed.

Lemma main_with_key (key : str) gateway fuel t :
  key <> [] ->
  exists s,
    Interactive.main fuel gateway (Some key) t
    = Interactive.main_loop fuel gateway key (Interactive.write s t).
Proof.
  intros Hkey. destruct (print_header_run t) as [s Hs]. exists s.
  unfold Interactive.main. cbn [default from_option id].
  destruct key as [|c key]; [done|]. cbn [truthy negb]. by rewrite Hs.
Qed.

(** X21. One consultation at the terminal. With the key set, the user
    types the key of a menu entry, then the lines of a query and an empty
    line; the gateway answers; the user declines another consultation.
    Then [main] returns normally after one turn: it has read exactly those
    lines, has handed the gateway one crew, for the chosen role and the
    lines joined by spaces, and has printed the answer and the farewell. *)
Theorem X21_one_consultation_at_the_terminal
    (fuel : nat) (gateway : nat -> Crew -> Kickoff) (key : str)
    (t : Interactive.Term) (choice : str) (body : list str)
    (answer : str) (rest : list str) (role description result : str) :
  key <> [] ->
  Interactive.stdin t = choice :: body ++ ([] : str) :: answer :: rest ->
  lookup Cli.specialists (strip choice) = Some (role, description) ->
  body <> [] -> Forall (fun line : str => line <> []) body ->
  let query := Interactive.join (py " ") body in
  strip query <> [] ->
  gateway (length (Interactive.calls t)) (consult_crew role query key)
  = Returned result ->
  lower (strip answer) ∉ [py "yes"; py "y"] ->
  exists t',
    Interactive.main (S fuel) gateway (Some key) t = Some (Ok tt, t')
    /\ Interactive.stdin t' = rest
    /\ Interactive.calls t'
       = Interactive.calls t ++ [consult_crew role query key]
    /\ CrewAI.role <$> agents (consult_crew role query key) = [role]
    /\ occurs_in (Cli.println result) (Interactive.stdout t')
    /\ occurs_in (Cli.println Interactive.thanks) (Interactive.stdout t').
Proof.
  intros Hkey Hin Hl Hne Hbody query Hq Hg Hno.
  destruct (main_with_key key gateway (S fuel) t Hkey) as [s ->].
  destruct (main_turn_consults key gateway (Interactive.write s t) choice
              body answer rest role description result)
    as (t5 & Hin5 & Hcalls & Hres & _ & Hturn); try done.
  cbn [Interactive.main_loop]. rewrite Hturn.
  rewrite bool_decide_eq_true_2 by done.
  io_prints.
  unfold mret, Interactive.IO_ret. eexists. split; [reflexivity|].
  split; [done|]. split; [done|]. split; [done|]. split.
  - by apply occurs_in_write.
  - cbn [Interactive.stdout Interactive.write].
    apply occurs_in_app_l, occurs_in_app_r, occurs_in_refl.
Qed.

(** X22. When the answer to "another consultation?" is "yes" or "y", in
    any case and with spaces around it, the same turn is followed by the
    next one: the loop goes on from the lines that are left, with the crew
    of this turn recorded. *)
Theorem X22_yes_starts_another_turn
    (fuel : nat) (gateway : nat -> Crew -> Kickoff) (key : str)
    (t : Interactive.Term) (choice : str) (body : list str)
    (answer : str) (rest : list str) (role description result : str) :
  Interactive.stdin t = choice :: body ++ ([] : str) :: answer :: rest ->
  lookup Cli.specialists (strip choice) = Some (role, description) ->
  body <> [] -> Forall (fun line : str => line <> []) body ->
  let query := Interactive.join (py " ") body in
  strip query <> [] ->
  gateway (length (Interactive.calls t)) (consult_crew role query key)
  = Returned result ->
  lower (strip answer) ∈ [py "yes"; py "y"] ->
  exists t',
    Interactive.main_loop (S fuel) gateway key t
    = Interactive.main_loop fuel gateway key t'
    /\ Interactive.stdin t' = rest
    /\ Interactive.calls t'
       = Interactive.calls t ++ [consult_crew role query key]
    /\ occurs_in (Cli.println result) (Interactive.stdout t').
Proof.
  intros Hin Hl Hne Hbody query Hq Hg Hyes.
  destruct (main_turn_consults key gateway t choice body answer rest role
              description result)
    as (t5 & Hin5 & Hcalls & Hres & _ & Hturn); try done.
  cbn [Interactive.main_loop]. rewrite Hturn.
  rewrite bool_decide_eq_false_2 by (by intros Hn).
  rewrite (io_bind_ok _ _ _ _ _ (print_run _ _)).
  unfold mret, Interactive.IO_ret. eexists. split; [reflexivity|].
  split; [done|]. split; [done|]. by apply occurs_in_write.
Qed.

End TurnFacts.

(* ================================================================== *)
(** * Animations *)
(* ================================================================== *)

Lemma list_sum_insert (f : nat -> nat) (l : list nat) (c x y : nat) :
  l !! c = Some x ->
  (list_sum (map f (<[c := y]> l)) + f x = list_sum (map f l) + f y)%nat.
Proof.
  revert c. induction l as [|a l IH]; intros c Hc; [done|].
  destruct c as [|c]; simpl in *.
  - injection Hc as ->. lia.
  - specialize (IH c Hc). lia.
Qed.

Lemma elem_of_map_snd_delete {A} (l : list (A * nat)) (i : nat) (d : A)
    (c c0 : nat) :
  l !! i = Some (d, c0) -> c <> c0 ->
  c ∈ map snd l -> c ∈ map snd (delete i l).
Proof.
  revert i. induction l as [|[d' c'] l IH]; intros i Hi Hne Hin; [done|].
  destruct i as [|i]; simpl in *.
  - injection Hi as -> ->. by apply elem_of_cons in Hin as [?|?].
  - apply elem_of_cons in Hin as [->|Hin]; [apply list_elem_of_here|].
    apply list_elem_of_further. by eapply IH.
Qed.

Lemma work_after_timer (m : AnimationManager.State) (i : nat) (d : Z)
    (c : nat) :
  animations_alive m ->
  AnimationManager.timers m !! i = Some (d, c) ->
  let m' :=
    AnimationManager.animate c d
      {| AnimationManager.animation_id := AnimationManager.animation_id m;
         AnimationManager.current_step := AnimationManager.current_step m;
         AnimationManager.timers := delete i (AnimationManager.timers m) |} in
  (S (work m') = work m)%nat /\ animations_alive m'.
Proof.
  intros Halive Hi m'.
  assert (S (length (delete i (AnimationManager.timers m)))
          = length (AnimationManager.timers m)) as Hlen.
  { rewrite length_delete by by eexists.
    apply lookup_lt_Some in Hi. lia. }
  subst m'. unfold AnimationManager.animate. simpl.
  destruct (AnimationManager.current_step m !! c) as [n|] eqn:Hc.
  - destruct (Halive c n Hc) as [Hle Hpending].
    destruct (Nat.ltb_spec n AnimationManager.steps) as [Hlt|Hge].
    + split.
      * unfold work. simpl. rewrite length_app. simpl.
        pose proof (list_sum_insert (fun n => AnimationManager.steps - n)%nat
                      _ c n (S n) Hc) as Hsum.
        simpl in Hsum. unfold AnimationManager.steps in *. lia.
      * intros c' n' Hc'. simpl in Hc'. simpl.
        destruct (decide (c' = c)) as [->|Hne].
        -- rewrite list_lookup_insert_eq in Hc'
             by by eapply lookup_lt_Some.
           injection Hc' as <-. split; [lia|]. intros _.
           rewrite map_app. apply elem_of_app. right. simpl.
           apply list_elem_of_here.
        -- rewrite list_lookup_insert_ne in Hc' by done.
           destruct (Halive c' n' Hc') as [Hle' Hp']. split; [done|].
           intros Hlt'. rewrite map_app. apply elem_of_app. left.
           eapply elem_of_map_snd_delete; [exact Hi | done | by apply Hp'].
    + split; [unfold work; simpl; lia|].
      intros c' n' Hc'. simpl in Hc'. simpl.
      destruct (Halive c' n' Hc') as [Hle' Hp']. split; [done|].
      intros Hlt'. eapply elem_of_map_snd_delete; [exact Hi | | by apply Hp'].
      intros ->. rewrite Hc in Hc'. injection Hc' as <-. lia.
  - split; [unfold work; simpl; lia|].
    intros c' n' Hc'. simpl in Hc'. simpl.
    destruct (Halive c' n' Hc') as [Hle' Hp']. split; [done|].
    intros Hlt'. eapply elem_of_map_snd_delete; [exact Hi | | by apply Hp'].
    intros ->. congruence.
Qed.

Lemma work_after_start (m : AnimationManager.State) (d : Z) :
  animations_alive m ->
  let m' :=
    {| AnimationManager.animation_id := S (AnimationManager.animation_id m);
       AnimationManager.current_step :=
         AnimationManager.current_step m ++ [0%nat];
       AnimationManager.timers :=
         AnimationManager.timers m
           ++ [(d, length (AnimationManager.current_step m))] |} in
  (work m' = work m + 21)%nat /\ animations_alive m'.
Proof.
  intros Halive m'. split.
  - unfold work. simpl. rewrite map_app, list_sum_app, length_app. simpl.
    unfold AnimationManager.steps. lia.
  - intros c n Hc. simpl in *. rewrite map_app. simpl.
    destruct (decide (c < length (AnimationManager.current_step m))%nat)
      as [Hlt|Hge].
    + rewrite lookup_app_l in Hc by done.
      destruct (Halive c n Hc) as [Hle Hp]. split; [done|].
      intros Hn. apply elem_of_app. left. by apply Hp.
    + rewrite lookup_app_r in Hc by lia.
      destruct (c - length (AnimationManager.current_step m))%nat
        as [|k] eqn:Hk; [|by destruct k].
      injection Hc as <-. split; [unfold AnimationManager.steps; lia|].
      intros _. apply elem_of_app. right.
      assert (c = length (AnimationManager.current_step m)) as -> by lia.
      apply list_elem_of_here.
Qed.

(** What every session of a manager keeps. *)
Lemma manager_session (evs : list AnimationManager.Event) :
  let tr := AnimationManager.session evs in
  AnimationManager.returned tr
  = seq 0 (length (AnimationManager.returned tr))
  /\ AnimationManager.animation_id (AnimationManager.manager tr)
     = length (AnimationManager.returned tr)
  /\ (AnimationManager.callbacks tr + work (AnimationManager.manager tr)
      = 21 * length (AnimationManager.returned tr))%nat
  /\ animations_alive (AnimationManager.manager tr).
Proof.
  unfold AnimationManager.session.
  induction evs as [|ev evs IH] using rev_ind; simpl.
  - repeat split; try done; by intros c n Hc.
  - rewrite fold_left_app. simpl.
    set (tr := fold_left (fun tr ev => AnimationManager.fire ev tr) evs _)
      in *.
    destruct IH as (Hids & Hid & Hwork & Halive).
    assert (forall d,
              let tr' :=
                {| AnimationManager.returned :=
                     AnimationManager.returned tr
                       ++ [AnimationManager.animation_id
                             (AnimationManager.manager tr)];
                   AnimationManager.callbacks := AnimationManager.callbacks tr;
                   AnimationManager.manager :=
                     snd (AnimationManager.fade_in d
                            (AnimationManager.manager tr)) |} in
              AnimationManager.returned tr'
              = seq 0 (length (AnimationManager.returned tr'))
              /\ AnimationManager.animation_id (AnimationManager.manager tr')
                 = length (AnimationManager.returned tr')
              /\ (AnimationManager.callbacks tr'
                  + work (AnimationManager.manager tr')
                  = 21 * length (AnimationManager.returned tr'))%nat
              /\ animations_alive (AnimationManager.manager tr')) as Hstart.
    { intros d tr'.
      destruct (work_after_start (AnimationManager.manager tr)
                  (d `div` Z.of_nat AnimationManager.steps)%Z Halive)
        as [Hw Ha].
      subst tr'. simpl. rewrite length_app, seq_app. simpl.
      split; [by rewrite <- Hids, Hid|]. split; [lia|].
      split; [|exact Ha]. rewrite Hw. lia. }
    destruct ev as [d|d|i]; simpl.
    + apply Hstart.
    + apply (Hstart d).
    + destruct (AnimationManager.timers (AnimationManager.manager tr) !! i)
        as [[d c]|] eqn:Hi; [|done].
      destruct (work_after_timer _ i d c Halive Hi) as [Hw Ha].
      simpl. split; [done|]. split; [|split; [lia | exact Ha]].
      unfold AnimationManager.animate. simpl.
      destruct (AnimationManager.current_step (AnimationManager.manager tr)
                  !! c) as [n|]; [|done].
      by destruct (n <? AnimationManager.steps)%nat.
Qed.

(** X23. The ids that [fade_in] and [slide_in] return are fresh: in every
    session of a manager, however its callbacks are interleaved, the calls
    return 0, 1, 2, ... in the order they are made, so no two animations
    share an id, and the counter is the number of calls made. *)
Theorem X23_animation_ids_are_fresh (evs : list AnimationManager.Event) :
  let tr := AnimationManager.session evs in
  AnimationManager.returned tr
  = seq 0 (length (AnimationManager.returned tr))
  /\ NoDup (AnimationManager.returned tr)
  /\ AnimationManager.animation_id (AnimationManager.manager tr)
     = length (AnimationManager.returned tr).
Proof.
  intros tr. destruct (manager_session evs) as (Hids & Hid & _).
  fold tr in Hids, Hid. split; [exact Hids|]. split; [|exact Hid].
  rewrite Hids. apply NoDup_seq.
Qed.

(** X24. Every animation ends. In every session the callbacks that have
    run and the work that is left (steps not yet made, callbacks scheduled)
    add up to 21 for each animation started: an animation makes its twenty
    steps and its callback runs once more. No animation makes more than
    twenty steps, and once no callback is scheduled every animation has made
    all of them. *)
Theorem X24_every_animation_makes_its_twenty_steps
    (evs : list AnimationManager.Event) :
  let tr := AnimationManager.session evs in
  let m := AnimationManager.manager tr in
  (AnimationManager.callbacks tr
   + list_sum (map (fun n => 20 - n)%nat (AnimationManager.current_step m))
   + length (AnimationManager.timers m)
   = 21 * length (AnimationManager.returned tr))%nat
  /\ Forall (fun n => n <= 20)%nat (AnimationManager.current_step m)
  /\ (AnimationManager.timers m = [] ->
      Forall (fun n => n = 20%nat) (AnimationManager.current_step m)
      /\ AnimationManager.callbacks tr
         = (21 * length (AnimationManager.returned tr))%nat).
Proof.
  intros tr m. destruct (manager_session evs) as (_ & _ & Hwork & Halive).
  fold tr in Hwork, Halive. fold m in Hwork, Halive.
  unfold work, AnimationManager.steps in Hwork.
  split; [lia|]. split.
  - apply Forall_lookup. intros c n Hc. by destruct (Halive c n Hc).
  - intros Hq.
    assert (Forall (fun n => n = 20%nat) (AnimationManager.current_step m))
      as Hdone.
    { apply Forall_lookup. intros c n Hc.
      destruct (Halive c n Hc) as [Hle Hp]. unfold AnimationManager.steps in *.
      destruct (decide (n < 20)%nat) as [Hlt|]; [|lia].
      specialize (Hp Hlt). rewrite Hq in Hp. by apply elem_of_nil in Hp. }
    split; [exact Hdone|]. rewrite Hq in Hwork. simpl in Hwork.
    assert (list_sum (map (fun n => 20 - n)%nat
                        (AnimationManager.current_step m)) = 0%nat) as Hz.
    { clear -Hdone. induction Hdone as [|n l -> _ IH]; [done|].
      simpl. exact IH. }
    lia.
Qed.

(** X25. The loading indicator. In every session its rotation is a
    multiple of ten degrees below 360, the canvas holds the circle exactly
    while the animation is running, and a running animation always has a
    callback scheduled. [stop] does not cancel that callback: stopping and
    starting a running animation leaves at least two scheduled, so that the
    indicator then turns more than once every 50 ms. *)
Theorem X25_loading_indicator_turns_while_running
    (evs : list LoadingAnimation.Event) :
  let l := LoadingAnimation.session evs in
  (0 <= LoadingAnimation.rotation l < 360)%Z
  /\ (LoadingAnimation.rotation l `mod` 10 = 0)%Z
  /\ LoadingAnimation.canvas_items l
     = (if LoadingAnimation.animation_running l then 1 else 0)%nat
  /\ (LoadingAnimation.animation_running l = true ->
      (1 <= LoadingAnimation.pending l)%nat
      /\ (2 <= LoadingAnimation.pending
                 (LoadingAnimation.start (LoadingAnimation.stop l)))%nat).
Proof.
  intros l.
  assert ((0 <= LoadingAnimation.rotation l < 360)%Z
          /\ (LoadingAnimation.rotation l `mod` 10 = 0)%Z
          /\ LoadingAnimation.canvas_items l
             = (if LoadingAnimation.animation_running l then 1 else 0)%nat
          /\ (LoadingAnimation.animation_running l = true ->
              (1 <= LoadingAnimation.pending l)%nat)) as (Hr & Hm & Hc & Hp).
  { subst l. unfold LoadingAnimation.session.
    induction evs as [|ev evs IH] using rev_ind; [by vm_compute|].
    rewrite fold_left_app. simpl.
    set (l := fold_left (fun l ev => LoadingAnimation.fire ev l) evs _) in *.
    destruct IH as (Hr & Hm & Hc & Hp).
    destruct l as [r running items p]. simpl in *.
    destruct ev; simpl.
    - repeat split; try lia; Z.div_mod_to_equations; lia.
    - done.
    - destruct p as [|p]; [done|].
      unfold LoadingAnimation.animate. simpl.
      destruct running; simpl; [|done].
      repeat split; try lia; Z.div_mod_to_equations; lia. }
  split; [exact Hr|]. split; [exact Hm|]. split; [exact Hc|].
  intros Hrun. split; [by apply Hp|].
  specialize (Hp Hrun). destruct l as [r running items p]. simpl in *. lia.
Qed.

(* ================================================================== *)
(** * Construction, and a blank query at the terminal *)
(* ================================================================== *)

(** X26. What the constructor leaves, whatever the key. The window is in
    demo mode exactly when the key is missing or empty, and only then has it
    shown the warning; no request is under way, the history is empty, the
    label reads "Ready", "Medical Advisor" is selected, the query box holds
    the placeholder, the read-only output box the welcome text and the
    History tab "No consultations yet"; nothing was printed and the gateway
    was not called. *)
Theorem X26_constructor_leaves_an_idle_window (key : option str) :
  let w := __init__ key in
  let demo := negb (from_option truthy false key) in
  demo_mode (self w) = demo
  /\ api_key (self w) = key
  /\ dialogs w
     = (if demo then [showwarning title_warning msg_no_api_key] else [])
  /\ is_processing (self w) = false
  /\ consultation_history (self w) = []
  /\ status_indicator (self w)
     = {| text := status_ready; text_color := get COLORS (py "success") [] |}
  /\ specialist_var (self w) = py "Medical Advisor"
  /\ query_input (self w) = {| content := placeholder; normal := true |}
  /\ output_text (self w) = {| content := welcome_text; normal := false |}
  /\ history_text (self w)
     = Some {| content := no_consultations_text; normal := false |}
  /\ threads w = [] /\ after_queue w = [] /\ gateway_log w = []
  /\ console w = [] /\ tk_faults w = [].
Proof.
  destruct key as [[|c k]|]; vm_compute; repeat split; reflexivity.
Qed.

Section BlankQuery.
Context {rt : PyRuntime} {term : PyTerminal}.

(** X27. A query of white space only is not sent. When the lines typed
    for the query are not empty but trim to nothing once joined, the turn
    prints "No query entered", hands nothing to the gateway and the loop
    goes on with the next turn, whatever was chosen at the menu. *)
Theorem X27_blank_query_is_not_sent
    (fuel : nat) (gateway : nat -> Crew -> Kickoff) (key : str)
    (t : Interactive.Term) (choice : str) (body rest : list str) :
  Interactive.stdin t = choice :: body ++ ([] : str) :: rest ->
  body <> [] -> Forall (fun line : str => line <> []) body ->
  strip (Interactive.join (py " ") body) = [] ->
  exists t',
    Interactive.main_loop (S fuel) gateway key t
    = Interactive.main_loop fuel gateway key t'
    /\ Interactive.stdin t' = rest
    /\ Interactive.calls t' = Interactive.calls t
    /\ occurs_in (Cli.println Interactive.no_query_entered)
         (Interactive.stdout t').
Proof.
  intros Hin Hne Hbody Hblank.
  cbn [Interactive.main_loop]. unfold Interactive.main_turn.
  destruct (menu_choice choice) as (k & item & c & Hitem & _).
  erewrite io_bind_ok;
    [|by rewrite (get_healthcare_specialist_run t choice _ Hin), Hitem].
  do 2 (erewrite io_bind_ok by apply print_run).
  rewrite write_write.
  match goal with
  | |- context [(Interactive.get_health_query ≫= _) ?t2] =>
    assert (Interactive.get_health_query t2
            = (Ok (Interactive.join (py " ") body),
               {| Interactive.stdin := rest;
                  Interactive.stdout := Interactive.stdout t2 ++ query_banner;
                  Interactive.calls := Interactive.calls t |})) as Hquery
  end.
  { rewrite get_health_query_run.
    cbn [Interactive.stdin Interactive.write Interactive.calls].
    by rewrite (read_lines_collects [] body rest). }
  erewrite io_bind_ok by exact Hquery. clear Hquery.
  rewrite Hblank. cbn [truthy negb].
  erewrite io_bind_ok by apply print_run.
  unfold mret, Interactive.IO_ret.
  eexists. split; [reflexivity|]. split; [reflexivity|].
  split; [reflexivity|].
  cbn [Interactive.stdout Interactive.write].
  apply occurs_in_app_l, occurs_in_refl.
Qed.

End BlankQuery.

(* ================================================================== *)
(** * The theorems on sample runs *)
(* ================================================================== *)

(** X2 on the sample session. *)
Lemma X2_sample_round_witness :
  let w' :=
    session (rt := ascii_runtime)
      [ ([], ClickGetGuidance); ([], ThreadRuns 0 sample_now answering);
        ([], TkIdle) ] typed_world in
  is_processing (self typed_world) = false
  /\ gateway_log typed_world = []
  /\ is_processing (self w') = false
  /\ text (status_indicator (self w')) = status_complete
  /\ length (gateway_log w') = 1%nat
  /\ length (consultation_history (self w')) = 1%nat.
Proof.
  intros w'.
  assert (is_processing (self typed_world) = false) as Hp0
    by (vm_compute; reflexivity).
  assert (demo_mode (self typed_world) = false) as Hd0
    by (vm_compute; reflexivity).
  assert (threads typed_world = []) as Ht0 by (vm_compute; reflexivity).
  assert (after_queue typed_world = []) as Hq0 by (vm_compute; reflexivity).
  assert (gateway_log typed_world = []) as Hg0 by (vm_compute; reflexivity).
  assert (history_text (self typed_world)
          = Some {| content := no_consultations_text; normal := false |})
    as Hh0 by (vm_compute; reflexivity).
  assert (strip (get_all (query_input (self typed_world))) <> []) as H1
    by by_compute.
  assert (strip (get_all (query_input (self typed_world))) <> placeholder)
    as H2 by by_compute.
  split; [exact Hp0|]. split; [exact Hg0|].
  destruct (X2_successful_round (rt := ascii_runtime) typed_world sample_now
              answering
              {| content := no_consultations_text; normal := false |}
              (py "Eat low-glycemic foods.")
              Hp0 Hd0 Ht0 Hq0 Hh0 H1 H2 eq_refl)
    as (Hp & Hs & _ & _ & _ & Hh & _ & _ & _ & Hg & _).
  split; [exact Hp|]. split; [exact Hs|]. split.
  - fold w' in Hg. rewrite Hg, Hg0. reflexivity.
  - fold w' in Hh. rewrite Hh.
    assert (consultation_history (self typed_world) = []) as ->
      by (vm_compute; reflexivity).
    reflexivity.
Defined.

(** X3 on a request whose thread ended with [SystemExit]. *)
Lemma X3_abandoned_request_witness :
  let w' := session (rt := ascii_runtime) demo_steps abandoned_world in
  is_processing (self abandoned_world) = true
  /\ threads abandoned_world = [] /\ after_queue abandoned_world = []
  /\ is_processing (self w') = true
  /\ dialogs (snd (run_consultation w'))
     = dialogs w' ++ [showwarning title_processing msg_processing].
Proof.
  intros w'.
  assert (is_processing (self abandoned_world) = true) as H1
    by (vm_compute; reflexivity).
  assert (threads abandoned_world = []) as H2 by (vm_compute; reflexivity).
  assert (after_queue abandoned_world = []) as H3
    by (vm_compute; reflexivity).
  split; [exact H1|]. split; [exact H2|]. split; [exact H3|].
  destruct (X3_flag_stays_set_when_nothing_is_under_way
              (rt := ascii_runtime) abandoned_world demo_steps
              (tk_faults w') H1 H2 H3)
    as (Hp & _ & _ & Hrun).
  split; [exact Hp|]. fold w' in Hrun.
  rewrite set_tk_faults_same in Hrun. by rewrite Hrun.
Defined.

(** X5 on the freshly built window, whose query box holds the
    placeholder. *)
Lemma X5_fresh_window_witness :
  tk_faults ready_world = []
  /\ normal (query_input (self ready_world)) = true
  /\ content (query_input (self ready_world)) = placeholder
  /\ content (query_input (self (snd (_clear_placeholder ready_world)))) = []
  /\ content
       (query_input
          (self (snd (_add_placeholder (snd (_clear_placeholder ready_world))))))
     = placeholder.
Proof.
  assert (tk_faults ready_world = []) as Hf by (vm_compute; reflexivity).
  assert (normal (query_input (self ready_world)) = true) as Hn
    by (vm_compute; reflexivity).
  assert (content (query_input (self ready_world)) = placeholder) as Hc
    by (vm_compute; reflexivity).
  split; [exact Hf|]. split; [exact Hn|]. split; [exact Hc|].
  destruct (X5_placeholder_comes_and_goes ready_world Hf Hn)
    as (Hin & _ & _ & _ & _ & Hback).
  split; [exact (Hin Hc) | exact (Hback Hc)].
Defined.

(** X6 on the sample session, once the answer is displayed. *)
Lemma X6_answered_session_witness :
  let w := session (rt := ascii_runtime) answered_steps
             (__init__ (Some (py "key"))) in
  fault_free answered_steps
  /\ after_queue w = []
  /\ length (consultation_history (self w)) = 1%nat
  /\ history_text (self w)
     = Some {| content := history_view (consultation_history (self w));
               normal := false |}.
Proof.
  intros w.
  assert (fault_free answered_steps) as Hfree.
  { unfold fault_free, answered_steps, sample_steps. simpl.
    repeat (apply Forall_cons; split; [reflexivity|]). apply Forall_nil_2. }
  assert (after_queue w = []) as Hq by (vm_compute; reflexivity).
  split; [exact Hfree|]. split; [exact Hq|].
  split; [vm_compute; reflexivity|].
  destruct (X6_history_tab_follows_the_history (rt := ascii_runtime)
              (Some (py "key")) answered_steps Hfree)
    as (seen & waiting & _ & _ & _ & Ht & Hall).
  fold w in Ht, Hall. rewrite Ht. by rewrite (Hall Hq).
Defined.

(** X7 on the sample session: the refresh of the History tab fails. *)
Lemma X7_history_refresh_fails_witness :
  let out := display_result (py "Eat low-glycemic foods.")
               failing_display_world in
  (6 < 10)%nat
  /\ tk_faults failing_display_world = fault_at 6 render_fault
  /\ fst out = Ok tt
  /\ is_processing (self (snd out)) = false
  /\ text (status_indicator (self (snd out))) = status_error
  /\ content (output_text (self (snd out))) = py "Eat low-glycemic foods.".
Proof.
  intros out. assert (6 < 10)%nat as Hk by lia.
  assert (tk_faults failing_display_world = fault_at 6 render_fault) as Hf
    by reflexivity.
  assert (history_text (self failing_display_world)
          = Some {| content := no_consultations_text; normal := false |})
    as Hh by (vm_compute; reflexivity).
  split; [exact Hk|]. split; [exact Hf|].
  destruct (X7_failed_display_reports_error failing_display_world
              (py "Eat low-glycemic foods.") 6
              (fst render_fault) (snd render_fault)
              {| content := no_consultations_text; normal := false |}
              Hk Hf Hh)
    as (Hr & Hp & Hs & _ & _ & Hout).
  fold out in Hr, Hp, Hs, Hout.
  split; [exact Hr|]. split; [exact Hp|]. split; [by rewrite Hs|].
  rewrite Hout; [reflexivity | lia].
Defined.

(** X10 on a request in flight: the insertion of the message fails. *)
Lemma X10_insertion_fails_witness :
  let w := set_tk_faults (fault_at 2 render_fault) in_flight_world in
  let out := display_error (py "failed") w in
  (2 < 5)%nat
  /\ tk_faults w = fault_at 2 render_fault
  /\ is_processing (self w) = true
  /\ fst out = Raise (TclError (fst render_fault) (snd render_fault))
  /\ is_processing (self (snd out)) = true
  /\ dialogs (snd out) = dialogs w.
Proof.
  intros w out. assert (2 < 5)%nat as Hk by lia.
  assert (tk_faults w = fault_at 2 render_fault) as Hf by reflexivity.
  assert (is_processing (self w) = true) as Hp0 by (vm_compute; reflexivity).
  split; [exact Hk|]. split; [exact Hf|]. split; [exact Hp0|].
  destruct (X10_display_error_is_unguarded w (py "failed") 2
              (fst render_fault) (snd render_fault) Hk Hf)
    as (Hr & Hd & _ & Hp).
  fold out in Hr, Hd, Hp.
  split; [exact Hr|]. split; [by rewrite Hp, <- Hp0 | exact Hd].
Defined.

(** X12 on input that starts with an empty line. *)
Lemma X12_leading_blank_line_witness :
  let t := {| Interactive.stdin := [] :: sample_lines;
              Interactive.stdout := []; Interactive.calls := [] |} in
  Interactive.stdin t
  = [[]] ++ [py "4"; py "What should I eat"; py "for diabetes?"]
      ++ ([] : str) :: [py "no"]
  /\ fst (Interactive.get_health_query t)
     = Ok (py "4 What should I eat for diabetes?")
  /\ Interactive.stdin (snd (Interactive.get_health_query t)) = [py "no"].
Proof.
  intros t.
  assert (Interactive.stdin t
          = [[]] ++ [py "4"; py "What should I eat"; py "for diabetes?"]
              ++ ([] : str) :: [py "no"]) as Hin by reflexivity.
  split; [exact Hin|].
  assert (Forall (fun line : str => line = []) [[]]) as Hblank.
  { by apply Forall_singleton. }
  assert (Forall (fun line : str => line <> [])
            [py "4"; py "What should I eat"; py "for diabetes?"]) as Hbody.
  { repeat (apply Forall_cons; split; [done|]). apply Forall_nil_2. }
  assert ([py "4"; py "What should I eat"; py "for diabetes?"] <> [])
    as Hne by done.
  rewrite (X12_get_health_query_reads_one_paragraph t _ _ _ Hin Hblank Hbody
             Hne).
  split; reflexivity.
Defined.

(** X17 with no key in the environment. *)
Lemma X17_no_key_witness :
  let out := Interactive.main (rt := ascii_runtime) (term := ascii_terminal)
               0 cli_answering None sample_terminal in
  ((None : option str) = None \/ (None : option str) = Some [])
  /\ exists t', out = Some (Ok tt, t')
                /\ Interactive.stdin t' = sample_lines
                /\ Interactive.calls t' = [].
Proof.
  intros out.
  assert ((None : option str) = None \/ (None : option str) = Some []) as H
    by by left.
  split; [exact H|]. subst out.
  rewrite (X17_main_without_key_only_reports (rt := ascii_runtime)
             (term := ascii_terminal) 0 cli_answering None sample_terminal H).
  eexists. split; [reflexivity|]. split; reflexivity.
Defined.

(** X18 on the sample input. *)
Lemma X18_sample_input_witness :
  (length (Interactive.stdin sample_terminal) < 6)%nat /\ (6 <= 50)%nat
  /\ exists r t',
       Interactive.main (rt := ascii_runtime) (term := ascii_terminal)
         6 cli_answering (Some (py "key")) sample_terminal = Some (r, t')
       /\ Interactive.main (rt := ascii_runtime) (term := ascii_terminal)
            50 cli_answering (Some (py "key")) sample_terminal = Some (r, t').
Proof.
  assert (length (Interactive.stdin sample_terminal) < 6)%nat as H1
    by (vm_compute; lia).
  assert (6 <= 50)%nat as H2 by lia.
  split; [exact H1|]. split; [exact H2|].
  exact (X18_main_ends_when_the_input_does (rt := ascii_runtime)
           (term := ascii_terminal) 6 50 cli_answering (Some (py "key"))
           sample_terminal H1 H2).
Defined.

(** X19 on the input that asks for a second consultation and ends. *)
Lemma X19_cut_short_witness :
  exists r t',
    Interactive.main (rt := ascii_runtime) (term := ascii_terminal)
      2 cli_answering (Some (py "key")) eager_terminal = Some (r, t')
    /\ r = Raise Interactive.EOFError
    /\ (exists new,
          Interactive.calls t' = Interactive.calls eager_terminal ++ new
          /\ length new = 1%nat).
Proof.
  destruct (Interactive.main (rt := ascii_runtime) (term := ascii_terminal)
              2 cli_answering (Some (py "key")) eager_terminal)
    as [[r t']|] eqn:Hmain.
  - exists r, t'. split; [reflexivity|].
    destruct (X19_main_only_consults_menu_specialists (rt := ascii_runtime)
                (term := ascii_terminal) 2 cli_answering (Some (py "key"))
                eager_terminal t' r Hmain)
      as (_ & _ & (new & Hcalls & _) & _).
    vm_compute in Hmain. injection Hmain as <- <-.
    split; [reflexivity|]. exists new. split; [exact Hcalls|].
    vm_compute in Hcalls. destruct new as [|c [|c' new]]; [done|done|].
    by injection Hcalls.
  - exfalso. vm_compute in Hmain. discriminate Hmain.
Defined.

(** X20 on the same input: the [EOFError] is reported, not propagated. *)
Lemma X20_cut_short_witness :
  (forall n crew e, cli_answering n crew = Raised e ->
     exc_is_Exception e = true
     \/ is_KeyboardInterrupt (PyTerminal := ascii_terminal) e = true)
  /\ (length (Interactive.stdin eager_terminal) < 6)%nat
  /\ exists t',
       Interactive.__main__ (rt := ascii_runtime) (term := ascii_terminal)
         6 cli_answering (Some (py "key")) eager_terminal = Some (Ok tt, t').
Proof.
  assert (forall n crew e, cli_answering n crew = Raised e ->
            exc_is_Exception e = true
            \/ is_KeyboardInterrupt (PyTerminal := ascii_terminal) e = true)
    as Hgw by (intros n crew e H; discriminate H).
  assert (length (Interactive.stdin eager_terminal) < 6)%nat as Hlen
    by (vm_compute; lia).
  split; [exact Hgw|]. split; [exact Hlen|].
  destruct (X20_script_ends_normally (rt := ascii_runtime)
              (term := ascii_terminal) 6 cli_answering (Some (py "key"))
              eager_terminal Hgw Hlen) as (t' & Hrun & _).
  by exists t'.
Defined.

(** X21 on the sample input. *)
Lemma X21_sample_consultation_witness :
  lookup Cli.specialists (strip (py "4"))
  = Some (py "Nutrition Specialist",
          py "Dietary guidance and nutritional advice")
  /\ (lower (PyTerminal := ascii_terminal) (strip (py "no"))
      ∉ [py "yes"; py "y"])
  /\ exists t',
       Interactive.main (rt := ascii_runtime) (term := ascii_terminal)
         1 cli_answering (Some (py "key")) sample_terminal = Some (Ok tt, t')
       /\ Interactive.stdin t' = []
       /\ length (Interactive.calls t') = 1%nat
       /\ occurs_in (Cli.println (py "Eat low-glycemic foods."))
            (Interactive.stdout t').
Proof.
  assert (lookup Cli.specialists (strip (py "4"))
          = Some (py "Nutrition Specialist",
                  py "Dietary guidance and nutritional advice")) as Hl
    by reflexivity.
  assert (lower (PyTerminal := ascii_terminal) (strip (py "no"))
          ∉ [py "yes"; py "y"]) as Hno by by_compute.
  split; [exact Hl|]. split; [exact Hno|].
  assert (py "key" <> []) as Hkey by done.
  assert ([py "What should I eat"; py "for diabetes?"] <> []) as Hne by done.
  assert (Forall (fun line : str => line <> [])
            [py "What should I eat"; py "for diabetes?"]) as Hbody.
  { repeat (apply Forall_cons; split; [done|]). apply Forall_nil_2. }
  assert (strip (Interactive.join (py " ")
                   [py "What should I eat"; py "for diabetes?"]) <> [])
    as Hq by by_compute.
  destruct (X21_one_consultation_at_the_terminal (rt := ascii_runtime)
              (term := ascii_terminal) 0 cli_answering (py "key")
              sample_terminal (py "4")
              [py "What should I eat"; py "for diabetes?"] (py "no") []
              (py "Nutrition Specialist")
              (py "Dietary guidance and nutritional advice")
              (py "Eat low-glycemic foods.")
              Hkey eq_refl Hl Hne Hbody Hq eq_refl Hno)
    as (t' & Hrun & Hin & Hcalls & _ & Hres & _).
  exists t'. split; [exact Hrun|]. split; [exact Hin|].
  split; [by rewrite Hcalls | exact Hres].
Defined.

(** X22 on the input that asks for a second consultation. *)
Lemma X22_second_turn_witness :
  (lower (PyTerminal := ascii_terminal) (strip (py " YES "))
   ∈ [py "yes"; py "y"])
  /\ exists t',
       Interactive.main_loop (rt := ascii_runtime) (term := ascii_terminal)
         2 cli_answering (py "key") eager_terminal
       = Interactive.main_loop (rt := ascii_runtime) (term := ascii_terminal)
           1 cli_answering (py "key") t'
       /\ Interactive.stdin t' = [py "9"]
       /\ length (Interactive.calls t') = 1%nat.
Proof.
  assert (lower (PyTerminal := ascii_terminal) (strip (py " YES "))
          ∈ [py "yes"; py "y"]) as Hyes by by_compute.
  split; [exact Hyes|].
  assert (lookup Cli.specialists (strip (py " 2 "))
          = Some (py "Symptom Analyzer",
                  py "Analyze symptoms and suggest possible conditions"))
    as Hl by reflexivity.
  assert ([py "I have a headache"] <> []) as Hne by done.
  assert (Forall (fun line : str => line <> []) [py "I have a headache"])
    as Hbody by (by apply Forall_singleton).
  assert (strip (Interactive.join (py " ") [py "I have a headache"]) <> [])
    as Hq by by_compute.
  destruct (X22_yes_starts_another_turn (rt := ascii_runtime)
              (term := ascii_terminal) 1 cli_answering (py "key")
              eager_terminal (py " 2 ") [py "I have a headache"]
              (py " YES ") [py "9"] (py "Symptom Analyzer")
              (py "Analyze symptoms and suggest possible conditions")
              (py "Eat low-glycemic foods.")
              eq_refl Hl Hne Hbody Hq eq_refl Hyes)
    as (t' & Hrun & Hin & Hcalls & _).
  exists t'. split; [exact Hrun|]. split; [exact Hin|]. by rewrite Hcalls.
Defined.

(** X27 on a query that is a single space. *)
Lemma X27_space_only_witness :
  let t := {| Interactive.stdin := [py "3"; py " "; []; py "1"];
              Interactive.stdout := []; Interactive.calls := [] |} in
  strip (Interactive.join (py " ") [py " "]) = []
  /\ exists t',
       Interactive.main_loop (rt := ascii_runtime) (term := ascii_terminal)
         1 cli_answering (py "key") t
       = Interactive.main_loop (rt := ascii_runtime) (term := ascii_terminal)
           0 cli_answering (py "key") t'
       /\ Interactive.stdin t' = [py "1"]
       /\ Interactive.calls t' = [].
Proof.
  intros t.
  assert (strip (Interactive.join (py " ") [py " "]) = []) as Hblank
    by reflexivity.
  split; [exact Hblank|].
  assert ([py " "] <> []) as Hne by done.
  assert (Forall (fun line : str => line <> []) [py " "]) as Hbody
    by (by apply Forall_singleton).
  destruct (X27_blank_query_is_not_sent (rt := ascii_runtime)
              (term := ascii_terminal) 0 cli_answering (py "key") t (py "3")
              [py " "] [py "1"] eq_refl Hne Hbody Hblank)
    as (t' & Hrun & Hin & Hcalls & _).
  exists t'. split; [exact Hrun|]. split; [exact Hin | exact Hcalls].
Defined.

(** X28 on the sample session: the connection times out. *)
Lemma X28_timeout_round_witness :
  let w' :=
    session (rt := ascii_runtime)
      [ ([], ClickGetGuidance); ([], ThreadRuns 0 sample_now timing_out);
        ([], TkIdle) ] typed_world in
  is_processing (self typed_world) = false
  /\ exc_is_Exception connection_error = true
  /\ is_processing (self w') = false
  /\ text (status_indicator (self w')) = status_complete
  /\ occurs_in (exc_str connection_error) (content (output_text (self w')))
  /\ dialogs w' = dialogs typed_world.
Proof.
  intros w'.
  assert (is_processing (self typed_world) = false) as Hp0
    by (vm_compute; reflexivity).
  assert (demo_mode (self typed_world) = false) as Hd0
    by (vm_compute; reflexivity).
  assert (threads typed_world = []) as Ht0 by (vm_compute; reflexivity).
  assert (after_queue typed_world = []) as Hq0 by (vm_compute; reflexivity).
  assert (history_text (self typed_world)
          = Some {| content := no_consultations_text; normal := false |})
    as Hh0 by (vm_compute; reflexivity).
  assert (strip (get_all (query_input (self typed_world))) <> []) as H1
    by by_compute.
  assert (strip (get_all (query_input (self typed_world))) <> placeholder)
    as H2 by by_compute.
  assert (exc_is_Exception connection_error = true) as He by reflexivity.
  split; [exact Hp0|]. split; [exact He|].
  destruct (X28_failed_round_ends_as_complete (rt := ascii_runtime)
              typed_world sample_now timing_out
              {| content := no_consultations_text; normal := false |}
              connection_error Hp0 Hd0 Ht0 Hq0 Hh0 H1 H2 eq_refl He)
    as (Hp & Hs & Hout & Hcause & _ & _ & _ & _ & _ & _ & _ & Hd).
  fold w' in Hp, Hs, Hout, Hd.
  split; [exact Hp|]. split; [exact Hs|]. split; [|exact Hd].
  rewrite Hout. exact Hcause.
Defined.
